(** * Devlog front end: route guard, data hooks and archive gating

    A shallow embedding of the TypeScript sources of the Devlog web client
    ([src/middleware.ts], [src/hooks/*.ts] and the project / worklog pages)
    together with the properties its specification states about them.

    Conventions of the embedding.
    - A JavaScript string is a [string] of bytes, its UTF-8 encoding;
      [trim] and [length] are computed on that encoding, and the case
      mappings [toUpperCase] and [toLowerCase] are parameters of the
      functions that call them.
    - A JavaScript number that the code treats as a counter (HTTP status,
      page, limit, totals, timestamps in milliseconds) is a [Z]; the
      non-finite results a division can produce are kept apart in [jsnum].
    - React state is a record; a [setX] call is a record update.  An [async]
      function is cut at its [await]: the part that runs synchronously when
      the function is called, and the continuation that runs when the awaited
      promise settles, with the settled outcome as an argument.
    - [AbortController] objects are numbered; [abortRef] holds the number of
      the current one and the state keeps the set of aborted ones. *)

From Stdlib Require Import ZArith Ascii String List Bool Lia Sorting.Sorted.
From stdpp Require Import base decidable option list gmap strings.
Import ListNotations.
Local Open Scope string_scope.
Local Open Scope Z_scope.

(** ** JavaScript built-ins used by the sources *)
Module JS.

(** [x || d] for [x : string | undefined | null]. *)
Definition or_else (x : option string) (d : string) : string :=
  match x with
  | Some s => if String.eqb s "" then d else s
  | None => d
  end.

(** [!x] for [x : string | null]. *)
Definition falsy (x : option string) : bool :=
  match x with
  | Some s => String.eqb s ""
  | None => true
  end.

(** [s.startsWith(p)]. *)
Fixpoint startsWith (s p : string) {struct p} : bool :=
  match p with
  | EmptyString => true
  | String a p' =>
      match s with
      | EmptyString => false
      | String b s' => Ascii.eqb b a && startsWith s' p'
      end
  end.

(** [s.includes(p)]. *)
Fixpoint includes (s p : string) : bool :=
  startsWith s p ||
  match s with
  | EmptyString => false
  | String _ s' => includes s' p
  end.

(** The case mappings [toUpperCase] and [toLowerCase] work with the
    Unicode case tables (U+0131 goes to [I], U+017F to [S], ...); the code
    that calls them takes the built-in as a parameter.  On the ASCII
    letters they are the following two maps. *)
Definition is_lower (c : ascii) : bool :=
  let n := N_of_ascii c in (97 <=? n)%N && (n <=? 122)%N.

Definition upper_ascii (c : ascii) : ascii :=
  if is_lower c then ascii_of_N (N_of_ascii c - 32) else c.

(** The white space and line terminators of one byte: TAB, LF, VT, FF, CR
    and SPACE. *)
Definition is_space (c : ascii) : bool :=
  let n := N_of_ascii c in
  ((9 <=? n)%N && (n <=? 13)%N) || (n =? 32)%N.

(** U+00A0 (no-break space) is [C2 A0] in UTF-8. *)
Definition is_space2 (c1 c2 : ascii) : bool :=
  (N_of_ascii c1 =? 194)%N && (N_of_ascii c2 =? 160)%N.

(** The white space and line terminators of three bytes: U+1680
    ([E1 9A 80]), U+2000 to U+200A ([E2 80 80] to [E2 80 8A]), U+2028 and
    U+2029 ([E2 80 A8], [E2 80 A9]), U+202F ([E2 80 AF]), U+205F
    ([E2 81 9F]), U+3000 ([E3 80 80]) and U+FEFF ([EF BB BF]). *)
Definition is_space3 (c1 c2 c3 : ascii) : bool :=
  let a := N_of_ascii c1 in
  let b := N_of_ascii c2 in
  let c := N_of_ascii c3 in
  ((a =? 225) && (b =? 154) && (c =? 128))%N
  || ((a =? 226) && (b =? 128)
      && (((128 <=? c) && (c <=? 138)) || (c =? 168) || (c =? 169) || (c =? 175)))%N
  || ((a =? 226) && (b =? 129) && (c =? 159))%N
  || ((a =? 227) && (b =? 128) && (c =? 128))%N
  || ((a =? 239) && (b =? 187) && (c =? 191))%N.

(** The rest of [s] after the character it starts with, when that
    character is one [trim] strips: WhiteSpace or LineTerminator. *)
Definition skip_space (s : string) : option string :=
  match s with
  | EmptyString => None
  | String c1 s1 =>
      if is_space c1 then Some s1
      else
        match s1 with
        | EmptyString => None
        | String c2 s2 =>
            if is_space2 c1 c2 then Some s2
            else
              match s2 with
              | EmptyString => None
              | String c3 s3 => if is_space3 c1 c2 c3 then Some s3 else None
              end
        end
  end.

(** [s.trimStart()]: the leading white space is dropped. *)
Fixpoint trimStart (s : string) : string :=
  match s with
  | EmptyString => EmptyString
  | String c1 s1 =>
      if is_space c1 then trimStart s1
      else
        match s1 with
        | EmptyString => s
        | String c2 s2 =>
            if is_space2 c1 c2 then trimStart s2
            else
              match s2 with
              | EmptyString => s
              | String c3 s3 => if is_space3 c1 c2 c3 then trimStart s3 else s
              end
        end
  end.

(** [s] is made of white space only. *)
Fixpoint all_space (s : string) : bool :=
  match s with
  | EmptyString => true
  | String c1 s1 =>
      if is_space c1 then all_space s1
      else
        match s1 with
        | EmptyString => false
        | String c2 s2 =>
            if is_space2 c1 c2 then all_space s2
            else
              match s2 with
              | EmptyString => false
              | String c3 s3 => is_space3 c1 c2 c3 && all_space s3
              end
        end
  end.

(** [s.trimEnd()]: the text is cut where nothing but white space
    follows. *)
Fixpoint trimEnd (s : string) : string :=
  match s with
  | EmptyString => EmptyString
  | String c s' => if all_space s then EmptyString else String c (trimEnd s')
  end.

(** [s.trim()]. *)
Definition trim (s : string) : string := trimEnd (trimStart s).

(** [s.length]: the number of UTF-16 code units of [s].  A character of
    one, two or three bytes of UTF-8 (lead byte below [80] or from [C0] to
    [EF]) is one unit, a character of four bytes (lead byte from [F0]) is a
    surrogate pair, and a continuation byte ([80] to [BF]) adds nothing. *)
Fixpoint utf16_length (s : string) : nat :=
  match s with
  | EmptyString => 0%nat
  | String c s' =>
      let n := N_of_ascii c in
      ((if (n <? 128)%N then 1
        else if (n <? 192)%N then 0
        else if (n <? 240)%N then 1
        else 2) + utf16_length s')%nat
  end.

Definition hex_digit (n : N) : ascii :=
  if (n <? 10)%N then ascii_of_N (48 + n) else ascii_of_N (55 + n).

(** [%XX] with upper-case hexadecimal digits. *)
Definition percent (c : ascii) : string :=
  let n := N_of_ascii c in
  String "%" (String (hex_digit (n / 16)) (String (hex_digit (n mod 16)) EmptyString)).

Definition is_alnum (c : ascii) : bool :=
  let n := N_of_ascii c in
  ((48 <=? n)%N && (n <=? 57)%N) ||
  ((65 <=? n)%N && (n <=? 90)%N) ||
  ((97 <=? n)%N && (n <=? 122)%N).

Definition mem_ascii (c : ascii) (l : list ascii) : bool :=
  existsb (Ascii.eqb c) l.

(** Characters [encodeURIComponent] leaves alone: alphanumerics and
    [- _ . ! ~ * ' ( )]. *)
Definition uri_unreserved (c : ascii) : bool :=
  is_alnum c ||
  mem_ascii c ["-"; "_"; "."; "!"; "~"; "*"; "'"; "("; ")"]%char.

(** [encodeURIComponent(s)] on the UTF-8 bytes of [s]. *)
Fixpoint encodeURIComponent (s : string) : string :=
  match s with
  | EmptyString => EmptyString
  | String c s' =>
      (if uri_unreserved c then String c EmptyString else percent c)
        ++ encodeURIComponent s'
  end.

(** The [application/x-www-form-urlencoded] byte serializer used by
    [URLSearchParams.prototype.toString]: alphanumerics and [* - . _] are
    kept, a space becomes [+], every other byte is percent-encoded. *)
Definition form_byte (c : ascii) : string :=
  if is_alnum c || mem_ascii c ["*"; "-"; "."; "_"]%char then String c EmptyString
  else if Ascii.eqb c " " then "+"
  else percent c.

Fixpoint form_encode (s : string) : string :=
  match s with
  | EmptyString => EmptyString
  | String c s' => form_byte c ++ form_encode s'
  end.

Fixpoint digits_pos (fuel : nat) (n : N) (acc : string) : string :=
  match fuel with
  | O => acc
  | S fuel' =>
      let acc' := String (ascii_of_N (48 + n mod 10)) acc in
      if (n <? 10)%N then acc' else digits_pos fuel' (n / 10) acc'
  end.

(** [String(n)] for a non-negative integer. *)
Definition string_of_N (n : N) : string :=
  digits_pos (S (N.to_nat (N.log2 n))) n EmptyString.

(** [String(z)] for an integer. *)
Definition string_of_Z (z : Z) : string :=
  match z with
  | Z0 => "0"
  | Zpos p => string_of_N (Npos p)
  | Zneg p => String "-" (string_of_N (Npos p))
  end.

(** [params.set(k, v)] on an ordered parameter list: the first entry named
    [k] takes the value, later ones are dropped; a new name is appended. *)
Fixpoint params_set (k v : string) (l : list (string * string))
  : list (string * string) :=
  match l with
  | [] => [(k, v)]
  | (k', v') :: l' =>
      if String.eqb k' k
      then (k, v) :: List.filter (fun kv => negb (String.eqb (fst kv) k)) l'
      else (k', v') :: params_set k v l'
  end.

(** [params.get(k)]: the first value named [k]. *)
Fixpoint params_get (k : string) (l : list (string * string)) : option string :=
  match l with
  | [] => None
  | (k', v) :: l' => if String.eqb k' k then Some v else params_get k l'
  end.

(** [params.toString()]. *)
Definition params_toString (l : list (string * string)) : string :=
  String.concat "&"
    (List.map (fun kv => form_encode (fst kv) ++ "=" ++ form_encode (snd kv)) l).

Definition is_upper (c : ascii) : bool :=
  let n := N_of_ascii c in (65 <=? n)%N && (n <=? 90)%N.

Definition lower_ascii (c : ascii) : ascii :=
  if is_upper c then ascii_of_N (N_of_ascii c + 32) else c.

(** [s.toLowerCase()] on a string of ASCII characters. *)
Fixpoint ascii_toLowerCase (s : string) : string :=
  match s with
  | EmptyString => EmptyString
  | String c s' => String (lower_ascii c) (ascii_toLowerCase s')
  end.

(** Every character of [s] is an ASCII character. *)
Definition is_ascii (s : string) : bool :=
  forallb (fun c => (N_of_ascii c <? 128)%N) (list_ascii_of_string s).

(** The character [c] does not occur in [s]. *)
Definition no_char (c : ascii) (s : string) : bool :=
  negb (existsb (Ascii.eqb c) (list_ascii_of_string s)).

(** [x || undefined] for a string. *)
Definition or_undefined (x : string) : option string :=
  if String.eqb x "" then None else Some x.

(** [`${x}`] for [x : string | undefined]. *)
Definition template (x : option string) : string :=
  match x with
  | Some s => s
  | None => "undefined"
  end.

End JS.

(** ** [src/middleware.ts] *)
Module Middleware.
Import JS.

Definition ACCESS_TOKEN_COOKIE : string := "access_token".
Definition ROLE_COOKIE : string := "role".

Module Role.
Definition USER : string := "USER".
Definition ADMIN : string := "ADMIN".
End Role.

(** The parts of [req.nextUrl] the middleware reads. *)
Record NextUrl := {
  pathname : string;
  origin : string;
  search : string
}.

Record NextRequest := {
  nextUrl : NextUrl;
  cookies : gmap string string
}.

(** The arguments of [new URL(input, base)] and the parameters the
    [searchParams.set] calls that follow have set.  The reference is kept
    as the code passes it; [resolved_path] gives the path the URL parser
    resolves it to. *)
Record URL := {
  url_input : string;
  url_base : string;
  searchParams : list (string * string)
}.

Definition new_URL (input base : string) : URL :=
  {| url_input := input; url_base := base; searchParams := [] |}.

Definition searchParams_set (u : URL) (k v : string) : URL :=
  {| url_input := url_input u; url_base := url_base u;
     searchParams := params_set k v (searchParams u) |}.

Inductive NextResponse :=
| next
| redirect (url : URL).

Definition dashboardGroupPrefixes : list string :=
  ["/dashboard"; "/projects"; "/worklogs"; "/settings"].

(** [env] is [process.env.NEXT_PUBLIC_NO_AUTH_REDIRECT] and [toUpperCase]
    is [String.prototype.toUpperCase]. *)
Definition middleware (toUpperCase : string -> string) (env : option string)
    (req : NextRequest) : NextResponse :=
  let pathname := pathname (nextUrl req) in
  let origin := origin (nextUrl req) in
  let search := search (nextUrl req) in
  let isDashboard := existsb (fun p => startsWith pathname p) dashboardGroupPrefixes in
  let isAdmin := startsWith pathname "/admin" in
  if negb isDashboard && negb isAdmin then next
  else
    let token := or_else (cookies req !! ACCESS_TOKEN_COOKIE) "" in
    let role := toUpperCase (or_else (cookies req !! ROLE_COOKIE) "") in
    let loginPath := or_else env "/login" in
    if String.eqb token "" then
      let dest := encodeURIComponent (pathname ++ or_else (Some search) "") in
      let url := new_URL loginPath origin in
      redirect (searchParams_set url "d" dest)
    else if isDashboard && negb (String.eqb role Role.USER) then
      redirect (new_URL (if String.eqb role Role.ADMIN then "/admin" else loginPath) origin)
    else if isAdmin && negb (String.eqb role Role.ADMIN) then
      redirect (new_URL (if String.eqb role Role.USER then "/dashboard" else loginPath) origin)
    else next.

(** The vocabulary of the route-guard property. *)
Definition guardedPrefixes : list string :=
  ["/dashboard"; "/projects"; "/worklogs"; "/settings"; "/admin"].

Definition guarded (path : string) : bool :=
  existsb (fun p => startsWith path p) guardedPrefixes.

Definition inDashboardGroup (path : string) : bool :=
  existsb (fun p => startsWith path p) dashboardGroupPrefixes.

Definition path_of (req : NextRequest) : string := pathname (nextUrl req).

(** [req.cookies.get("access_token")?.value]. *)
Definition access_token (req : NextRequest) : option string :=
  cookies req !! ACCESS_TOKEN_COOKIE.

Definition token_of (req : NextRequest) : string :=
  or_else (cookies req !! ACCESS_TOKEN_COOKIE) "".

Definition role_of (toUpperCase : string -> string) (req : NextRequest) : string :=
  toUpperCase (or_else (cookies req !! ROLE_COOKIE) "").

Definition loginPath_of (env : option string) : string := or_else env "/login".

(** The redirect an unauthenticated request to [path ++ search] gets. *)
Definition login_redirect (env : option string) (req : NextRequest) : NextResponse :=
  redirect
    {| url_input := loginPath_of env;
       url_base := origin (nextUrl req);
       searchParams :=
         [("d", encodeURIComponent (pathname (nextUrl req) ++ search (nextUrl req)))] |}.

Definition plain_redirect (to : string) (req : NextRequest) : NextResponse :=
  redirect (new_URL to (origin (nextUrl req))).

(** A character a path segment keeps as it is: a letter, a digit, [-] or
    [_]. *)
Definition segment_char (c : ascii) : bool :=
  is_alnum c || mem_ascii c ["-"; "_"]%char.

Fixpoint segments (s : string) : bool :=
  match s with
  | EmptyString => true
  | String c s' => (segment_char c || Ascii.eqb c "/") && segments s'
  end.

(** A path-absolute reference the URL parser leaves as it is: [/] followed
    by segments of letters, digits, [-] and [_], not starting with [//].
    No scheme, no host, no relative path, no [.] or [..] segment, no query,
    no fragment, no backslash and nothing to percent-encode. *)
Definition simple_path (s : string) : bool :=
  match s with
  | String "/" EmptyString => true
  | String "/" (String c s') => segment_char c && segments s'
  | _ => false
  end.

(** The [pathname] of [new URL(input, base)] for an [http(s)] origin
    [base], where the reference is a [simple_path]: the reference itself.
    Other references (an absolute URL, a relative path, ...) resolve to
    paths that are not modelled. *)
Definition resolved_path (u : URL) : option string :=
  if simple_path (url_input u) then Some (url_input u) else None.

(** The request a browser sends when it follows a redirect to [u] on the
    same origin: the path [u] resolves to, the query [u] carries, and the
    cookies it sent before. *)
Definition follow (u : URL) (req : NextRequest) : option NextRequest :=
  match resolved_path u with
  | Some path =>
      Some {| nextUrl :=
                {| pathname := path;
                   origin := origin (nextUrl req);
                   search :=
                     match searchParams u with
                     | [] => ""
                     | params => "?" ++ params_toString params
                     end |};
              cookies := cookies req |}
  | None => None
  end.

(** [config.matcher]. *)
Definition matcher : list string :=
  ["/dashboard/:path*"; "/projects/:path*"; "/worklogs/:path*";
   "/settings/:path*"; "/admin/:path*"].

(** The literal part of a pattern that ends in [/:path*]. *)
Fixpoint literal (pattern : string) : string :=
  match pattern with
  | EmptyString => EmptyString
  | String c rest =>
      if String.eqb pattern "/:path*" then EmptyString else String c (literal rest)
  end.

(** [:path*] stands for zero or more path segments: the pattern matches
    its literal part and every path below it. *)
Definition matches (pattern path : string) : bool :=
  String.eqb path (literal pattern) || startsWith path (literal pattern ++ "/").

(** The middleware is run for the request. *)
Definition matched (path : string) : bool :=
  existsb (fun pattern => matches pattern path) matcher.

End Middleware.

(** ** Numbers and loosely typed JSON fields *)
Module Num.

(** A JavaScript number as the pagination code meets it: an integer or one
    of the non-finite values a division can return. *)
Inductive jsnum :=
| Fin (z : Z)
| PInf
| NInf
| NaN.

(** [x - 1]. *)
Definition pred (x : jsnum) : jsnum :=
  match x with
  | Fin z => Fin (z - 1)
  | other => other
  end.

(** [Math.max(a, b)]: [NaN] is contagious. *)
Definition max (a b : jsnum) : jsnum :=
  match a, b with
  | NaN, _ | _, NaN => NaN
  | PInf, _ | _, PInf => PInf
  | NInf, y => y
  | x, NInf => x
  | Fin x, Fin y => Fin (Z.max x y)
  end.

(** Ceiling of the exact quotient of two integers, [b <> 0]. *)
Definition cdiv (a b : Z) : Z := - ((- a) / b).

(** [Math.ceil(a / b)]. *)
Definition ceil_div (a b : jsnum) : jsnum :=
  match a, b with
  | NaN, _ | _, NaN => NaN
  | Fin x, Fin y =>
      if y =? 0 then
        if x =? 0 then NaN else if 0 <? x then PInf else NInf
      else Fin (cdiv x y)
  | Fin _, (PInf | NInf) => Fin 0
  | (PInf | NInf), (PInf | NInf) => NaN
  | PInf, Fin y => if 0 <=? y then PInf else NInf
  | NInf, Fin y => if 0 <=? y then NInf else PInf
  end.

(** A JSON field whose static type is [number] but whose run-time type the
    code tests with [typeof]. *)
Inductive jsval :=
| Number (n : jsnum)
| Str (s : string)
| Null
| Undefined.

(** [typeof v === "number"]. *)
Definition is_number (v : jsval) : bool :=
  match v with
  | Number _ => true
  | _ => false
  end.

(** [v ?? d]. *)
Definition nullish_or (v : jsval) (d : jsval) : jsval :=
  match v with
  | Null | Undefined => d
  | _ => v
  end.

End Num.

(** ** The REST data transfer objects ([src/hooks/use-dashboard.ts]) *)
Module Dto.
Import Num.

Record UserInfo := {
  user_id : string;
  email : string;
  fullName : string;
  role_name : string;
  isActive : bool;
  user_createdAt : string
}.

Record ProjectItem := {
  project_id : string;
  title : string;
  description : string;
  techStack : string;
  status : string;
  project_createdAt : string
}.

Record WorklogItem := {
  worklog_id : string;
  logDate : string;
  activityType : string;
  summary : string;
  timeSpent : Z;
  blockers : string;
  createdAt : string;
  projectId : option string
}.

Record Meta := {
  page : jsval;
  limit : jsval;
  totalItems : jsval;
  totalPages : jsval
}.

(** [ProjectsResponse] and [WorklogsResponse] have the same shape; the
    fields are optional because the same type is cast onto error bodies. *)
Record ListResponse (I : Type) := {
  success : option bool;
  message : option string;
  data : option (list I);
  meta : option Meta
}.
Arguments success {I} _.
Arguments message {I} _.
Arguments data {I} _.
Arguments meta {I} _.

Definition ProjectsResponse := ListResponse ProjectItem.
Definition WorklogsResponse := ListResponse WorklogItem.

Record MeResponse := {
  me_success : option bool;
  me_message : option string;
  me_data : option UserInfo
}.

(** The body of a DELETE answer: [{ success?: boolean; message?: string }]. *)
Record DeleteBody := {
  del_success : option bool;
  del_message : option string
}.

(** [ApiErrorBody] of [use-auth]. *)
Record ApiErrorBody := {
  err_message : option string;
  err_error : option string;
  err_statusCode : option Z
}.

(** [ProjectStatus] of [use-project-detail]. *)
Module ProjectStatus.
Definition ACTIVE : string := "ACTIVE".
Definition ARCHIVED : string := "ARCHIVED".
End ProjectStatus.

(** Items the list hooks filter by [id]. *)
Class HasId (I : Type) := id_of : I -> string.
#[export] Instance ProjectItem_id : HasId ProjectItem := project_id.
#[export] Instance WorklogItem_id : HasId WorklogItem := worklog_id.

(** Bodies read through [(body as { message?: string } | null)?.message]. *)
Class HasMessage (B : Type) := message_of : B -> option string.
#[export] Instance ListResponse_message {I} : HasMessage (ListResponse I) := message.
#[export] Instance MeResponse_message : HasMessage MeResponse := me_message.
#[export] Instance DeleteBody_message : HasMessage DeleteBody := del_message.
#[export] Instance ApiErrorBody_message : HasMessage ApiErrorBody := err_message.

End Dto.

(** ** [fetch], cookies and the helpers every hook file repeats *)
Module Http.
Import JS Dto.

(** How an evaluation ends: a value, or a thrown exception. *)
Inductive Completion (A : Type) :=
| Normal (a : A)
| Throw (msg : string).
Arguments Normal {A} _.
Arguments Throw {A} _.

(** How a promise settles. *)
Inductive Settled (A : Type) :=
| Fulfilled (a : A)
| Rejected (reason : string).
Arguments Fulfilled {A} _.
Arguments Rejected {A} _.

(** The arguments of a [fetch] call; [signal] is the number of the
    [AbortController] whose signal is passed, if any. *)
Record Request := {
  url : string;
  method : string;
  headers : list (string * string);
  body : list (string * string);
  signal : option nat
}.

(** What the code reads of a [Response]: [status], the content-type
    header and the outcome of [res.json()] ([None]: the promise rejects). *)
Record Response (B : Type) := {
  status : Z;
  content_type : option string;
  json : option B
}.
Arguments status {B} _.
Arguments content_type {B} _.
Arguments json {B} _.

(** [res.ok]. *)
Definition ok {B} (res : Response B) : bool :=
  (200 <=? status res) && (status res <=? 299).

(** [contentType], [isJson] and [body = isJson ? await res.json() : null]. *)
Definition read_body {B} (res : Response B) : Completion (option B) :=
  let contentType := or_else (content_type res) "" in
  let isJson := includes contentType "application/json" in
  if isJson then
    match json res with
    | Some b => Normal (Some b)
    | None => Throw "Unexpected token in JSON"
    end
  else Normal None.

(** [body?.message] *)
Definition body_message {B} `{HasMessage B} (body : option B) : option string :=
  match body with
  | Some b => message_of b
  | None => None
  end.

(** The [fetch] call of [fetchWithAuth(url, token, signal)]. *)
Definition fetchWithAuth_request (url token : string) (signal : nat) : Request :=
  {| url := url; method := "GET";
     headers := [("Authorization", "Bearer " ++ token)];
     body := [];
     signal := Some signal |}.

(** The rest of [fetchWithAuth], from the settled [fetch] promise on. *)
Definition fetchWithAuth {B} `{HasMessage B} (net : Settled (Response B))
  : Completion (option B) :=
  match net with
  | Rejected reason => Throw reason
  | Fulfilled res =>
      match read_body res with
      | Throw e => Throw e
      | Normal body =>
          if negb (ok res) then
            Throw (or_else (body_message body)
                           ("Request failed: " ++ string_of_Z (status res)))
          else Normal body
      end
  end.

(** [parseApiError(status, body)] of [use-auth]. *)
Definition parseApiError (status : Z) (body : option ApiErrorBody) : string :=
  let by_status :=
    if status =? 0 then "Tidak dapat terhubung ke server. Coba lagi."
    else if 500 <=? status then "Terjadi kesalahan pada server. Coba beberapa saat lagi."
    else "Email atau kata sandi salah." in
  match body_message body with
  | Some m => if String.eqb m "" then by_status else m
  | None => by_status
  end.

Module COOKIE.
Definition ACCESS_TOKEN : string := "access_token".
Definition REFRESH_TOKEN : string := "refresh_token".
Definition ROLE : string := "role".
End COOKIE.

(** [s.split(sep)] for a non-empty separator: [skip] characters of a
    separator just matched remain to be passed over, [cur] is the piece
    being collected. *)
Fixpoint split_go (sep s : string) (skip : nat) (cur : string) : list string :=
  match s with
  | EmptyString => [cur]
  | String c s' =>
      match skip with
      | S k => split_go sep s' k cur
      | O =>
          if startsWith s sep
          then cur :: split_go sep s' (Nat.pred (String.length sep)) EmptyString
          else split_go sep s' O (cur ++ String c EmptyString)
      end
  end.

Definition split (s sep : string) : list string := split_go sep s O EmptyString.

Definition hex_value (c : ascii) : option N :=
  let n := N_of_ascii c in
  if (48 <=? n)%N && (n <=? 57)%N then Some (n - 48)%N
  else if (65 <=? n)%N && (n <=? 70)%N then Some (n - 55)%N
  else if (97 <=? n)%N && (n <=? 102)%N then Some (n - 87)%N
  else None.

(** [decodeURIComponent(s)] on bytes: [%XX] becomes a byte, a [%] that
    does not start an escape throws [URIError]. *)
Fixpoint decodeURIComponent (s : string) : Completion string :=
  match s with
  | EmptyString => Normal EmptyString
  | String "%" (String h (String l rest)) =>
      match hex_value h, hex_value l with
      | Some a, Some b =>
          match decodeURIComponent rest with
          | Normal r => Normal (String (ascii_of_N (16 * a + b)) r)
          | Throw e => Throw e
          end
      | _, _ => Throw "URIError: URI malformed"
      end
  | String "%" _ => Throw "URIError: URI malformed"
  | String c s' =>
      match decodeURIComponent s' with
      | Normal r => Normal (String c r)
      | Throw e => Throw e
      end
  end.

(** [getCookie(name)]; [document_cookie] is [None] where [document] is
    undefined. *)
Definition getCookie (document_cookie : option string) (name : string)
  : Completion (option string) :=
  match document_cookie with
  | None => Normal None
  | Some cookie =>
      let value := "; " ++ cookie in
      let parts := split value ("; " ++ name ++ "=") in
      match parts with
      | [_; v] =>
          if String.eqb v "" then Normal None
          else
            match decodeURIComponent (or_else (head (split v ";")) "") with
            | Normal t => Normal (Some t)
            | Throw e => Throw e
            end
      | _ => Normal None
      end
  end.

(** The constant [token] of an operation that has read the cookie with
    [getCookie(COOKIE.ACCESS_TOKEN)] and passed its [!token] test; the
    continuations of the operation close over it. *)
Definition held_token (document_cookie : option string) : string :=
  match getCookie document_cookie COOKIE.ACCESS_TOKEN with
  | Normal token => or_else token ""
  | Throw _ => ""
  end.

End Http.

(** ** State shared by the data hooks *)
Module Hook.
Import JS Num Dto Http.

(** [useState] cells [loading], [error], [data] and the [abortRef] cell,
    with the controllers created so far. *)
Record State (D : Type) := {
  loading : bool;
  error : string;
  data : option D;
  abortRef : option nat;
  aborted : gset nat;
  controllers : nat
}.
Arguments loading {D} _.
Arguments error {D} _.
Arguments data {D} _.
Arguments abortRef {D} _.
Arguments aborted {D} _.
Arguments controllers {D} _.

(** The state of a freshly mounted hook. *)
Definition mount {D} : State D :=
  {| loading := true; error := ""; data := None;
     abortRef := None; aborted := ∅; controllers := O |}.

Section Cells.
Context {D : Type}.

Definition setLoading (b : bool) (s : State D) : State D :=
  {| loading := b; error := error s; data := data s;
     abortRef := abortRef s; aborted := aborted s; controllers := controllers s |}.

Definition setError (e : string) (s : State D) : State D :=
  {| loading := loading s; error := e; data := data s;
     abortRef := abortRef s; aborted := aborted s; controllers := controllers s |}.

Definition setData (d : option D) (s : State D) : State D :=
  {| loading := loading s; error := error s; data := d;
     abortRef := abortRef s; aborted := aborted s; controllers := controllers s |}.

(** [abortRef.current?.abort()]. *)
Definition abort_current (s : State D) : State D :=
  match abortRef s with
  | Some c =>
      {| loading := loading s; error := error s; data := data s;
         abortRef := abortRef s; aborted := {[c]} ∪ aborted s;
         controllers := controllers s |}
  | None => s
  end.

(** [const controller = new AbortController(); abortRef.current = controller]:
    the new controller is [controllers s]. *)
Definition install_controller (s : State D) : State D :=
  {| loading := loading s; error := error s; data := data s;
     abortRef := Some (controllers s); aborted := aborted s;
     controllers := S (controllers s) |}.

(** [abortRef.current === controller]. *)
Definition is_current (controller : nat) (s : State D) : bool :=
  bool_decide (abortRef s = Some controller).

(** [controller.signal.aborted]. *)
Definition is_aborted (controller : nat) (s : State D) : bool :=
  bool_decide (controller ∈ aborted s).

(** What a component that uses the hook can see. *)
Definition observable (s : State D) : bool * string * option D :=
  (loading s, error s, data s).

(** The requests the hook can still hear from: of the controllers created
    so far, those that were not aborted. *)
Definition live (s : State D) : list nat :=
  List.filter (fun c => negb (is_aborted c s)) (seq 0 (controllers s)).

End Cells.

(** How the synchronous part of an operation ends: requests were issued
    under a controller, nothing was sent, or an exception escaped. *)
Inductive Started :=
| Sent (controller : nat) (requests : list Request)
| NotSent
| Threw (e : string).

Definition SESSION_INVALID : string := "Sesi tidak valid. Silakan login kembali.".

(** The result object of [remove]. *)
Record RemoveResult := {
  ok : bool;
  message : string
}.

Inductive RemoveStarted :=
| RemoveSent (request : Request)
| RemoveReturned (result : RemoveResult)
| RemoveThrew (e : string).

(** The [fetch] call of a [remove]: no signal is passed. *)
Definition delete_request (url token : string) : Request :=
  {| url := url; method := "DELETE";
     headers := [("Authorization", "Bearer " ++ token)];
     body := [];
     signal := None |}.

(** The updater passed to [setData] after a successful delete; the text is
    the same in [useProjects] and [useWorklogs]. *)
Definition optimistic_remove {I} `{HasId I} (id : string)
    (prev : option (ListResponse I)) : option (ListResponse I) :=
  match prev with
  | None => None
  | Some prev =>
      let nextItems :=
        List.filter (fun p => negb (String.eqb (id_of p) id))
                    (default [] (Dto.data prev)) in
      let nextMeta :=
        match meta prev with
        | Some m =>
            Some {| page := page m;
                    limit := limit m;
                    totalItems :=
                      match totalItems m with
                      | Number n => Number (Num.max (Fin 0) (Num.pred n))
                      | other => other
                      end;
                    totalPages :=
                      match totalItems m, limit m with
                      | Number n, Number l =>
                          Number (Num.max (Fin 1)
                                    (ceil_div (Num.max (Fin 0) (Num.pred n)) l))
                      | _, _ => totalPages m
                      end |}
        | None => None
        end in
      Some {| success := success prev; Dto.message := Dto.message prev;
              Dto.data := Some nextItems; meta := nextMeta |}
  end.

(** The body of [remove] after [await fetch(...)], with the two messages
    that differ between the hooks as parameters. *)
Definition remove_settled {I} `{HasId I} (failed succeeded thrown : string)
    (id : string) (net : Settled (Response DeleteBody))
    (s : State (ListResponse I)) : State (ListResponse I) * RemoveResult :=
  match net with
  | Rejected _ => (s, {| ok := false; message := thrown |})
  | Fulfilled res =>
      match read_body res with
      | Throw _ => (s, {| ok := false; message := thrown |})
      | Normal body =>
          let success_false :=
            match body with
            | Some b => bool_decide (del_success b = Some false)
            | None => false
            end in
          if negb (Http.ok res) || success_false then
            (s, {| ok := false;
                   message := or_else (body_message body)
                                (failed ++ " (" ++ string_of_Z (status res) ++ ").") |})
          else
            (setData (optimistic_remove id (data s)) s,
             {| ok := true; message := or_else (body_message body) succeeded |})
      end
  end.

(** The cells of the hooks that submit a form: [isLoading], [error] and
    the [abortRef] cell. *)
Module Mutation.
Record State := {
  isLoading : bool;
  error : string;
  abortRef : option nat;
  aborted : gset nat;
  controllers : nat
}.

Definition mount : State :=
  {| isLoading := false; error := ""; abortRef := None;
     aborted := ∅; controllers := O |}.

Definition setError (e : string) (s : State) : State :=
  {| isLoading := isLoading s; error := e; abortRef := abortRef s;
     aborted := aborted s; controllers := controllers s |}.

Definition setIsLoading (b : bool) (s : State) : State :=
  {| isLoading := b; error := error s; abortRef := abortRef s;
     aborted := aborted s; controllers := controllers s |}.

Definition abort_current (s : State) : State :=
  match abortRef s with
  | Some c =>
      {| isLoading := isLoading s; error := error s; abortRef := abortRef s;
         aborted := {[c]} ∪ aborted s; controllers := controllers s |}
  | None => s
  end.

Definition install_controller (s : State) : State :=
  {| isLoading := isLoading s; error := error s;
     abortRef := Some (controllers s); aborted := aborted s;
     controllers := S (controllers s) |}.

(** [{ ok: true, data } | { ok: false, error }]. *)
Inductive Result (B : Type) :=
| Ok (data : option B)
| Err (error : string).
Arguments Ok {B} _.
Arguments Err {B} _.

Inductive Started (B : Type) :=
| Sent (controller : nat) (request : Request)
| Returned (result : Result B)
| Threw (e : string).
Arguments Sent {B} _ _.
Arguments Returned {B} _.
Arguments Threw {B} _.
End Mutation.

End Hook.

(** ** [src/hooks/use-projects.ts] *)
Module Projects.
Import JS Num Dto Http Hook.

Inductive ProjectStatusFilter := ALL | ACTIVE | ARCHIVED.

Definition filter_text (f : ProjectStatusFilter) : string :=
  match f with
  | ALL => "ALL"
  | ACTIVE => "ACTIVE"
  | ARCHIVED => "ARCHIVED"
  end.

Record ProjectsQuery := {
  search : option string;
  status : option ProjectStatusFilter;
  page : option Z;
  limit : option Z
}.

(** The default of the [initial] argument of [useProjects]. *)
Definition initial : ProjectsQuery :=
  {| search := None; status := Some ALL; page := Some 1; limit := Some 10 |}.

Definition endpoint (API_HOST : option string) : string :=
  template API_HOST ++ "/projects".

(** The [URLSearchParams] built in [load]. *)
Definition load_params (query : ProjectsQuery) : list (string * string) :=
  let params := [] in
  let params :=
    match search query with
    | Some s =>
        if negb (String.eqb s "") && (0 <? String.length (trim s))%nat
        then params_set "search" (trim s) params else params
    | None => params
    end in
  let params :=
    match status query with
    | Some st =>
        if negb (String.eqb (filter_text st) "ALL")
        then params_set "status" (filter_text st) params else params
    | None => params
    end in
  let params :=
    match page query with
    | Some p =>
        if negb (p =? 0) && (1 <? p)
        then params_set "page" (string_of_Z p) params else params
    | None => params
    end in
  let params :=
    match limit query with
    | Some l =>
        if negb (l =? 0) && negb (l =? 10)
        then params_set "limit" (string_of_Z l) params else params
    | None => params
    end in
  params.

Definition load_url (endpoint : string) (query : ProjectsQuery) : string :=
  let qs := params_toString (load_params query) in
  if (0 <? String.length qs)%nat then endpoint ++ "?" ++ qs else endpoint.

(** [Partial<ProjectsQuery>]: a field is [None] when the object has no
    such key, [Some v] when it has the key with value [v] ([undefined]
    included). *)
Record PartialQuery := {
  set_search : option (option string);
  set_status : option (option ProjectStatusFilter);
  set_page : option (option Z);
  set_limit : option (option Z)
}.

(** [setParams(next)]: the updater [prev => ({ ...prev, ...next })]. *)
Definition setParams (next : PartialQuery) (prev : ProjectsQuery) : ProjectsQuery :=
  {| search := default (search prev) (set_search next);
     status := default (status prev) (set_status next);
     page := default (page prev) (set_page next);
     limit := default (limit prev) (set_limit next) |}.

Definition State := Hook.State ProjectsResponse.

(** [load], up to the [await]. *)
Definition load_call (API_HOST document_cookie : option string)
    (query : ProjectsQuery) (s : State) : State * Started :=
  let s := setError "" (setLoading true s) in
  match getCookie document_cookie COOKIE.ACCESS_TOKEN with
  | Throw e => (s, Threw e)
  | Normal token =>
      if falsy API_HOST || falsy token then
        (setData None (setError SESSION_INVALID (setLoading false s)), NotSent)
      else
        let s := abort_current s in
        let controller := controllers s in
        let s := install_controller s in
        let url := load_url (endpoint API_HOST) query in
        (s, Sent controller [fetchWithAuth_request url (or_else token "") controller])
  end.

(** [load], from the settled [fetch] on: the rest of [try], [catch] and
    [finally]. *)
Definition load_settled (controller : nat)
    (net : Settled (Response ProjectsResponse)) (s : State) : State :=
  let finally (s : State) :=
    if is_current controller s then setLoading false s else s in
  match fetchWithAuth net with
  | Normal resp =>
      finally (if is_current controller s then setData resp s else s)
  | Throw _ =>
      if is_aborted controller s || negb (is_current controller s) then finally s
      else finally (setData None (setError "Gagal memuat projects. Coba lagi." s))
  end.

(** [remove], up to the [await]. *)
Definition remove_call (API_HOST document_cookie : option string)
    (id : string) (s : State) : State * RemoveStarted :=
  match getCookie document_cookie COOKIE.ACCESS_TOKEN with
  | Throw e => (s, RemoveThrew e)
  | Normal token =>
      if falsy API_HOST || falsy token then
        let msg := SESSION_INVALID in
        (setError msg s, RemoveReturned {| ok := false; message := msg |})
      else
        let url := endpoint API_HOST ++ "/" ++ encodeURIComponent id in
        (s, RemoveSent (delete_request url (or_else token "")))
  end.

(** [remove], from the settled [fetch] on. *)
Definition remove_settled (id : string) (net : Settled (Response DeleteBody))
    (s : State) : State * RemoveResult :=
  Hook.remove_settled "Gagal menghapus project" "Berhasil menghapus project"
    "Gagal menghapus project. Coba lagi." id net s.

(** The ways the cells of a mounted [useProjects] change: [load] or
    [remove] is called, a request of one of them settles, or the cleanup
    of the effect aborts the current request.  The cookie and the query
    may differ from one call to the next. *)
Inductive step (API_HOST : option string) : State -> State -> Prop :=
| step_load document_cookie query s :
    step API_HOST s (fst (load_call API_HOST document_cookie query s))
| step_load_settled controller net s :
    step API_HOST s (load_settled controller net s)
| step_remove document_cookie id s :
    step API_HOST s (fst (remove_call API_HOST document_cookie id s))
| step_remove_settled id net s :
    step API_HOST s (fst (remove_settled id net s))
| step_cleanup s :
    step API_HOST s (abort_current s).

Inductive reachable (API_HOST : option string) : State -> Prop :=
| reachable_mount : reachable API_HOST mount
| reachable_step s s' :
    reachable API_HOST s -> step API_HOST s s' -> reachable API_HOST s'.

End Projects.

(** ** The projects page: the handlers that change the query *)
Module ProjectsList.
Import JS Projects.

(** The effect that follows the debounced search box:
    [setParams({ search: debouncedSearch, page: 1 })]. *)
Definition search_effect (debouncedSearch : string) : ProjectsQuery -> ProjectsQuery :=
  setParams {| set_search := Some (Some debouncedSearch); set_status := None;
               set_page := Some (Some 1); set_limit := None |}.

(** [onStatusChange(v)]: [setParams({ status: v, page: 1 })]. *)
Definition onStatusChange (v : ProjectStatusFilter) : ProjectsQuery -> ProjectsQuery :=
  setParams {| set_search := None; set_status := Some (Some v);
               set_page := Some (Some 1); set_limit := None |}.

End ProjectsList.

(** ** [src/hooks/use-worklogs.ts] *)
Module Worklogs.
Import JS Num Dto Http Hook.

Record WorklogsQuery := {
  fromDate : option string;
  toDate : option string;
  activityType : option string;
  page : option Z;
  limit : option Z
}.

(** The default of the [initial] argument of [useWorklogs]. *)
Definition initial : WorklogsQuery :=
  {| fromDate := None; toDate := None; activityType := None;
     page := Some 1; limit := Some 10 |}.

Definition baseEndpoint (API_HOST projectId : option string) : string :=
  if falsy projectId then ""
  else template API_HOST ++ "/projects/"
         ++ encodeURIComponent (or_else projectId "") ++ "/worklogs".

(** The [URLSearchParams] built in [load]. *)
Definition load_params (query : WorklogsQuery) : list (string * string) :=
  let params := [] in
  let params :=
    if negb (falsy (fromDate query))
    then params_set "fromDate" (or_else (fromDate query) "") params else params in
  let params :=
    if negb (falsy (toDate query))
    then params_set "toDate" (or_else (toDate query) "") params else params in
  let params :=
    match activityType query with
    | Some a =>
        if negb (String.eqb a "") && (0 <? String.length (trim a))%nat
        then params_set "activityType" (trim a) params else params
    | None => params
    end in
  let params :=
    match page query with
    | Some p =>
        if negb (p =? 0) && (1 <? p)
        then params_set "page" (string_of_Z p) params else params
    | None => params
    end in
  let params :=
    match limit query with
    | Some l =>
        if negb (l =? 0) && negb (l =? 10)
        then params_set "limit" (string_of_Z l) params else params
    | None => params
    end in
  params.

Definition load_url (baseEndpoint : string) (query : WorklogsQuery) : string :=
  let qs := params_toString (load_params query) in
  if (0 <? String.length qs)%nat then baseEndpoint ++ "?" ++ qs else baseEndpoint.

(** [Partial<WorklogsQuery>]: a field is [None] when the object has no
    such key, [Some v] when it has the key with value [v] ([undefined]
    included). *)
Record PartialQuery := {
  set_fromDate : option (option string);
  set_toDate : option (option string);
  set_activityType : option (option string);
  set_page : option (option Z);
  set_limit : option (option Z)
}.

(** [setParams(next)]: the updater [prev => ({ ...prev, ...next })]. *)
Definition setParams (next : PartialQuery) (prev : WorklogsQuery) : WorklogsQuery :=
  {| fromDate := default (fromDate prev) (set_fromDate next);
     toDate := default (toDate prev) (set_toDate next);
     activityType := default (activityType prev) (set_activityType next);
     page := default (page prev) (set_page next);
     limit := default (limit prev) (set_limit next) |}.

Definition State := Hook.State WorklogsResponse.

(** [load], up to the [await]. *)
Definition load_call (API_HOST document_cookie projectId : option string)
    (query : WorklogsQuery) (s : State) : State * Started :=
  if falsy projectId then
    (setData None (setError "ID project tidak valid." (setLoading false s)), NotSent)
  else
    let s := setError "" (setLoading true s) in
    match getCookie document_cookie COOKIE.ACCESS_TOKEN with
    | Throw e => (s, Threw e)
    | Normal token =>
        if falsy API_HOST || falsy token then
          (setData None (setError SESSION_INVALID (setLoading false s)), NotSent)
        else
          let s := abort_current s in
          let controller := controllers s in
          let s := install_controller s in
          let url := load_url (baseEndpoint API_HOST projectId) query in
          (s, Sent controller [fetchWithAuth_request url (or_else token "") controller])
    end.

(** [load], from the settled [fetch] on. *)
Definition load_settled (controller : nat)
    (net : Settled (Response WorklogsResponse)) (s : State) : State :=
  let finally (s : State) :=
    if is_current controller s then setLoading false s else s in
  match fetchWithAuth net with
  | Normal resp =>
      finally (if is_current controller s then setData resp s else s)
  | Throw _ =>
      if is_aborted controller s || negb (is_current controller s) then finally s
      else finally (setData None (setError "Gagal memuat worklogs. Coba lagi." s))
  end.

(** [remove], up to the [await]. *)
Definition remove_call (API_HOST document_cookie projectId : option string)
    (worklogId : string) (s : State) : State * RemoveStarted :=
  if falsy projectId then
    (s, RemoveReturned {| ok := false; message := "ID project tidak valid." |})
  else
    match getCookie document_cookie COOKIE.ACCESS_TOKEN with
    | Throw e => (s, RemoveThrew e)
    | Normal token =>
        if falsy API_HOST || falsy token then
          let msg := SESSION_INVALID in
          (setError msg s, RemoveReturned {| ok := false; message := msg |})
        else
          let url := template API_HOST ++ "/projects/"
                       ++ encodeURIComponent (or_else projectId "")
                       ++ "/worklogs/" ++ encodeURIComponent worklogId in
          (s, RemoveSent (delete_request url (or_else token "")))
    end.

(** [remove], from the settled [fetch] on. *)
Definition remove_settled (worklogId : string)
    (net : Settled (Response DeleteBody)) (s : State) : State * RemoveResult :=
  Hook.remove_settled "Gagal menghapus worklog" "Berhasil menghapus worklog"
    "Gagal menghapus worklog. Coba lagi." worklogId net s.

End Worklogs.

(** ** [Array.prototype.sort] and dates *)
Module JSArray.

Section Sort.
Context {A : Type}.
(** [after a b]: the comparator's value for [(a, b)] is positive, so
    [a] has to come after [b].  A [NaN] value counts as zero. *)
Variable after : A -> A -> bool.

Fixpoint insert (x : A) (l : list A) : list A :=
  match l with
  | [] => [x]
  | y :: l' => if after x y then y :: insert x l' else x :: l
  end.

(** A stable sort: the list every conforming [sort] returns when the
    comparator is consistent. *)
Fixpoint sort (l : list A) : list A :=
  match l with
  | [] => []
  | x :: l' => insert x (sort l')
  end.
End Sort.

End JSArray.

(** ** [Date] *)
Module JSDate.

Definition digit (c : ascii) : option Z :=
  let n := N_of_ascii c in
  if (48 <=? n)%N && (n <=? 57)%N then Some (Z.of_N (n - 48)) else None.

(** The value of a run of decimal digits. *)
Fixpoint number (l : list ascii) (acc : Z) : option Z :=
  match l with
  | [] => Some acc
  | c :: l' =>
      match digit c with
      | Some d => number l' (10 * acc + d)
      | None => None
      end
  end.

Definition leap (y : Z) : bool :=
  ((y mod 4 =? 0) && negb (y mod 100 =? 0)) || (y mod 400 =? 0).

Definition days_in_month (y m : Z) : Z :=
  if m =? 2 then (if leap y then 29 else 28)
  else if (m =? 4) || (m =? 6) || (m =? 9) || (m =? 11) then 30
  else 31.

(** Days from 1970-01-01 to the civil date [y]-[m]-[d]. *)
Definition days_from_civil (y m d : Z) : Z :=
  let y' := if m <=? 2 then y - 1 else y in
  let era := y' / 400 in
  let yoe := y' - era * 400 in
  let mp := (m + 9) mod 12 in
  let doy := (153 * mp + 2) / 5 + d - 1 in
  let doe := yoe * 365 + yoe / 4 - yoe / 100 + doy in
  era * 146097 + doe - 719468.

Definition date_ms (y m d : Z) : option Z :=
  if (1 <=? m) && (m <=? 12) && (1 <=? d) && (d <=? days_in_month y m)
  then Some (days_from_civil y m d * 86400000) else None.

Definition time_ms (h mi s ms : Z) : option Z :=
  if (h <=? 23) && (mi <=? 59) && (s <=? 59)
  then Some (h * 3600000 + mi * 60000 + s * 1000 + ms) else None.

Definition parse_date (y1 y2 y3 y4 m1 m2 d1 d2 : ascii) : option Z :=
  match number [y1; y2; y3; y4] 0, number [m1; m2] 0, number [d1; d2] 0 with
  | Some y, Some m, Some d => date_ms y m d
  | _, _, _ => None
  end.

Definition parse_time (h1 h2 mi1 mi2 s1 s2 : ascii) (frac : list ascii) : option Z :=
  match number [h1; h2] 0, number [mi1; mi2] 0, number [s1; s2] 0, number frac 0 with
  | Some h, Some mi, Some s, Some ms => time_ms h mi s ms
  | _, _, _, _ => None
  end.

Definition add (a b : option Z) : option Z :=
  match a, b with
  | Some x, Some y => Some (x + y)
  | _, _ => None
  end.

(** [new Date(s).getTime()] for the UTC forms of the ECMAScript date-time
    string format, [YYYY-MM-DD], [YYYY-MM-DDTHH:mm:ssZ] and
    [YYYY-MM-DDTHH:mm:ss.sssZ]; [None] stands for [NaN], the time of an
    invalid date.  Other strings are taken as invalid. *)
Definition getTime (s : string) : option Z :=
  match list_ascii_of_string s with
  | [y1; y2; y3; y4; "-"; m1; m2; "-"; d1; d2]%char =>
      parse_date y1 y2 y3 y4 m1 m2 d1 d2
  | [y1; y2; y3; y4; "-"; m1; m2; "-"; d1; d2; "T";
     h1; h2; ":"; mi1; mi2; ":"; s1; s2; "Z"]%char =>
      add (parse_date y1 y2 y3 y4 m1 m2 d1 d2) (parse_time h1 h2 mi1 mi2 s1 s2 [])
  | [y1; y2; y3; y4; "-"; m1; m2; "-"; d1; d2; "T";
     h1; h2; ":"; mi1; mi2; ":"; s1; s2; "."; f1; f2; f3; "Z"]%char =>
      add (parse_date y1 y2 y3 y4 m1 m2 d1 d2)
          (parse_time h1 h2 mi1 mi2 s1 s2 [f1; f2; f3])
  | _ => None
  end.

(** Days and time within the day of a time value. *)
Definition msPerDay : Z := 86400000.
Definition Day (t : Z) : Z := t / msPerDay.
Definition TimeWithinDay (t : Z) : Z := t mod msPerDay.

(** [MakeDate(day, time)]. *)
Definition MakeDate (day time : Z) : Z := day * msPerDay + time.

(** The civil date of a day number: year, month (1 to 12) and day of the
    month. *)
Definition civil_from_days (z : Z) : Z * Z * Z :=
  let z := z + 719468 in
  let era := z / 146097 in
  let doe := z - era * 146097 in
  let yoe := (doe - doe / 1460 + doe / 36524 - doe / 146096) / 365 in
  let doy := doe - (365 * yoe + yoe / 4 - yoe / 100) in
  let mp := (5 * doy + 2) / 153 in
  let d := doy - (153 * mp + 2) / 5 + 1 in
  let m := if mp <? 10 then mp + 3 else mp - 9 in
  (if m <=? 2 then yoe + era * 400 + 1 else yoe + era * 400, m, d).

(** [DateFromTime(t)]: the day of the month. *)
Definition DateFromTime (t : Z) : Z := snd (civil_from_days (Day t)).

Section LocalDates.
(** [LocalTZA(t, isUTC)]: the offset of the local time zone, in
    milliseconds, at the UTC time [t] ([isUTC] true) or at the local time
    [t]; it is implementation-defined. *)
Variable LocalTZA : Z -> bool -> Z.

Definition LocalTime (t : Z) : Z := t + LocalTZA t true.
Definition UTC (t : Z) : Z := t - LocalTZA t false.

(** [d.getDate()] for a date whose time value is [tv]. *)
Definition getDate (tv : Z) : Z := DateFromTime (LocalTime tv).

(** [MakeDay(YearFromTime(t), MonthFromTime(t), dt)]: the day number of
    the first day of the month of [t], which is [DateFromTime(t) - 1] days
    before [Day(t)], plus [dt - 1]; [dt] need not be a day of that month. *)
Definition MakeDay_in_month (t dt : Z) : Z :=
  Day t - (DateFromTime t - 1) + dt - 1.

(** The time value of [d] after [d.setDate(dt)]: the local date is moved
    to the day [dt] of its month, the time within the day is kept, and the
    result is taken back to UTC.  ([TimeClip], the identity up to
    8.64e15 ms from the epoch, is left out.) *)
Definition setDate (tv dt : Z) : Z :=
  let t := LocalTime tv in
  let newDate := MakeDate (MakeDay_in_month t dt) (TimeWithinDay t) in
  UTC newDate.

(** [const weekAgo = new Date(); weekAgo.setDate(weekAgo.getDate() - 7)]
    when the clock reads [now]: the time value of [weekAgo]. *)
Definition week_before (now : Z) : Z := setDate now (getDate now - 7).
End LocalDates.

End JSDate.

(** ** [src/hooks/use-dashboard.ts] *)
Module Dashboard.
Import JS Num Dto Http Hook.

Record Totals := {
  totalProjects : jsval;
  worklogsThisWeek : nat
}.

Record DashboardData := {
  me : option UserInfo;
  projects : option ProjectsResponse;
  recentWorklogs : list WorklogItem;
  totals : Totals
}.

Definition State := Hook.State DashboardData.

Module endpoints.
Definition me (API_HOST : option string) : string :=
  template API_HOST ++ "/auth/me".
Definition projects (API_HOST : option string) : string :=
  template API_HOST ++ "/projects?limit=5".
Definition worklogs (API_HOST : option string) (projectId : string) : string :=
  template API_HOST ++ "/projects/" ++ projectId ++ "/worklogs?limit=5".
End endpoints.

(** [load], up to the first [await]. *)
Definition load_call (API_HOST document_cookie : option string)
    (s : State) : State * Started :=
  let s := setError "" (setLoading true s) in
  match getCookie document_cookie COOKIE.ACCESS_TOKEN with
  | Throw e => (s, Threw e)
  | Normal token =>
      if falsy API_HOST || falsy token then
        (setData None (setError SESSION_INVALID (setLoading false s)), NotSent)
      else
        let s := abort_current s in
        let controller := controllers s in
        let s := install_controller s in
        (s, Sent controller
              [fetchWithAuth_request (endpoints.me API_HOST) (or_else token "") controller;
               fetchWithAuth_request (endpoints.projects API_HOST) (or_else token "") controller])
  end.

(** The requests issued between the two [await]s, one per project. *)
Definition worklog_requests (API_HOST : option string) (token : string)
    (controller : nat) (projects : list ProjectItem) : list Request :=
  List.map (fun p => fetchWithAuth_request (endpoints.worklogs API_HOST (project_id p))
                       token controller) projects.

(** [{ ...it, projectId: p.id }]. *)
Definition with_projectId (pid : string) (it : WorklogItem) : WorklogItem :=
  {| worklog_id := worklog_id it; logDate := logDate it;
     activityType := activityType it; summary := summary it;
     timeSpent := timeSpent it; blockers := blockers it;
     createdAt := createdAt it; projectId := Some pid |}.

(** [fetchWithAuth(...).then(w => (w?.data || []).map(...)).catch(() => [])]
    for project [p]. *)
Definition worklog_list (p : ProjectItem)
    (net : Settled (Response WorklogsResponse)) : list WorklogItem :=
  match fetchWithAuth net with
  | Normal w =>
      List.map (with_projectId (project_id p))
               (default [] (match w with Some w => Dto.data w | None => None end))
  | Throw _ => []
  end.

(** [load], from the first settled [Promise.all] to the second [await]:
    when both answers could be read, one request for each project of the
    answer, sent with the [token] and under the [controller] of the call.
    [None]: the run goes to [catch] and sends nothing more. *)
Definition load_first_settled (API_HOST : option string) (token : string)
    (controller : nat)
    (me_net : Settled (Response MeResponse))
    (projects_net : Settled (Response ProjectsResponse)) : option (list Request) :=
  match fetchWithAuth me_net, fetchWithAuth projects_net with
  | Normal meResp, Normal projResp =>
      let projects :=
        default [] (match projResp with Some r => Dto.data r | None => None end) in
      Some (worklog_requests API_HOST token controller projects)
  | _, _ => None
  end.

(** The requests of one run of [load], in the order sent: those of the
    call and, once they settled as [me_net] and [projects_net], those of
    the continuation, which holds the [token] and the [controller] of the
    call. *)
Definition load_requests (API_HOST document_cookie : option string)
    (me_net : Settled (Response MeResponse))
    (projects_net : Settled (Response ProjectsResponse))
    (s : State) : list Request :=
  match load_call API_HOST document_cookie s with
  | (_, Sent controller requests) =>
      requests ++
      default [] (load_first_settled API_HOST (held_token document_cookie)
                    controller me_net projects_net)
  | _ => []
  end.

Section Settle.
(** [new Date(s).getTime()]; [None] is [NaN], the time of an invalid date. *)
Variable getTime : string -> option Z.

(** The comparator of the sort is
    [new Date(b.createdAt).getTime() - new Date(a.createdAt).getTime()]. *)
Definition createdAt_after (a b : WorklogItem) : bool :=
  match getTime (createdAt b), getTime (createdAt a) with
  | Some tb, Some ta => 0 <? tb - ta
  | _, _ => false
  end.

(** [new Date(w.logDate) >= weekAgo]. *)
Definition in_week (weekAgo : Z) (w : WorklogItem) : bool :=
  match getTime (logDate w) with
  | Some t => weekAgo <=? t
  | None => false
  end.

(** [load], from the first settled [Promise.all] on, for a given time
    value [weekAgo] of the date the count of the week is taken from
    ([load_settled_at] computes it from the clock).  [worklog_net i] is how
    the request for the [i]-th project (see [load_first_settled]) settles.
    The continuation closes over [controller] and never reads it here. *)
Definition load_settled (controller : nat) (weekAgo : Z)
    (me_net : Settled (Response MeResponse))
    (projects_net : Settled (Response ProjectsResponse))
    (worklog_net : nat -> Settled (Response WorklogsResponse))
    (s : State) : State :=
  let finally (s : State) := setLoading false s in
  match fetchWithAuth me_net, fetchWithAuth projects_net with
  | Normal meResp, Normal projResp =>
      let projects :=
        default [] (match projResp with Some r => Dto.data r | None => None end) in
      let worklogLists := imap (fun i p => worklog_list p (worklog_net i)) projects in
      let allWorklogs := List.concat worklogLists in
      (* [sort] works in place: from here on [allWorklogs] is the sorted array *)
      let allWorklogs := JSArray.sort createdAt_after allWorklogs in
      let recentWorklogs := take 5 allWorklogs in
      let totalProjects :=
        nullish_or
          (match projResp with
           | Some r => match meta r with
                       | Some m => totalItems m
                       | None => Undefined
                       end
           | None => Undefined
           end)
          (Number (Fin (Z.of_nat (length projects)))) in
      let worklogsThisWeek := length (List.filter (in_week weekAgo) allWorklogs) in
      finally
        (setData
           (Some {| me := match meResp with Some r => me_data r | None => None end;
                    projects := projResp;
                    recentWorklogs := recentWorklogs;
                    totals := {| totalProjects := totalProjects;
                                 worklogsThisWeek := worklogsThisWeek |} |})
           s)
  | _, _ =>
      finally (setData None (setError "Gagal memuat dashboard. Coba lagi." s))
  end.

(** [load], from the first settled [Promise.all] on, when the clock reads
    [now] at [new Date()]: [weekAgo] is that date after
    [setDate(getDate() - 7)], in the time zone [LocalTZA]. *)
Definition load_settled_at (LocalTZA : Z -> bool -> Z) (controller : nat) (now : Z)
    (me_net : Settled (Response MeResponse))
    (projects_net : Settled (Response ProjectsResponse))
    (worklog_net : nat -> Settled (Response WorklogsResponse))
    (s : State) : State :=
  load_settled controller (JSDate.week_before LocalTZA now)
    me_net projects_net worklog_net s.
End Settle.

End Dashboard.

(** ** [src/hooks/use-register.ts] *)
Module Register.
Import JS Num Dto Http Hook.Mutation.

Record RegisterPayload := {
  fullName : string;
  email : string;
  password : string
}.

(** [RegisterResult]; the body is kept as the error-body view the hook
    reads it through. *)
Definition RegisterResult := Result ApiErrorBody.

Definition endpoint (API_HOST : option string) : string :=
  template API_HOST ++ "/auth/register".

(** [registerAccount], up to the [await]; [toLowerCase] is
    [String.prototype.toLowerCase]. *)
Definition registerAccount_call (toLowerCase : string -> string)
    (API_HOST : option string)
    (payload : RegisterPayload) (s : State) : State * Started ApiErrorBody :=
  if falsy API_HOST then
    let msg := "Konfigurasi API tidak ditemukan." in
    (setError msg s, Returned (Err msg))
  else
    let s := abort_current s in
    let controller := controllers s in
    let s := install_controller s in
    let s := setError "" (setIsLoading true s) in
    (s, Sent controller
          {| url := endpoint API_HOST; method := "POST";
             headers := [("Content-Type", "application/json")];
             body := [("email", toLowerCase (trim (email payload)));
                      ("password", password payload);
                      ("full_name", trim (fullName payload))];
             signal := Some controller |}).

(** [registerAccount], from the settled [fetch] on. *)
Definition registerAccount_settled (net : Settled (Response ApiErrorBody))
    (s : State) : State * RegisterResult :=
  let thrown (s : State) :=
    let msg := "Gagal melakukan registrasi. Periksa koneksi Anda." in
    (setIsLoading false (setError msg s), Err msg) in
  match net with
  | Rejected _ => thrown s
  | Fulfilled res =>
      match read_body res with
      | Throw _ => thrown s
      | Normal body =>
          if negb (Http.ok res) then
            let msg := parseApiError (status res) body in
            (setIsLoading false (setError msg s), Err msg)
          else (setIsLoading false s, Ok body)
      end
  end.

End Register.

(** ** [use-auth]: the session cookies and [useLogin] *)
Module Auth.
Import JS Num Dto Http Hook.Mutation.

(** The cookies the page can read, as [document.cookie] lists them: name
    and value, in the order of the list. *)
Definition Jar := list (string * string).

(** The getter of [document.cookie]. *)
Definition document_cookie (jar : Jar) : string :=
  String.concat "; " (List.map (fun nv => fst nv ++ "=" ++ snd nv) jar).

(** The text of [s] before the first [c], all of [s] when there is none. *)
Fixpoint before (c : ascii) (s : string) : string :=
  match s with
  | EmptyString => EmptyString
  | String a s' => if Ascii.eqb a c then EmptyString else String a (before c s')
  end.

(** The text of [s] after the first [c], empty when there is none. *)
Fixpoint after (c : ascii) (s : string) : string :=
  match s with
  | EmptyString => EmptyString
  | String a s' => if Ascii.eqb a c then s' else after c s'
  end.

(** A cookie of the same name takes the new value where it stands, a new
    name is added at the end. *)
Fixpoint put (name value : string) (jar : Jar) : Jar :=
  match jar with
  | [] => [(name, value)]
  | (n, v) :: jar' =>
      if String.eqb n name then (name, value) :: jar'
      else (n, v) :: put name value jar'
  end.

(** The cookie of that name is dropped. *)
Definition remove (name : string) (jar : Jar) : Jar :=
  List.filter (fun nv => negb (String.eqb (fst nv) name)) jar.

(** The setter of [document.cookie] for an assignment with the
    attributes [setCookie] writes ([expires], [path=/], [samesite=lax],
    and [secure] on https pages only): the pair before the first [;] is
    split at its first [=]; it is stored when the time [expires] names is
    ahead of the clock, and the cookie of that name is dropped when it is
    not ([expired]). *)
Definition assign (expired : bool) (text : string) (jar : Jar) : Jar :=
  let pair := before ";" text in
  if expired then remove (before "=" pair) jar
  else put (before "=" pair) (after "=" pair) jar.

Section SetCookie.
(** [date.toUTCString()] for a time in milliseconds, the clock reading
    [new Date().getTime()] and
    [typeof window !== "undefined" && window.location.protocol === "https:"]. *)
Variable toUTCString : Z -> string.
Variable now : Z.
Variable isHttps : bool.

(** The string [setCookie] assigns to [document.cookie]. *)
Definition cookie_text (name : string) (value : option string) (days : Z) : string :=
  let date := now + days * 24 * 60 * 60 * 1000 in
  let expires := "; expires=" ++ toUTCString date in
  let secure := if isHttps then "; secure" else "" in
  name ++ "=" ++ encodeURIComponent (or_else value "") ++ expires
       ++ "; path=/; samesite=lax" ++ secure.

(** [setCookie(name, value, days)]; [document] is [None] where there is
    no document, and the exception of the assignment is swallowed. *)
Definition setCookie (name : string) (value : option string) (days : Z)
    (document : option Jar) : option Jar :=
  match document with
  | Some jar =>
      let date := now + days * 24 * 60 * 60 * 1000 in
      Some (assign (date <=? now) (cookie_text name value days) jar)
  | None => None
  end.

Record LoginPayload := {
  email : string;
  password : string
}.

(** The JSON body of the login answer, which the hook reads as
    [LoginSuccess] or as [ApiErrorBody]. *)
Record LoginBody := {
  lg_message : option string;
  access_token : option string;
  refresh_token : option string;
  role : option string
}.

(** [(body as ApiErrorBody) || null]. *)
Definition as_error (body : option LoginBody) : option ApiErrorBody :=
  match body with
  | Some b => Some {| err_message := lg_message b; err_error := None;
                      err_statusCode := None |}
  | None => None
  end.

Definition LoginResult := Result LoginBody.

Definition endpoint (API_HOST : option string) : string :=
  template API_HOST ++ "/auth/login".

(** [login], up to the [await]. *)
Definition login_call (API_HOST : option string) (payload : LoginPayload)
    (s : State) : State * Started LoginBody :=
  if falsy API_HOST then
    let msg := "Konfigurasi API tidak ditemukan." in
    (setError msg s, Returned (Err msg))
  else
    let s := abort_current s in
    let controller := controllers s in
    let s := install_controller s in
    let s := setError "" (setIsLoading true s) in
    (s, Sent controller
          {| url := endpoint API_HOST; method := "POST";
             headers := [("Content-Type", "application/json")];
             body := [("email", trim (email payload));
                      ("password", password payload)];
             signal := Some controller |}).

(** [login], from the settled [fetch] on: the state of the hook, the
    cookies and the result. *)
Definition login_settled (net : Settled (Response LoginBody))
    (document : option Jar) (s : State) : State * option Jar * LoginResult :=
  let thrown :=
    let msg := "Gagal melakukan login. Periksa koneksi Anda." in
    (setIsLoading false (setError msg s), document, Err msg) in
  match net with
  | Rejected _ => thrown
  | Fulfilled res =>
      match read_body res with
      | Throw _ => thrown
      | Normal body =>
          if negb (Http.ok res) then
            let msg := parseApiError (status res) (as_error body) in
            (setIsLoading false (setError msg s), document, Err msg)
          else
            match body with
            | None => thrown   (* [data.access_token] of [null] throws *)
            | Some data =>
                let document := setCookie COOKIE.ACCESS_TOKEN (access_token data) 7 document in
                let document := setCookie COOKIE.REFRESH_TOKEN (refresh_token data) 30 document in
                let document := setCookie COOKIE.ROLE (role data) 7 document in
                (setIsLoading false s, document, Ok (Some data))
            end
      end
  end.
End SetCookie.

(** What [getCookie] is given to read: [document.cookie] of the store. *)
Definition cookie_string (document : option Jar) : option string :=
  match document with
  | Some jar => Some (document_cookie jar)
  | None => None
  end.

(** The value stored under a name. *)
Fixpoint jar_get (name : string) (jar : Jar) : option string :=
  match jar with
  | [] => None
  | (n, v) :: jar' => if String.eqb n name then Some v else jar_get name jar'
  end.

(** [`; ${document.cookie}`], the string [getCookie] splits, cookie by
    cookie. *)
Fixpoint listed (jar : Jar) : string :=
  match jar with
  | [] => EmptyString
  | (n, v) :: jar' => "; " ++ n ++ "=" ++ v ++ listed jar'
  end.

(** The name holds no [;] or [=] and the value no [;]. *)
Definition plain_cookie (nv : string * string) : bool :=
  no_char ";" (fst nv) && no_char "=" (fst nv) && no_char ";" (snd nv).

(** The stores a browser shows for one path: every cookie is plain and
    no name occurs twice. *)
Definition well_formed (jar : Jar) : Prop :=
  NoDup (List.map fst jar) /\ forallb plain_cookie jar = true.

End Auth.

(** ** The hooks behind the detail pages, up to their first [await] *)
Module Detail.
Import JS Num Dto Http Hook.

(** [loading], [error], [notFound], [data] and the [abortRef] cell. *)
Record State (D : Type) := {
  loading : bool;
  error : string;
  notFound : bool;
  data : D;
  abortRef : option nat;
  aborted : gset nat;
  controllers : nat
}.
Arguments loading {D} _.
Arguments error {D} _.
Arguments notFound {D} _.
Arguments data {D} _.
Arguments abortRef {D} _.
Arguments aborted {D} _.
Arguments controllers {D} _.

Section Cells.
Context {D : Type}.

Definition setLoading (b : bool) (s : State D) : State D :=
  {| loading := b; error := error s; notFound := notFound s; data := data s;
     abortRef := abortRef s; aborted := aborted s; controllers := controllers s |}.

Definition setError (e : string) (s : State D) : State D :=
  {| loading := loading s; error := e; notFound := notFound s; data := data s;
     abortRef := abortRef s; aborted := aborted s; controllers := controllers s |}.

Definition setNotFound (b : bool) (s : State D) : State D :=
  {| loading := loading s; error := error s; notFound := b; data := data s;
     abortRef := abortRef s; aborted := aborted s; controllers := controllers s |}.

Definition setData (d : D) (s : State D) : State D :=
  {| loading := loading s; error := error s; notFound := notFound s; data := d;
     abortRef := abortRef s; aborted := aborted s; controllers := controllers s |}.

Definition abort_current (s : State D) : State D :=
  match abortRef s with
  | Some c =>
      {| loading := loading s; error := error s; notFound := notFound s;
         data := data s; abortRef := abortRef s; aborted := {[c]} ∪ aborted s;
         controllers := controllers s |}
  | None => s
  end.

Definition install_controller (s : State D) : State D :=
  {| loading := loading s; error := error s; notFound := notFound s;
     data := data s; abortRef := Some (controllers s); aborted := aborted s;
     controllers := S (controllers s) |}.

(** [abortRef.current === controller]. *)
Definition is_current (controller : nat) (s : State D) : bool :=
  bool_decide (abortRef s = Some controller).

(** [controller.signal.aborted]. *)
Definition is_aborted (controller : nat) (s : State D) : bool :=
  bool_decide (controller ∈ aborted s).

(** The [finally] block of both [load] functions. *)
Definition load_finally (controller : nat) (s : State D) : State D :=
  if is_current controller s then setLoading false s else s.

(** The [catch] block of both [load] functions, followed by [finally]:
    [empty] is the value [data] is reset to. *)
Definition load_catch (failed : string) (empty : D) (controller : nat)
    (s : State D) : State D :=
  if is_aborted controller s || negb (is_current controller s)
  then load_finally controller s
  else load_finally controller (setData empty (setError failed s)).
End Cells.

(** The body of [remove] after [await fetch(...)] in the two detail hooks,
    with the messages that differ between them as parameters.  No state is
    written: the result is all there is. *)
Definition remove_settled (failed succeeded thrown : string)
    (net : Settled (Response DeleteBody)) : RemoveResult :=
  match net with
  | Rejected _ => {| ok := false; message := thrown |}
  | Fulfilled res =>
      match read_body res with
      | Throw _ => {| ok := false; message := thrown |}
      | Normal body =>
          let success_false :=
            match body with
            | Some b => bool_decide (del_success b = Some false)
            | None => false
            end in
          if negb (Http.ok res) || success_false then
            {| ok := false;
               message := or_else (body_message body)
                            (failed ++ " (" ++ string_of_Z (status res) ++ ").") |}
          else {| ok := true; message := or_else (body_message body) succeeded |}
      end
  end.

(** *** [use-project-detail] *)
Module Project.
Record ProjectDetailData := {
  project : option ProjectItem;
  worklogs : list WorklogItem;
  worklogsMeta : option Meta
}.

Definition no_data : ProjectDetailData :=
  {| project := None; worklogs := []; worklogsMeta := None |}.

Module endpoints.
Definition project (API_HOST : option string) (id : string) : string :=
  template API_HOST ++ "/projects/" ++ encodeURIComponent id.
Definition worklogs (API_HOST : option string) (id : string) : string :=
  template API_HOST ++ "/projects/" ++ encodeURIComponent id ++ "/worklogs?limit=5".
End endpoints.

(** [load], up to the first [await]. *)
Definition load_call (API_HOST document_cookie projectId : option string)
    (s : State ProjectDetailData) : State ProjectDetailData * Started :=
  if falsy projectId then
    (setError "ID project tidak valid." (setLoading false s), NotSent)
  else
    let s := setNotFound false (setError "" (setLoading true s)) in
    match getCookie document_cookie COOKIE.ACCESS_TOKEN with
    | Throw e => (s, Threw e)
    | Normal token =>
        if falsy API_HOST || falsy token then
          (setData no_data (setError SESSION_INVALID (setLoading false s)), NotSent)
        else
          let s := abort_current s in
          let controller := controllers s in
          let s := install_controller s in
          (s, Sent controller
                [fetchWithAuth_request
                   (endpoints.project API_HOST (or_else projectId ""))
                   (or_else token "") controller])
    end.

(** The request for the worklogs preview, sent by the continuation of
    [load] once the project was read. *)
Definition preview_request (API_HOST : option string) (projectId token : string)
    (controller : nat) : Request :=
  fetchWithAuth_request (endpoints.worklogs API_HOST projectId) token controller.

(** [ProjectDetailResponse], with the [message] the error path reads
    through a cast. *)
Record ProjectDetailResponse := {
  pdr_success : option bool;
  pdr_message : option string;
  pdr_data : option ProjectItem
}.
#[export] Instance ProjectDetailResponse_message : HasMessage ProjectDetailResponse :=
  pdr_message.

(** Where [load] stands after the project answer was handled: it has run
    to its end, or it awaits the worklogs preview it just requested. *)
Inductive Continued :=
| Finished
| AwaitPreview (project : option ProjectItem) (request : Request).

(** [load], from the settled project [fetch] to the second [await]. *)
Definition load_project_settled (API_HOST : option string) (projectId token : string)
    (controller : nat) (net : Settled (Response ProjectDetailResponse))
    (s : State ProjectDetailData) : State ProjectDetailData * Continued :=
  let failed := "Gagal memuat project. Coba lagi." in
  match net with
  | Rejected _ => (load_catch failed no_data controller s, Finished)
  | Fulfilled projRes =>
      match read_body projRes with
      | Throw _ => (load_catch failed no_data controller s, Finished)
      | Normal projBody =>
          if negb (Http.ok projRes) then
            if status projRes =? 404 then
              (load_finally controller
                 (if is_current controller s
                  then setData no_data (setNotFound true s) else s),
               Finished)
            else (load_catch failed no_data controller s, Finished)
          else
            let project :=
              match projBody with Some b => pdr_data b | None => None end in
            (s, AwaitPreview project
                  (preview_request API_HOST projectId token controller))
      end
  end.

(** The preview promise:
    [fetch(...).then(r => !r.ok ? null : isJson2 ? r.json() : null).catch(() => null)]. *)
Definition preview_body (net : Settled (Response WorklogsResponse))
  : option WorklogsResponse :=
  match net with
  | Rejected _ => None
  | Fulfilled r =>
      let isJson2 := includes (or_else (content_type r) "") "application/json" in
      if negb (Http.ok r) then None
      else if isJson2 then json r else None
  end.

(** [load], from the settled preview on. *)
Definition load_preview_settled (controller : nat) (project : option ProjectItem)
    (net : Settled (Response WorklogsResponse))
    (s : State ProjectDetailData) : State ProjectDetailData :=
  let worklogsBody := preview_body net in
  load_finally controller
    (if is_current controller s then
       setData {| project := project;
                  worklogs :=
                    default [] (match worklogsBody with
                                | Some w => Dto.data w
                                | None => None
                                end);
                  worklogsMeta :=
                    match worklogsBody with Some w => meta w | None => None end |}
               s
     else s).

(** [remove], up to the [await]. *)
Definition remove_call (API_HOST document_cookie projectId : option string)
    (s : State ProjectDetailData) : State ProjectDetailData * RemoveStarted :=
  if falsy projectId then
    (s, RemoveReturned {| ok := false; message := "ID project tidak valid." |})
  else
    match getCookie document_cookie COOKIE.ACCESS_TOKEN with
    | Throw e => (s, RemoveThrew e)
    | Normal token =>
        if falsy API_HOST || falsy token then
          let msg := SESSION_INVALID in
          (setError msg s, RemoveReturned {| ok := false; message := msg |})
        else
          (s, RemoveSent (delete_request
                            (endpoints.project API_HOST (or_else projectId ""))
                            (or_else token "")))
    end.

(** [remove], from the settled [fetch] on. *)
Definition remove_settled (net : Settled (Response DeleteBody)) : RemoveResult :=
  Detail.remove_settled "Gagal mengarsipkan project" "Berhasil mengarsipkan project"
    "Gagal mengarsipkan project. Coba lagi." net.

(** The requests of one run of [load], in the order sent: the request of
    the call and, once it settled as [net], the preview request of the
    continuation, which holds the [projectId], the [token] and the
    [controller] of the call. *)
Definition load_requests (API_HOST document_cookie projectId : option string)
    (net : Settled (Response ProjectDetailResponse))
    (s : State ProjectDetailData) : list Request :=
  match load_call API_HOST document_cookie projectId s with
  | (s1, Sent controller requests) =>
      requests ++
      match snd (load_project_settled API_HOST (or_else projectId "")
                   (held_token document_cookie) controller net s1) with
      | AwaitPreview _ request => [request]
      | Finished => []
      end
  | _ => []
  end.
End Project.

(** *** [use-worklog-detail] *)
Module Worklog.
Definition endpoint (API_HOST projectId worklogId : option string) : string :=
  if falsy projectId || falsy worklogId then ""
  else template API_HOST ++ "/projects/"
         ++ encodeURIComponent (or_else projectId "")
         ++ "/worklogs/" ++ encodeURIComponent (or_else worklogId "").

(** [load], up to the [await]. *)
Definition load_call (API_HOST document_cookie projectId worklogId : option string)
    (s : State (option WorklogItem)) : State (option WorklogItem) * Started :=
  if falsy projectId || falsy worklogId then
    (setData None (setError "Parameter tidak valid." (setLoading false s)), NotSent)
  else
    let s := setNotFound false (setError "" (setLoading true s)) in
    match getCookie document_cookie COOKIE.ACCESS_TOKEN with
    | Throw e => (s, Threw e)
    | Normal token =>
        if falsy API_HOST || falsy token then
          (setData None (setError SESSION_INVALID (setLoading false s)), NotSent)
        else
          let s := abort_current s in
          let controller := controllers s in
          let s := install_controller s in
          (s, Sent controller
                [fetchWithAuth_request (endpoint API_HOST projectId worklogId)
                   (or_else token "") controller])
    end.

(** [remove], up to the [await]. *)
Definition remove_call (API_HOST document_cookie projectId worklogId : option string)
    (s : State (option WorklogItem)) : State (option WorklogItem) * RemoveStarted :=
  if falsy projectId || falsy worklogId then
    (s, RemoveReturned {| ok := false; message := "Parameter tidak valid." |})
  else
    match getCookie document_cookie COOKIE.ACCESS_TOKEN with
    | Throw e => (s, RemoveThrew e)
    | Normal token =>
        if falsy API_HOST || falsy token then
          let msg := SESSION_INVALID in
          (setError msg s, RemoveReturned {| ok := false; message := msg |})
        else
          (s, RemoveSent (delete_request (endpoint API_HOST projectId worklogId)
                            (or_else token "")))
    end.

(** [WorklogDetailResponse]. *)
Record WorklogDetailResponse := {
  wdr_success : option bool;
  wdr_message : option string;
  wdr_data : option WorklogItem
}.
#[export] Instance WorklogDetailResponse_message : HasMessage WorklogDetailResponse :=
  wdr_message.

(** [load], from the settled [fetch] on. *)
Definition load_settled (controller : nat)
    (net : Settled (Response WorklogDetailResponse))
    (s : State (option WorklogItem)) : State (option WorklogItem) :=
  let failed := "Gagal memuat worklog. Coba lagi." in
  match net with
  | Rejected _ => load_catch failed None controller s
  | Fulfilled res =>
      match read_body res with
      | Throw _ => load_catch failed None controller s
      | Normal body =>
          if negb (Http.ok res) then
            if status res =? 404 then
              load_finally controller
                (if is_current controller s
                 then setData None (setNotFound true s) else s)
            else load_catch failed None controller s
          else
            load_finally controller
              (if is_current controller s
               then setData (match body with Some b => wdr_data b | None => None end) s
               else s)
      end
  end.

(** [remove], from the settled [fetch] on. *)
Definition remove_settled (net : Settled (Response DeleteBody)) : RemoveResult :=
  Detail.remove_settled "Gagal menghapus worklog" "Berhasil menghapus worklog"
    "Gagal menghapus worklog. Coba lagi." net.
End Worklog.

End Detail.

(** ** The hooks that create and update, up to their [await] *)
Module Forms.
Import JS Num Dto Http Hook.Mutation.

Definition CONFIG_MISSING : string := "Konfigurasi API tidak ditemukan.".
Definition CONFIG_OR_PARAMETER : string := "Konfigurasi atau parameter tidak valid.".

(** A field of the JSON body that is present only when the optional text,
    trimmed, is not empty. *)
Definition optional_text (name : string) (v : option string) : list (string * string) :=
  match v with
  | Some t =>
      if negb (String.eqb t "") && (0 <? String.length (trim t))%nat
      then [(name, trim t)] else []
  | None => []
  end.

(** [typeof v === "number" ? v : undefined]. *)
Definition optional_number (name : string) (v : option Z) : list (string * string) :=
  match v with
  | Some n => [(name, string_of_Z n)]
  | None => []
  end.

Definition json_request (method url token : string) (fields : list (string * string))
    (controller : nat) : Request :=
  {| url := url; method := method;
     headers := [("Content-Type", "application/json");
                 ("Authorization", "Bearer " ++ token)];
     body := fields;
     signal := Some controller |}.

Record CreateProjectPayload := {
  title : string;
  description : option string;
  techStack : option string;
  status : option string
}.


Record WorklogPayload := {
  logDate : string;
  activityType : string;
  summary : string;
  timeSpent : option Z;
  blockers : option string
}.

Definition worklog_fields (payload : WorklogPayload) : list (string * string) :=
  [("logDate", logDate payload);
   ("activityType", activityType payload);
   ("summary", summary payload)]
  ++ optional_number "timeSpent" (timeSpent payload)
  ++ optional_text "blockers" (blockers payload).

(** The common part of the four submit functions once the configuration
    and parameter check has passed. *)
Definition submit {B} (document_cookie : option string)
    (method url : string) (fields : list (string * string)) (s : State)
  : State * Started B :=
  match getCookie document_cookie COOKIE.ACCESS_TOKEN with
  | Throw e => (s, Threw e)
  | Normal token =>
      if falsy token then
        let msg := Hook.SESSION_INVALID in
        (setError msg s, Returned (Err msg))
      else
        let s := abort_current s in
        let controller := controllers s in
        let s := install_controller s in
        let s := setError "" (setIsLoading true s) in
        (s, Sent controller (json_request method url (or_else token "") fields controller))
  end.

(** [useCreateProject().create]. *)
Definition createProject_call {B} (API_HOST document_cookie : option string)
    (payload : CreateProjectPayload) (s : State) : State * Started B :=
  if falsy API_HOST then
    let msg := CONFIG_MISSING in (setError msg s, Returned (Err msg))
  else
    submit document_cookie "POST" (template API_HOST ++ "/projects")
      ([("title", trim (title payload))]
       ++ optional_text "description" (description payload)
       ++ optional_text "techStack" (techStack payload)
       ++ [("status", or_else (status payload) ProjectStatus.ACTIVE)])
      s.


(** [useCreateWorklog(projectId).create]. *)
Definition createWorklog_call {B} (API_HOST document_cookie projectId : option string)
    (payload : WorklogPayload) (s : State) : State * Started B :=
  if falsy API_HOST || falsy projectId then
    let msg := CONFIG_OR_PARAMETER in (setError msg s, Returned (Err msg))
  else
    submit document_cookie "POST" (Worklogs.baseEndpoint API_HOST projectId)
      (worklog_fields payload) s.





Definition CANCELLED : string := "Dibatalkan.".

(** The four submit functions from the settled [fetch] on; they differ in
    the two messages only: [failed] is completed by the status,
    [thrown] is reported when the request or the reading of its body
    fails. *)
Definition submit_settled {B} `{HasMessage B} (failed thrown : string)
    (controller : nat) (net : Settled (Response B)) (s : State)
  : State * Result B :=
  let finally (s : State) := setIsLoading false s in
  let catch (s : State) : State * Result B :=
    if bool_decide (controller ∈ aborted s) then (finally s, Err CANCELLED)
    else (finally (setError thrown s), Err thrown) in
  match net with
  | Rejected _ => catch s
  | Fulfilled res =>
      match read_body res with
      | Throw _ => catch s
      | Normal body =>
          if negb (Http.ok res) then
            let msg :=
              or_else (body_message body)
                      (failed ++ " (" ++ string_of_Z (Http.status res) ++ ").") in
            (finally (setError msg s), Err msg)
          else (finally s, Ok body)
      end
  end.



Definition createWorklog_settled {B} `{HasMessage B} :=
  submit_settled (B := B) "Gagal membuat worklog" "Gagal membuat worklog. Coba lagi.".


End Forms.

(** ** [CreateProjectForm]: validation and the payload it submits *)
Module CreateProjectForm.
Import JS Dto Http Hook.Mutation.

(** The text of the three inputs. *)
Record Fields := {
  title : string;
  description : string;
  techStack : string
}.

(** [FieldErrors]: a field is [None] when the object has no such key. *)
Record FieldErrors := {
  title_error : option string;
  description_error : option string;
  techStack_error : option string
}.

(** [canSubmit]. *)
Definition canSubmit (f : Fields) (isLoading : bool) : bool :=
  (3 <=? utf16_length (trim (title f)))%nat
  && (utf16_length (trim (title f)) <=? 150)%nat
  && negb isLoading.

(** The object [errs] that [validate] builds. *)
Definition errs (f : Fields) : FieldErrors :=
  let t := trim (title f) in
  {| title_error :=
       if (utf16_length t <? 3)%nat then Some "Minimal 3 karakter."
       else if (150 <? utf16_length t)%nat then Some "Maksimal 150 karakter."
       else None;
     description_error :=
       if negb (String.eqb (description f) "")
          && (2000 <? utf16_length (description f))%nat
       then Some "Maksimal 2000 karakter." else None;
     techStack_error := None |}.

(** [validate()]: [Object.keys(errs).length === 0]. *)
Definition validate (f : Fields) : bool :=
  match title_error (errs f), description_error (errs f), techStack_error (errs f) with
  | None, None, None => true
  | _, _, _ => false
  end.

(** The argument [onSubmit] passes to [create]. *)
Definition payload (f : Fields) : Forms.CreateProjectPayload :=
  {| Forms.title := trim (title f);
     Forms.description := or_undefined (trim (description f));
     Forms.techStack := or_undefined (trim (techStack f));
     Forms.status := Some ProjectStatus.ACTIVE |}.

(** [onSubmit], up to the [await]: nothing happens when [validate]
    fails. *)
Definition onSubmit {B} (API_HOST document_cookie : option string) (f : Fields)
    (s : State) : option (State * Started B) :=
  if negb (validate f) then None
  else Some (Forms.createProject_call API_HOST document_cookie (payload f) s).

End CreateProjectForm.


(** ** The project and worklog pages *)
Module Pages.
Import JS Num Dto Http.

(** [getRole] and [canManage] of [use-project-detail] and
    [use-worklog-detail]. *)
Definition getRole (document_cookie : option string) : Completion (option string) :=
  match getCookie document_cookie COOKIE.ROLE with
  | Normal value => if falsy value then Normal None else Normal value
  | Throw e => Throw e
  end.

Definition canManage (role : option string) : bool :=
  bool_decide (role = Some "ADMIN").

(** The controls a page renders, by what they do. *)
Inductive Action :=
| AddWorklog
| EditProject
| ArchiveProject
| ViewAllWorklogs
| OpenWorklog (worklogId : string)
| EditWorklog (worklogId : string)
| DeleteWorklog (worklogId : string)
| Back
| Retry.

#[export] Instance Action_eq_dec : EqDecision Action.
Proof. solve_decision. Defined.

(** A rendered control: [href] of the link it wraps (empty when it has a
    click handler instead) and its [disabled] prop. *)
Record Control := {
  action : Action;
  href : string;
  disabled : bool
}.

(** What a page component returns: one of the early-return cards or the
    page itself, with the archive notice flag and the controls in document
    order. *)
Inductive Screen :=
| LoadingState
| NotFoundCard (controls : list Control)
| ErrorCard (text : string) (controls : list Control)
| Page (archiveNotice : bool) (controls : list Control).

Definition controls_of (v : Screen) : list Control :=
  match v with
  | LoadingState => []
  | NotFoundCard c => c
  | ErrorCard _ c => c
  | Page _ c => c
  end.

(** What [useProjectDetail] returns, as far as the pages read it. *)
Record ProjectDetailHook := {
  pd_project : option ProjectItem;
  pd_worklogs : list WorklogItem;
  pd_loading : bool;
  pd_error : string;
  pd_notFound : bool;
  pd_canManage : bool
}.

(** [ProjectDetail.tsx]; [deleting] is the component's own state cell. *)
Definition ProjectDetail (h : ProjectDetailHook) (deleting : bool) : Screen :=
  if pd_loading h then LoadingState
  else if pd_notFound h then
    NotFoundCard [{| action := Back; href := "/projects"; disabled := false |}]
  else
    match pd_project h with
    | None =>
        ErrorCard (or_else (Some (pd_error h)) "Gagal memuat project. Coba lagi.")
                  [{| action := Retry; href := ""; disabled := false |}]
    | Some project =>
        let isArchived := String.eqb (Dto.status project) ProjectStatus.ARCHIVED in
        let base := "/projects/" ++ project_id project in
        Page isArchived
          ([{| action := AddWorklog; href := base ++ "/worklogs/new";
               disabled := isArchived |}]
           ++ (if negb isArchived && pd_canManage h then
                 [{| action := EditProject; href := base ++ "/edit"; disabled := false |};
                  {| action := ArchiveProject; href := ""; disabled := deleting |}]
               else [])
           ++ [{| action := ViewAllWorklogs; href := base ++ "/worklogs";
                  disabled := false |}]
           ++ (if (length (pd_worklogs h) =? 0)%nat then
                 [{| action := AddWorklog; href := base ++ "/worklogs/new";
                     disabled := false |}]
               else
                 List.map (fun w =>
                   {| action := OpenWorklog (worklog_id w);
                      href := base ++ "/worklogs/" ++ worklog_id w;
                      disabled := false |}) (pd_worklogs h)))
    end.

(** What [useWorklogs] returns, as far as [WorklogsList] reads it. *)
Record WorklogsHook := {
  wl_data : option WorklogsResponse;
  wl_loading : bool;
  wl_error : string
}.

Section List.
(** [new Date(s).getTime()]; [None] is [NaN]. *)
Variable getTime : string -> option Z.

(** The comparator of [items]: by [logDate || createdAt], latest first. *)
Definition logDate_after (a b : WorklogItem) : bool :=
  match getTime (or_else (Some (logDate b)) (createdAt b)),
        getTime (or_else (Some (logDate a)) (createdAt a)) with
  | Some db, Some da => 0 <? db - da
  | _, _ => false
  end.

(** [WorklogsList.tsx]; [projectId] is the route parameter, [project]
    is [pd.project] of the page's own [useProjectDetail], [busyId] the
    component's state cell.  The date and activity filters and the
    pagination links, which do not depend on the project, are left out. *)
Definition WorklogsList (projectId : string) (project : option ProjectItem)
    (h : WorklogsHook) (busyId : string) : Screen :=
  let archived :=
    match project with
    | Some p => String.eqb (Dto.status p) ProjectStatus.ARCHIVED
    | None => false
    end in
  let base := "/projects/" ++ projectId ++ "/worklogs" in
  let items :=
    JSArray.sort logDate_after
      (default [] (match wl_data h with Some d => Dto.data d | None => None end)) in
  Page false
    ([{| action := AddWorklog; href := base ++ "/add"; disabled := archived |}]
     ++ (if wl_loading h then []
         else if negb (String.eqb (wl_error h) "") then
           [{| action := Retry; href := ""; disabled := false |}]
         else if (length items =? 0)%nat then
           [{| action := AddWorklog; href := base ++ "/add"; disabled := archived |}]
         else
           List.concat (List.map (fun w =>
             [{| action := OpenWorklog (worklog_id w);
                 href := base ++ "/" ++ worklog_id w; disabled := false |};
              {| action := EditWorklog (worklog_id w);
                 href := base ++ "/" ++ worklog_id w ++ "/edit"; disabled := false |};
              {| action := DeleteWorklog (worklog_id w);
                 href := ""; disabled := String.eqb busyId (worklog_id w) |}])
             items))).
End List.

(** The effect of [WorklogsList] that follows the debounced filters. *)
Definition filters_effect (dFrom dTo dAct : string)
  : Worklogs.WorklogsQuery -> Worklogs.WorklogsQuery :=
  Worklogs.setParams
    {| Worklogs.set_fromDate := Some (or_undefined dFrom);
       Worklogs.set_toDate := Some (or_undefined dTo);
       Worklogs.set_activityType := Some (or_undefined dAct);
       Worklogs.set_page := Some (Some 1);
       Worklogs.set_limit := None |}.

(** [onResetFilters] of [WorklogsList], as far as the query goes. *)
Definition onResetFilters : Worklogs.WorklogsQuery -> Worklogs.WorklogsQuery :=
  Worklogs.setParams
    {| Worklogs.set_fromDate := Some None;
       Worklogs.set_toDate := Some None;
       Worklogs.set_activityType := Some None;
       Worklogs.set_page := Some (Some 1);
       Worklogs.set_limit := None |}.

(** What [useWorklogDetail] returns, as far as [WorklogDetail] reads it. *)
Record WorklogDetailHook := {
  wd_data : option WorklogItem;
  wd_loading : bool;
  wd_error : string;
  wd_notFound : bool
}.

(** [WorklogDetail.tsx]. *)
Definition WorklogDetail (projectId worklogId : string) (project : option ProjectItem)
    (h : WorklogDetailHook) (deleting : bool) : Screen :=
  let archived :=
    match project with
    | Some p => String.eqb (Dto.status p) ProjectStatus.ARCHIVED
    | None => false
    end in
  let base := "/projects/" ++ projectId ++ "/worklogs" in
  if wd_loading h then LoadingState
  else if wd_notFound h then
    NotFoundCard [{| action := Back; href := base; disabled := false |}]
  else
    match wd_data h with
    | None =>
        ErrorCard (or_else (Some (wd_error h)) "Gagal memuat worklog. Coba lagi.")
                  [{| action := Retry; href := ""; disabled := false |}]
    | Some data =>
        Page false
          (if negb archived then
             [{| action := EditWorklog worklogId;
                 href := base ++ "/" ++ worklogId ++ "/edit"; disabled := false |};
              {| action := DeleteWorklog worklogId; href := ""; disabled := deleting |}]
           else [])
    end.

(** What the hooks hand to the pages: the cells of their state and
    [canManage]. *)
Definition useProjectDetail (s : Detail.State Detail.Project.ProjectDetailData)
    (canManage : bool) : ProjectDetailHook :=
  {| pd_project := Detail.Project.project (Detail.data s);
     pd_worklogs := Detail.Project.worklogs (Detail.data s);
     pd_loading := Detail.loading s;
     pd_error := Detail.error s;
     pd_notFound := Detail.notFound s;
     pd_canManage := canManage |}.

Definition useWorklogDetail (s : Detail.State (option WorklogItem))
  : WorklogDetailHook :=
  {| wd_data := Detail.data s;
     wd_loading := Detail.loading s;
     wd_error := Detail.error s;
     wd_notFound := Detail.notFound s |}.

Definition useWorklogs (s : Worklogs.State) : WorklogsHook :=
  {| wl_data := Hook.data s;
     wl_loading := Hook.loading s;
     wl_error := Hook.error s |}.

(** The worklogs a screen lists: the ids its links to a worklog open, in
    document order. *)
Definition opens (c : Control) : option string :=
  match action c with
  | OpenWorklog worklogId => Some worklogId
  | _ => None
  end.

Definition rows (v : Screen) : list string := omap opens (controls_of v).

(** A control that performs [a] is on the screen and can be used. *)
Definition available (a : Action) (v : Screen) : Prop :=
  exists c, In c (controls_of v) /\ action c = a /\ disabled c = false.

(** Some control performs [a], enabled or not. *)
Definition rendered (a : Action) (v : Screen) : Prop :=
  exists c, In c (controls_of v) /\ action c = a.

End Pages.

(** ** The vocabulary of the specification *)
Module Spec.
Import JS Num Dto Http Hook.

Section Delete.
Context {I : Type} `{HasId I}.

(** The items of the page a response holds. *)
Definition items (r : ListResponse I) : list I := default [] (Dto.data r).

(** The pagination block after one item was deleted: [totalItems] and
    [totalPages] are recomputed when they can be, everything else is
    kept. *)
Definition meta_after_delete (m m' : Meta) : Prop :=
  page m' = page m /\
  limit m' = limit m /\
  (forall n, totalItems m = Number n ->
     totalItems m' = Number (Num.max (Fin 0) (Num.pred n))) /\
  (is_number (totalItems m) = false -> totalItems m' = totalItems m) /\
  (forall n l, totalItems m = Number n -> limit m = Number l ->
     totalPages m' =
       Number (Num.max (Fin 1) (ceil_div (Num.max (Fin 0) (Num.pred n)) l))) /\
  (is_number (totalItems m) && is_number (limit m) = false ->
     totalPages m' = totalPages m).

(** The held response after the item with id [x] was deleted. *)
Definition after_delete (x : string) (prev next : option (ListResponse I)) : Prop :=
  match prev with
  | None => next = None
  | Some r =>
      exists r',
        next = Some r' /\
        Dto.data r' = Some (List.filter (fun it => negb (String.eqb (id_of it) x)) (items r)) /\
        (forall it, In it (items r') <-> In it (items r) /\ id_of it <> x) /\
        success r' = success r /\
        Dto.message r' = Dto.message r /\
        match meta r with
        | None => meta r' = None
        | Some m => exists m', meta r' = Some m' /\ meta_after_delete m m'
        end
  end.
End Delete.

Section Aggregation.
Variable getTime : string -> option Z.

(** Latest first: wherever two items with valid [createdAt] dates stand
    in the list, the earlier position holds the later or equal time. *)
Definition newest_first (l : list WorklogItem) : Prop :=
  forall (i j : nat) a b ta tb,
    (i < j)%nat -> l !! i = Some a -> l !! j = Some b ->
    getTime (createdAt a) = Some ta -> getTime (createdAt b) = Some tb ->
    tb <= ta.

(** Every [createdAt] of the list is a valid date. *)
Definition valid_dates (l : list WorklogItem) : Prop :=
  forall w, In w l -> getTime (createdAt w) <> None.
End Aggregation.

(** The first page of projects: [projResp?.data || []]. *)
Definition first_page (projResp : option ProjectsResponse) : list ProjectItem :=
  default [] (match projResp with Some r => Dto.data r | None => None end).

(** A worklogs answer that holds no worklog. *)
Definition no_worklogs : Settled (Response WorklogsResponse) :=
  Fulfilled {| status := 200;
               content_type := Some "application/json";
               json := Some {| success := Some true; Dto.message := None;
                               Dto.data := Some []; meta := None |} |}.

(** The worklog fetches, with those in [failed] answered by an empty list. *)
Definition without_failures (failed : nat -> bool)
    (worklog_net : nat -> Settled (Response WorklogsResponse))
  : nat -> Settled (Response WorklogsResponse) :=
  fun i => if failed i then no_worklogs else worklog_net i.

(** The worklogs all per-project requests returned, each tagged with the
    project it was fetched for, in request order. *)
Definition aggregated (projects : list ProjectItem)
    (worklog_net : nat -> Settled (Response WorklogsResponse)) : list WorklogItem :=
  List.concat (imap (fun i p => Dashboard.worklog_list p (worklog_net i)) projects).

Section Authorization.
Variable document_cookie : option string.


(** The request carries [Authorization: Bearer <token>]. *)
Definition bearer (token : string) (r : Request) : Prop :=
  params_get "Authorization" (headers r) = Some ("Bearer " ++ token).





End Authorization.




End Spec.

(** ** Concrete inputs used in the examples *)
Module Samples.
Import JS Num Dto Http Hook.

Definition API_HOST : option string := Some "https://api.devlog.test".
Definition cookie : option string :=
  Some "theme=dark; access_token=tok-123; role=USER".

Definition user : UserInfo :=
  {| user_id := "u1"; email := "dev@devlog.test"; fullName := "Dev";
     role_name := "USER"; isActive := true;
     user_createdAt := "2024-01-01T00:00:00Z" |}.

Definition project (id status : string) : ProjectItem :=
  {| project_id := id; title := "Project " ++ id; description := "";
     techStack := "ts"; Dto.status := status;
     project_createdAt := "2024-01-01T00:00:00Z" |}.

Definition worklog (id logDate createdAt : string) : WorklogItem :=
  {| worklog_id := id; logDate := logDate; activityType := "coding";
     summary := "work"; timeSpent := 60; blockers := "";
     createdAt := createdAt; projectId := None |}.

Definition json_ok {B} (b : B) : Settled (Response B) :=
  Fulfilled {| status := 200; content_type := Some "application/json; charset=utf-8";
               json := Some b |}.


Definition list_body {I} (items : list I) (meta : option Meta) : ListResponse I :=
  {| success := Some true; Dto.message := None; Dto.data := Some items; meta := meta |}.

Definition error_body {I} (msg : string) : ListResponse I :=
  {| success := Some false; Dto.message := Some msg; Dto.data := None; meta := None |}.

Definition meta_of (page limit totalItems totalPages : Z) : Meta :=
  {| page := Number (Fin page); limit := Number (Fin limit);
     totalItems := Number (Fin totalItems); totalPages := Number (Fin totalPages) |}.

Definition me_ok : Settled (Response MeResponse) :=
  json_ok {| me_success := Some true; me_message := None; me_data := Some user |}.

Definition two_projects : Settled (Response ProjectsResponse) :=
  json_ok (list_body [project "p1" "ACTIVE"; project "p2" "ARCHIVED"]
                     (Some (meta_of 1 5 2 1))).

Definition one_project : Settled (Response ProjectsResponse) :=
  json_ok (list_body [project "p1" "ACTIVE"] (Some (meta_of 1 5 1 1))).

(** Worklogs of [p1]; the request for any other project is rejected. *)
Definition worklogs_p1_only (i : nat) : Settled (Response WorklogsResponse) :=
  match i with
  | O => json_ok (list_body [worklog "w1" "2024-05-01" "2024-05-01T08:00:00Z";
                             worklog "w2" "2024-04-01" "2024-05-02T09:30:00Z"]
                            None)
  | _ => Rejected "TypeError: Failed to fetch"
  end.

(** Worklogs of [p1] where the second [createdAt] is not a date. *)
Definition worklogs_bad_date (i : nat) : Settled (Response WorklogsResponse) :=
  match i with
  | O => json_ok (list_body [worklog "w1" "2024-05-01" "2024-05-01T08:00:00Z";
                             worklog "w2" "2024-05-01" "n/a";
                             worklog "w3" "2024-05-02" "2024-05-02T08:00:00Z"]
                            None)
  | _ => Rejected "TypeError: Failed to fetch"
  end.

(** What [fetch] settles to once its signal was aborted. *)
Definition aborted_fetch {B} : Settled (Response B) :=
  Rejected "AbortError: The user aborted a request.".

(** 2024-04-25T12:00:00Z, one week before 2024-05-02T12:00:00Z. *)
Definition weekAgo : Z := 1714046400000.

(** The clock at 2024-05-02T12:00:00Z. *)
Definition now : Z := 1714651200000.

(** Western Indonesia Time: seven hours ahead of UTC all year. *)
Definition LocalTZA (t : Z) (isUTC : bool) : Z := 25200000.

(** An answer that holds six projects although five were asked for. *)
Definition six_projects : Settled (Response ProjectsResponse) :=
  json_ok (list_body [project "p1" "ACTIVE"; project "p2" "ACTIVE";
                      project "p3" "ACTIVE"; project "p4" "ACTIVE";
                      project "p5" "ACTIVE"; project "p6" "ACTIVE"]
                     (Some (meta_of 1 5 6 2))).

(** Six worklogs for the sixth project, none for the others. *)
Definition worklogs_of_sixth (i : nat) : Settled (Response WorklogsResponse) :=
  match i with
  | 5%nat =>
      json_ok (list_body [worklog "w1" "2024-05-01" "2024-05-01T08:00:00Z";
                          worklog "w2" "2024-05-01" "2024-05-01T09:00:00Z";
                          worklog "w3" "2024-05-01" "2024-05-01T10:00:00Z";
                          worklog "w4" "2024-05-02" "2024-05-02T08:00:00Z";
                          worklog "w5" "2024-05-02" "2024-05-02T09:00:00Z";
                          worklog "w6" "2024-05-02" "2024-05-02T10:00:00Z"]
                         None)
  | _ => json_ok (list_body [] None)
  end.

(** Requests seen by the middleware. *)
Definition request (path search : string) (cookies : gmap string string)
  : Middleware.NextRequest :=
  {| Middleware.nextUrl :=
       {| Middleware.pathname := path;
          Middleware.origin := "https://devlog.test";
          Middleware.search := search |};
     Middleware.cookies := cookies |}.

Definition session (role : string) : gmap string string :=
  <["access_token" := "tok-123"]> (<["role" := role]> ∅).

(** [String.prototype.toUpperCase] on the characters the examples use:
    the ASCII letters, and the two letters outside ASCII whose upper case
    is an ASCII letter, dotless i (U+0131, [C4 B1] in UTF-8, [I]) and long
    s (U+017F, [C5 BF], [S]). *)
Fixpoint toUpperCase (s : string) : string :=
  match s with
  | EmptyString => EmptyString
  | String c1 s1 =>
      match s1 with
      | EmptyString => String (JS.upper_ascii c1) EmptyString
      | String c2 s2 =>
          if (N_of_ascii c1 =? 196)%N && (N_of_ascii c2 =? 177)%N
          then String "I" (toUpperCase s2)
          else if (N_of_ascii c1 =? 197)%N && (N_of_ascii c2 =? 191)%N
          then String "S" (toUpperCase s2)
          else String (JS.upper_ascii c1) (toUpperCase s1)
      end
  end.

(** [String.prototype.toLowerCase] on ASCII text. *)
Definition toLowerCase : string -> string := JS.ascii_toLowerCase.

(** The search text is typed with a no-break space (U+00A0) before it
    and an ideographic space (U+3000) after it. *)
Definition projects_query : Projects.ProjectsQuery :=
  {| Projects.search := Some "  api gateway　 ";
     Projects.status := Some Projects.ARCHIVED;
     Projects.page := Some 3;
     Projects.limit := Some 25 |}.

Definition worklogs_query : Worklogs.WorklogsQuery :=
  {| Worklogs.fromDate := Some "2024-05-01";
     Worklogs.toDate := Some "2024-05-31";
     Worklogs.activityType := Some " review ";
     Worklogs.page := Some 2;
     Worklogs.limit := Some 50 |}.

(** The second project's worklogs request is the one that fails. *)
Definition second_failed (i : nat) : bool :=
  match i with
  | 1%nat => true
  | _ => false
  end.

Definition server_error : Response ProjectsResponse :=
  {| status := 500; content_type := Some "application/json";
     json := Some (error_body "Database is down") |}.



Definition registration : Register.RegisterPayload :=
  {| Register.fullName := " Dev One "; Register.email := " Dev@Devlog.Test ";
     Register.password := "s3cret" |}.

Definition delete_ok : Settled (Response DeleteBody) :=
  json_ok {| del_success := Some true; del_message := Some "Project deleted" |}.


(** A list hook that holds one page of three projects out of eleven. *)
Definition projects_loaded : Projects.State :=
  {| loading := false; error := "";
     data := Some (list_body [project "p1" "ACTIVE"; project "p2" "ACTIVE";
                              project "p3" "ARCHIVED"]
                             (Some (meta_of 1 10 11 2)));
     abortRef := Some O; aborted := ∅; controllers := 1%nat |}.

Definition worklogs_loaded : Worklogs.State :=
  {| loading := false; error := "";
     data := Some (list_body [worklog "w1" "2024-05-01" "2024-05-01T08:00:00Z";
                              worklog "w2" "2024-05-02" "2024-05-02T08:00:00Z"]
                             (Some (meta_of 1 10 2 1)));
     abortRef := Some O; aborted := ∅; controllers := 1%nat |}.


(** Detail hooks whose first load is in flight. *)
Definition project_detail_loading : Detail.State Detail.Project.ProjectDetailData :=
  {| Detail.loading := true; Detail.error := ""; Detail.notFound := false;
     Detail.data := Detail.Project.no_data;
     Detail.abortRef := Some O; Detail.aborted := ∅; Detail.controllers := 1%nat |}.

Definition worklog_detail_loading : Detail.State (option WorklogItem) :=
  {| Detail.loading := true; Detail.error := ""; Detail.notFound := false;
     Detail.data := None;
     Detail.abortRef := Some O; Detail.aborted := ∅; Detail.controllers := 1%nat |}.

(** The same hook after a second load was started. *)
Definition project_detail_reloading : Detail.State Detail.Project.ProjectDetailData :=
  {| Detail.loading := true; Detail.error := ""; Detail.notFound := false;
     Detail.data := Detail.Project.no_data;
     Detail.abortRef := Some 1%nat; Detail.aborted := {[O]};
     Detail.controllers := 2%nat |}.

(** A constant stand-in for [Date.prototype.toUTCString]. *)
Definition toUTCString (_ : Z) : string := "Thu, 01 Jan 2026 00:00:00 GMT".

(** A cookie store that holds one unrelated cookie. *)
Definition jar : Auth.Jar := [("theme", "dark")].

Definition login_ok : Response Auth.LoginBody :=
  {| status := 200; content_type := Some "application/json";
     json := Some {| Auth.lg_message := Some "ok";
                     Auth.access_token := Some "tok/1";
                     Auth.refresh_token := Some "ref";
                     Auth.role := Some "USER" |} |}.

Definition login_denied : Response Auth.LoginBody :=
  {| status := 401; content_type := Some "text/html"; json := None |}.




End Samples.

(** ** Concrete page inputs *)
Module PageSamples.
Import Dto Pages.

(** An archived project whose worklogs preview is empty, seen by an
    administrator. *)
Definition archived_empty : ProjectDetailHook :=
  {| pd_project := Some (Samples.project "p9" "ARCHIVED");
     pd_worklogs := [];
     pd_loading := false; pd_error := ""; pd_notFound := false;
     pd_canManage := true |}.

Definition active_admin : ProjectDetailHook :=
  {| pd_project := Some (Samples.project "p1" "ACTIVE");
     pd_worklogs := [Samples.worklog "w1" "2024-05-01" "2024-05-01T08:00:00Z"];
     pd_loading := false; pd_error := ""; pd_notFound := false;
     pd_canManage := true |}.

Definition worklogs_page : WorklogsHook :=
  {| wl_data := Some (Samples.list_body
                        [Samples.worklog "w1" "2024-05-01" "2024-05-01T08:00:00Z"] None);
     wl_loading := false; wl_error := "" |}.

Definition worklog_page : WorklogDetailHook :=
  {| wd_data := Some (Samples.worklog "w1" "2024-05-01" "2024-05-01T08:00:00Z");
     wd_loading := false; wd_error := ""; wd_notFound := false |}.

End PageSamples.

(** * Properties *)

Import Dto.

(** ** Strings *)

Lemma or_else_some_self (s : string) : JS.or_else (Some s) "" = s.
Proof. unfold JS.or_else. destruct (String.eqb_spec s ""); congruence. Qed.

Lemma falsy_or_else (x : option string) :
  JS.falsy x = String.eqb (JS.or_else x "") "".
Proof.
  destruct x as [s|]; simpl; [|reflexivity].
  destruct (String.eqb_spec s "") as [->|Hne]; [reflexivity|].
  symmetry. now apply String.eqb_neq.
Qed.

Lemma not_falsy_some (x : option string) :
  JS.falsy x = false -> exists s, x = Some s /\ s <> "" /\ JS.or_else x "" = s.
Proof.
  destruct x as [s|]; simpl; [|discriminate].
  destruct (String.eqb_spec s ""); [discriminate|]. eauto.
Qed.

(** ** Sanity of the built-in models *)
Section Builtins.
Import JS Http.

(** [decodeURIComponent] undoes [encodeURIComponent]. *)
Lemma decode_plain (c : ascii) (s : string) :
  c <> "%"%char ->
  decodeURIComponent (String c s)
  = match decodeURIComponent s with
    | Normal r => Normal (String c r)
    | Throw e => Throw e
    end.
Proof.
  intros Hc.
  destruct c as [[] [] [] [] [] [] [] []]; try reflexivity.
  now contradiction Hc.
Qed.

Lemma decode_percent (c : ascii) (s : string) :
  decodeURIComponent (percent c ++ s)
  = match decodeURIComponent s with
    | Normal r => Normal (String c r)
    | Throw e => Throw e
    end.
Proof. destruct c as [[] [] [] [] [] [] [] []]; reflexivity. Qed.

Lemma unreserved_not_percent (c : ascii) : uri_unreserved c = true -> c <> "%"%char.
Proof. intros Hu ->. discriminate Hu. Qed.

Lemma decode_encode (s : string) :
  decodeURIComponent (encodeURIComponent s) = Normal s.
Proof.
  induction s as [|c s IH]; [reflexivity|]. simpl encodeURIComponent.
  destruct (uri_unreserved c) eqn:Hu.
  - change (String c "" ++ encodeURIComponent s) with (String c (encodeURIComponent s)).
    rewrite (decode_plain c _ (unreserved_not_percent c Hu)). now rewrite IH.
  - rewrite decode_percent. now rewrite IH.
Qed.

(** [String(n)] prints the decimal digits of [n]. *)
Lemma digit_of_char (d : N) :
  (d < 10)%N -> JSDate.digit (ascii_of_N (48 + d)) = Some (Z.of_N d).
Proof.
  intros Hd. unfold JSDate.digit.
  rewrite N_ascii_embedding by lia.
  replace ((48 <=? 48 + d)%N && (48 + d <=? 57)%N) with true.
  - f_equal. lia.
  - symmetry. apply andb_true_iff. split; apply N.leb_le; lia.
Qed.

Lemma digits_pos_value (fuel : nat) :
  forall (n : N) (acc : string) (a : Z),
    (n < 10 ^ N.of_nat fuel)%N ->
    exists k : Z,
      0 <= k /\
      JSDate.number (list_ascii_of_string (digits_pos fuel n acc)) a
      = JSDate.number (list_ascii_of_string acc) (a * 10 ^ k + Z.of_N n).
Proof.
  induction fuel as [|fuel IH]; intros n acc a Hn.
  - exists 0. split; [lia|]. simpl in *. f_equal. lia.
  - simpl digits_pos.
    assert (Hmod : (n mod 10 < 10)%N) by (apply N.mod_lt; lia).
    destruct (N.ltb_spec n 10) as [Hlt|Hge].
    + exists 1. split; [lia|]. simpl.
      rewrite (digit_of_char _ Hmod). f_equal.
      rewrite N.mod_small by exact Hlt. lia.
    + assert (Hdiv : (n / 10 < 10 ^ N.of_nat fuel)%N).
      { apply N.Div0.div_lt_upper_bound.
        replace (N.of_nat (S fuel)) with (N.succ (N.of_nat fuel)) in Hn by lia.
        now rewrite N.pow_succ_r' in Hn. }
      destruct (IH (n / 10)%N (String (ascii_of_N (48 + n mod 10)) acc) a Hdiv)
        as (k & Hk & Heq).
      exists (k + 1). split; [lia|]. rewrite Heq. simpl.
      rewrite (digit_of_char _ Hmod). f_equal.
      rewrite Z.pow_add_r by lia.
      pose proof (N.div_mod n 10 ltac:(lia)) as Hdm.
      rewrite N2Z.inj_div. rewrite N2Z.inj_mod.
      pose proof (Z.div_mod (Z.of_N n) 10 ltac:(lia)) as Hz.
      change (Z.of_N 10) with 10. lia.
Qed.

Lemma string_of_N_value (n : N) :
  JSDate.number (list_ascii_of_string (string_of_N n)) 0 = Some (Z.of_N n).
Proof.
  unfold string_of_N.
  assert (Hn : (n < 10 ^ N.of_nat (S (N.to_nat (N.log2 n))))%N).
  { replace (N.of_nat (S (N.to_nat (N.log2 n)))) with (N.succ (N.log2 n)) by lia.
    destruct (N.eq_dec n 0%N) as [->|Hpos]; [reflexivity|].
    apply N.lt_le_trans with (2 ^ N.succ (N.log2 n))%N.
    - apply N.log2_spec. lia.
    - apply N.pow_le_mono_l. lia. }
  destruct (digits_pos_value _ n EmptyString 0 Hn) as (k & _ & ->).
  simpl. f_equal.
Qed.

End Builtins.

(** ** The route guard *)
Section RouteGuard.
Import JS Middleware.

Lemma dashboard_group_not_admin (path : string) :
  inDashboardGroup path = true -> startsWith path "/admin" = false.
Proof.
  unfold inDashboardGroup, dashboardGroupPrefixes, startsWith. simpl.
  destruct path as [|c0 [|c1 rest]]; simpl; try reflexivity.
  - now rewrite andb_false_r.
  - destruct (Ascii.eqb_spec c0 "/"); simpl; [|reflexivity].
    destruct (Ascii.eqb_spec c1 "a") as [->|]; simpl; [|reflexivity].
    discriminate.
Qed.

Lemma guarded_split (path : string) :
  guarded path = inDashboardGroup path || startsWith path "/admin".
Proof.
  unfold guarded, inDashboardGroup, guardedPrefixes, dashboardGroupPrefixes.
  simpl. now rewrite !orb_false_r, !orb_assoc.
Qed.

(** [String.prototype.toUpperCase], whatever its case tables are. *)
Variable toUpperCase : string -> string.
Variable env : option string.
Variable req : NextRequest.

Lemma middleware_unguarded : guarded (path_of req) = false -> middleware toUpperCase env req = next.
Proof.
  rewrite guarded_split. intros H. apply orb_false_elim in H as [Hd Ha].
  unfold middleware. fold (path_of req). unfold inDashboardGroup in Hd.
  now rewrite Hd, Ha.
Qed.

Lemma middleware_no_token :
  guarded (path_of req) = true -> falsy (access_token req) = true ->
  middleware toUpperCase env req = login_redirect env req.
Proof.
  rewrite guarded_split. intros Hg Ht.
  unfold middleware. fold (path_of req) (access_token req). unfold inDashboardGroup in Hg.
  replace (negb _ && negb _) with false
    by (symmetry; rewrite <- negb_orb, Hg; reflexivity).
  rewrite <- falsy_or_else, Ht, or_else_some_self.
  reflexivity.
Qed.

Lemma middleware_dashboard :
  inDashboardGroup (path_of req) = true -> falsy (access_token req) = false ->
  middleware toUpperCase env req =
    if String.eqb (role_of toUpperCase req) Role.USER then next
    else if String.eqb (role_of toUpperCase req) Role.ADMIN then plain_redirect "/admin" req
    else plain_redirect (loginPath_of env) req.
Proof.
  intros Hd Ht. pose proof (dashboard_group_not_admin _ Hd) as Ha.
  unfold middleware. fold (path_of req) (access_token req). unfold inDashboardGroup in Hd.
  rewrite Hd, Ha, <- falsy_or_else, Ht. simpl. fold (access_token req).
  unfold role_of, plain_redirect, loginPath_of.
  destruct (String.eqb _ Role.USER); simpl; [reflexivity|].
  destruct (String.eqb _ Role.ADMIN); reflexivity.
Qed.

Lemma middleware_admin :
  startsWith (path_of req) "/admin" = true -> falsy (access_token req) = false ->
  middleware toUpperCase env req =
    if String.eqb (role_of toUpperCase req) Role.ADMIN then next
    else if String.eqb (role_of toUpperCase req) Role.USER then plain_redirect "/dashboard" req
    else plain_redirect (loginPath_of env) req.
Proof.
  intros Ha Ht.
  assert (Hd : inDashboardGroup (path_of req) = false).
  { destruct (inDashboardGroup (path_of req)) eqn:E; [|reflexivity].
    apply dashboard_group_not_admin in E. congruence. }
  unfold middleware. fold (path_of req) (access_token req). unfold inDashboardGroup in Hd.
  rewrite Hd, Ha, <- falsy_or_else, Ht. simpl. fold (access_token req).
  unfold role_of, plain_redirect, loginPath_of.
  destruct (String.eqb _ Role.ADMIN); simpl; [reflexivity|].
  destruct (String.eqb _ Role.USER); reflexivity.
Qed.

(** C1.  A request outside the guarded prefixes passes through.  A guarded
    request without a token (cookie absent or empty) is redirected to the
    login path with [d] set to the URL-encoded pathname plus search.  With
    a token, a dashboard-group path passes exactly when the upper-cased
    role is USER, goes to [/admin] for ADMIN and to the login path
    otherwise; an [/admin] path passes exactly when the role is ADMIN, goes
    to [/dashboard] for USER and to the login path otherwise.  The role is
    what [toUpperCase] makes of the role cookie: a cookie [admın], which
    the built-in maps to [ADMIN], is an administrator's. *)
Theorem middleware_route_guard :
  (guarded (path_of req) = false -> middleware toUpperCase env req = next) /\
  (guarded (path_of req) = true -> falsy (access_token req) = true ->
     middleware toUpperCase env req = login_redirect env req) /\
  (inDashboardGroup (path_of req) = true -> falsy (access_token req) = false ->
     (middleware toUpperCase env req = next <-> role_of toUpperCase req = "USER") /\
     (role_of toUpperCase req = "ADMIN" -> middleware toUpperCase env req = plain_redirect "/admin" req) /\
     (role_of toUpperCase req <> "USER" -> role_of toUpperCase req <> "ADMIN" ->
        middleware toUpperCase env req = plain_redirect (loginPath_of env) req)) /\
  (startsWith (path_of req) "/admin" = true -> falsy (access_token req) = false ->
     (middleware toUpperCase env req = next <-> role_of toUpperCase req = "ADMIN") /\
     (role_of toUpperCase req = "USER" -> middleware toUpperCase env req = plain_redirect "/dashboard" req) /\
     (role_of toUpperCase req <> "ADMIN" -> role_of toUpperCase req <> "USER" ->
        middleware toUpperCase env req = plain_redirect (loginPath_of env) req)).
Proof.
  split; [exact middleware_unguarded|].
  split; [exact middleware_no_token|].
  split.
  - intros Hd Ht. rewrite (middleware_dashboard Hd Ht).
    unfold Role.USER, Role.ADMIN, plain_redirect.
    destruct (String.eqb_spec (role_of toUpperCase req) "USER") as [->|Hu].
    + repeat split; try discriminate; congruence.
    + destruct (String.eqb_spec (role_of toUpperCase req) "ADMIN") as [->|Had].
      * repeat split; try discriminate; congruence.
      * repeat split; try discriminate; congruence.
  - intros Ha Ht. rewrite (middleware_admin Ha Ht).
    unfold Role.USER, Role.ADMIN, plain_redirect.
    destruct (String.eqb_spec (role_of toUpperCase req) "ADMIN") as [->|Had].
    + repeat split; try discriminate; congruence.
    + destruct (String.eqb_spec (role_of toUpperCase req) "USER") as [->|Hu].
      * repeat split; try discriminate; congruence.
      * repeat split; try discriminate; congruence.
Qed.

End RouteGuard.

(** ** Query strings of the list hooks *)
Section QueryStrings.
Import JS.

Lemma length_app_string (a b : string) :
  String.length (a ++ b) = (String.length a + String.length b)%nat.
Proof. induction a as [|c a IH]; simpl; [reflexivity|now rewrite IH]. Qed.

Lemma params_toString_nil : params_toString [] = "".
Proof. reflexivity. Qed.

Lemma params_toString_cons_length (kv : string * string) l :
  (0 <? String.length (params_toString (kv :: l)))%nat = true.
Proof.
  apply Nat.ltb_lt. unfold params_toString. simpl.
  destruct (List.map _ l); rewrite !length_app_string; simpl; lia.
Qed.

(** The URL is the endpoint alone exactly when no parameter was set. *)
Lemma url_of_params (endpoint : string) (params : list (string * string)) :
  (if (0 <? String.length (params_toString params))%nat
   then endpoint ++ "?" ++ params_toString params else endpoint)
  = match params with
    | [] => endpoint
    | _ :: _ => endpoint ++ "?" ++ params_toString params
    end.
Proof.
  destruct params as [|kv l]; [reflexivity|].
  now rewrite params_toString_cons_length.
Qed.

Lemma params_get_some_in (k v : string) (l : list (string * string)) :
  params_get k l = Some v -> In k (List.map fst l).
Proof.
  induction l as [|[k' v'] l IH]; simpl; [discriminate|].
  destruct (String.eqb_spec k' k); [now left|]. intros H. right. now apply IH.
Qed.

Ltac query_cases :=
  repeat match goal with
  | |- context [match ?x with Some _ => _ | None => _ end] => destruct x eqn:?
  | |- context [if ?b then _ else _] => destruct b eqn:?
  end.

Lemma projects_search_param (query : Projects.ProjectsQuery) (v : string) :
  params_get "search" (Projects.load_params query) = Some v ->
  exists s, Projects.search query = Some s /\ v = trim s /\ v <> "".
Proof.
  unfold Projects.load_params.
  destruct (Projects.search query) as [s|] eqn:Es.
  - destruct (negb (s =? "")%string && (0 <? String.length (trim s))%nat) eqn:Ec.
    + intros Hv. exists s.
      assert (Some (trim s) = Some v) as [= <-].
      { revert Hv. query_cases; simpl; congruence. }
      apply andb_true_iff in Ec as [_ Hl]. apply Nat.ltb_lt in Hl.
      repeat split. intros Hz. rewrite Hz in Hl. simpl in Hl. lia.
    + query_cases; simpl; discriminate.
  - query_cases; simpl; discriminate.
Qed.

Lemma projects_status_param (query : Projects.ProjectsQuery) (v : string) :
  params_get "status" (Projects.load_params query) = Some v ->
  exists st, Projects.status query = Some st /\ st <> Projects.ALL
             /\ v = Projects.filter_text st.
Proof.
  unfold Projects.load_params.
  destruct (Projects.status query) as [st|] eqn:Es.
  - destruct st; simpl.
    + query_cases; simpl; discriminate.
    + intros Hv. exists Projects.ACTIVE. repeat split; [discriminate|].
      revert Hv. query_cases; simpl; congruence.
    + intros Hv. exists Projects.ARCHIVED. repeat split; [discriminate|].
      revert Hv. query_cases; simpl; congruence.
  - query_cases; simpl; discriminate.
Qed.

Lemma projects_page_param (query : Projects.ProjectsQuery) (v : string) :
  params_get "page" (Projects.load_params query) = Some v ->
  exists p, Projects.page query = Some p /\ 1 < p /\ v = string_of_Z p.
Proof.
  unfold Projects.load_params.
  destruct (Projects.page query) as [p|] eqn:Ep.
  - destruct (negb (p =? 0) && (1 <? p)) eqn:Ec.
    + intros Hv. exists p. apply andb_true_iff in Ec as [_ Hl]. apply Z.ltb_lt in Hl.
      repeat split; [exact Hl|].
      revert Hv. query_cases; simpl; congruence.
    + query_cases; simpl; discriminate.
  - query_cases; simpl; discriminate.
Qed.

Lemma projects_limit_param (query : Projects.ProjectsQuery) (v : string) :
  params_get "limit" (Projects.load_params query) = Some v ->
  exists l, Projects.limit query = Some l /\ l <> 10 /\ v = string_of_Z l.
Proof.
  unfold Projects.load_params.
  destruct (Projects.limit query) as [l|] eqn:El.
  - destruct (negb (l =? 0) && negb (l =? 10)) eqn:Ec.
    + intros Hv. exists l. apply andb_true_iff in Ec as [_ Hl].
      apply negb_true_iff, Z.eqb_neq in Hl.
      repeat split; [exact Hl|].
      revert Hv. query_cases; simpl; congruence.
    + query_cases; simpl; discriminate.
  - query_cases; simpl; discriminate.
Qed.

Lemma projects_param_names (query : Projects.ProjectsQuery) (k v : string) :
  params_get k (Projects.load_params query) = Some v ->
  In k ["search"; "status"; "page"; "limit"].
Proof.
  unfold Projects.load_params.
  intros Hk. apply params_get_some_in in Hk. revert Hk.
  query_cases; simpl; intuition auto.
Qed.

Lemma worklogs_fromDate_param (query : Worklogs.WorklogsQuery) (v : string) :
  params_get "fromDate" (Worklogs.load_params query) = Some v ->
  Worklogs.fromDate query = Some v /\ v <> "".
Proof.
  unfold Worklogs.load_params.
  destruct (falsy (Worklogs.fromDate query)) eqn:Ef; simpl.
  - query_cases; simpl; discriminate.
  - destruct (not_falsy_some _ Ef) as (s & Hs & Hne & Hor). rewrite Hor.
    intros Hv. assert (Some s = Some v) as [= <-]; [|now split].
    revert Hv. query_cases; simpl; congruence.
Qed.

Lemma worklogs_toDate_param (query : Worklogs.WorklogsQuery) (v : string) :
  params_get "toDate" (Worklogs.load_params query) = Some v ->
  Worklogs.toDate query = Some v /\ v <> "".
Proof.
  unfold Worklogs.load_params.
  destruct (falsy (Worklogs.toDate query)) eqn:Ef; simpl.
  - query_cases; simpl; discriminate.
  - destruct (not_falsy_some _ Ef) as (s & Hs & Hne & Hor). rewrite Hor.
    intros Hv. assert (Some s = Some v) as [= <-]; [|now split].
    revert Hv. query_cases; simpl; congruence.
Qed.

Lemma worklogs_activityType_param (query : Worklogs.WorklogsQuery) (v : string) :
  params_get "activityType" (Worklogs.load_params query) = Some v ->
  exists a, Worklogs.activityType query = Some a /\ v = trim a /\ v <> "".
Proof.
  unfold Worklogs.load_params.
  destruct (Worklogs.activityType query) as [a|] eqn:Ea.
  - destruct (negb (a =? "")%string && (0 <? String.length (trim a))%nat) eqn:Ec.
    + intros Hv. exists a.
      assert (Some (trim a) = Some v) as [= <-].
      { revert Hv. query_cases; simpl; congruence. }
      apply andb_true_iff in Ec as [_ Hl]. apply Nat.ltb_lt in Hl.
      repeat split. intros Hz. rewrite Hz in Hl. simpl in Hl. lia.
    + query_cases; simpl; discriminate.
  - query_cases; simpl; discriminate.
Qed.

Lemma worklogs_page_param (query : Worklogs.WorklogsQuery) (v : string) :
  params_get "page" (Worklogs.load_params query) = Some v ->
  exists p, Worklogs.page query = Some p /\ 1 < p /\ v = string_of_Z p.
Proof.
  unfold Worklogs.load_params.
  destruct (Worklogs.page query) as [p|] eqn:Ep.
  - destruct (negb (p =? 0) && (1 <? p)) eqn:Ec.
    + intros Hv. exists p. apply andb_true_iff in Ec as [_ Hl]. apply Z.ltb_lt in Hl.
      repeat split; [exact Hl|].
      revert Hv. query_cases; simpl; congruence.
    + query_cases; simpl; discriminate.
  - query_cases; simpl; discriminate.
Qed.

Lemma worklogs_limit_param (query : Worklogs.WorklogsQuery) (v : string) :
  params_get "limit" (Worklogs.load_params query) = Some v ->
  exists l, Worklogs.limit query = Some l /\ l <> 10 /\ v = string_of_Z l.
Proof.
  unfold Worklogs.load_params.
  destruct (Worklogs.limit query) as [l|] eqn:El.
  - destruct (negb (l =? 0) && negb (l =? 10)) eqn:Ec.
    + intros Hv. exists l. apply andb_true_iff in Ec as [_ Hl].
      apply negb_true_iff, Z.eqb_neq in Hl.
      repeat split; [exact Hl|].
      revert Hv. query_cases; simpl; congruence.
    + query_cases; simpl; discriminate.
  - query_cases; simpl; discriminate.
Qed.

Lemma worklogs_param_names (query : Worklogs.WorklogsQuery) (k v : string) :
  params_get k (Worklogs.load_params query) = Some v ->
  In k ["fromDate"; "toDate"; "activityType"; "page"; "limit"].
Proof.
  unfold Worklogs.load_params.
  intros Hk. apply params_get_some_in in Hk. revert Hk.
  query_cases; simpl; intuition auto.
Qed.

(** C10.  The URL of a list request is the endpoint followed, when any
    parameter was set, by [?] and the serialized parameters.  [search] (and
    [activityType]) is present only with a non-empty trimmed text, which it
    carries; [status] only when set and not ALL; [page] only when above 1;
    [limit] only when different from 10; the date filters only when set;
    no other parameter occurs.  The default queries give the bare
    endpoint. *)
Theorem list_query_omits_defaults (endpoint : string)
    (pq : Projects.ProjectsQuery) (wq : Worklogs.WorklogsQuery) :
  let pp := Projects.load_params pq in
  let wp := Worklogs.load_params wq in
  Projects.load_url endpoint pq
    = match pp with [] => endpoint | _ :: _ => endpoint ++ "?" ++ params_toString pp end /\
  Worklogs.load_url endpoint wq
    = match wp with [] => endpoint | _ :: _ => endpoint ++ "?" ++ params_toString wp end /\
  (forall v, params_get "search" pp = Some v ->
     exists s, Projects.search pq = Some s /\ v = trim s /\ v <> "") /\
  (forall v, params_get "status" pp = Some v ->
     exists st, Projects.status pq = Some st /\ st <> Projects.ALL
                /\ v = Projects.filter_text st) /\
  (forall v, params_get "page" pp = Some v ->
     exists p, Projects.page pq = Some p /\ 1 < p /\ v = string_of_Z p) /\
  (forall v, params_get "limit" pp = Some v ->
     exists l, Projects.limit pq = Some l /\ l <> 10 /\ v = string_of_Z l) /\
  (forall k v, params_get k pp = Some v -> In k ["search"; "status"; "page"; "limit"]) /\
  (forall v, params_get "fromDate" wp = Some v ->
     Worklogs.fromDate wq = Some v /\ v <> "") /\
  (forall v, params_get "toDate" wp = Some v ->
     Worklogs.toDate wq = Some v /\ v <> "") /\
  (forall v, params_get "activityType" wp = Some v ->
     exists a, Worklogs.activityType wq = Some a /\ v = trim a /\ v <> "") /\
  (forall v, params_get "page" wp = Some v ->
     exists p, Worklogs.page wq = Some p /\ 1 < p /\ v = string_of_Z p) /\
  (forall v, params_get "limit" wp = Some v ->
     exists l, Worklogs.limit wq = Some l /\ l <> 10 /\ v = string_of_Z l) /\
  (forall k v, params_get k wp = Some v ->
     In k ["fromDate"; "toDate"; "activityType"; "page"; "limit"]) /\
  Projects.load_url endpoint Projects.initial = endpoint /\
  Worklogs.load_url endpoint Worklogs.initial = endpoint.
Proof.
  intros pp wp. subst pp wp.
  split; [apply url_of_params|].
  split; [apply url_of_params|].
  split; [apply projects_search_param|].
  split; [apply projects_status_param|].
  split; [apply projects_page_param|].
  split; [apply projects_limit_param|].
  split; [apply projects_param_names|].
  split; [apply worklogs_fromDate_param|].
  split; [apply worklogs_toDate_param|].
  split; [apply worklogs_activityType_param|].
  split; [apply worklogs_page_param|].
  split; [apply worklogs_limit_param|].
  split; [apply worklogs_param_names|].
  split; reflexivity.
Qed.

End QueryStrings.

(** ** Delete in the list hooks *)
Section Delete.
Import JS Num Dto Http Hook Spec.

(** [cdiv] is the ceiling of the quotient. *)
Lemma cdiv_ceiling (a b : Z) :
  0 < b -> b * (cdiv a b - 1) < a <= b * cdiv a b.
Proof.
  intros Hb. unfold cdiv.
  pose proof (Z.div_mod (- a) b ltac:(lia)) as Hdm.
  pose proof (Z.mod_pos_bound (- a) b Hb) as Hm.
  nia.
Qed.

Context {I : Type} `{HasId I}.

Lemma optimistic_remove_after_delete (x : string) (prev : option (ListResponse I)) :
  after_delete x prev (optimistic_remove x prev).
Proof.
  destruct prev as [r|]; simpl; [|reflexivity].
  eexists. split; [reflexivity|]. simpl.
  split; [reflexivity|].
  split.
  { intros it. unfold items at 1. simpl. rewrite filter_In.
    rewrite negb_true_iff. fold (items r).
    destruct (String.eqb_spec (id_of it) x); intuition congruence. }
  split; [reflexivity|]. split; [reflexivity|].
  destruct (meta r) as [m|]; [|reflexivity].
  eexists. split; [reflexivity|]. unfold meta_after_delete. simpl.
  repeat split.
  - intros n ->. reflexivity.
  - destruct (totalItems m); simpl; congruence.
  - intros n l -> ->. reflexivity.
  - destruct (totalItems m), (limit m); simpl; congruence.
Qed.

Variables failed succeeded thrown : string.

(** A settled delete either fails and leaves the state alone, or succeeds
    and applies the optimistic update to [data] only. *)
Lemma remove_settled_cases (x : string) (net : Settled (Response DeleteBody))
    (s : State (ListResponse I)) :
  let (s', r) := Hook.remove_settled failed succeeded thrown x net s in
  (ok r = false /\ s' = s) \/
  (ok r = true /\ s' = setData (optimistic_remove x (data s)) s).
Proof.
  unfold Hook.remove_settled.
  destruct net as [res|reason]; [|now left].
  destruct (read_body res) as [body|e]; [|now left].
  destruct (negb (Http.ok res) || _); [now left|now right].
Qed.

End Delete.

(** C5.  A delete succeeds when the answer is 2xx, its body can be read
    and does not say [success: false]: [remove] then returns [ok: true], and
    [data] becomes the held response with every item whose id is [x]
    filtered out of the page, [totalItems] lowered to
    [max(0, totalItems - 1)] when it is a number, [totalPages] set to
    [max(1, ceil(max(0, totalItems - 1) / limit))] when both are numbers,
    and every other field as before; a held [null] stays [null].  Nothing
    is fetched again: [loading], [error] and the controllers are as they
    were.  The same update is behind every [ok: true] that [remove]
    returns.  This holds in [useProjects] and in [useWorklogs]. *)
Theorem remove_success_updates_list (x : string)
    (res : Http.Response Dto.DeleteBody) (body : option Dto.DeleteBody) :
  Http.read_body res = Http.Normal body ->
  Http.ok res = true ->
  (forall b, body = Some b -> Dto.del_success b <> Some false) ->
  (forall s : Projects.State,
     let out := Projects.remove_settled x (Http.Fulfilled res) s in
     Hook.ok (snd out) = true /\
     Spec.after_delete x (Hook.data s) (Hook.data (fst out)) /\
     Hook.loading (fst out) = Hook.loading s /\
     Hook.error (fst out) = Hook.error s /\
     Hook.abortRef (fst out) = Hook.abortRef s /\
     Hook.controllers (fst out) = Hook.controllers s) /\
  (forall s : Worklogs.State,
     let out := Worklogs.remove_settled x (Http.Fulfilled res) s in
     Hook.ok (snd out) = true /\
     Spec.after_delete x (Hook.data s) (Hook.data (fst out)) /\
     Hook.loading (fst out) = Hook.loading s /\
     Hook.error (fst out) = Hook.error s /\
     Hook.abortRef (fst out) = Hook.abortRef s /\
     Hook.controllers (fst out) = Hook.controllers s) /\
  (forall net (s s' : Projects.State) r,
     Projects.remove_settled x net s = (s', r) -> Hook.ok r = true ->
     Spec.after_delete x (Hook.data s) (Hook.data s') /\
     Hook.loading s' = Hook.loading s /\ Hook.error s' = Hook.error s) /\
  (forall net (s s' : Worklogs.State) r,
     Worklogs.remove_settled x net s = (s', r) -> Hook.ok r = true ->
     Spec.after_delete x (Hook.data s) (Hook.data s') /\
     Hook.loading s' = Hook.loading s /\ Hook.error s' = Hook.error s).
Proof.
  intros Hbody Hok Hsuccess.
  assert (Hrun : forall {I} `{Dto.HasId I} failed succeeded thrown
                        (s : Hook.State (Dto.ListResponse I)),
             Hook.remove_settled failed succeeded thrown x (Http.Fulfilled res) s
             = (Hook.setData (Hook.optimistic_remove x (Hook.data s)) s,
                {| Hook.ok := true;
                   Hook.message := JS.or_else (Http.body_message body) succeeded |})).
  { intros I HI failed succeeded thrown s. unfold Hook.remove_settled.
    rewrite Hbody, Hok. cbn [negb orb].
    destruct body as [b|]; [|reflexivity].
    rewrite bool_decide_eq_false_2; [reflexivity|]. now apply Hsuccess. }
  split; [|split; [|split]].
  - intros s. unfold Projects.remove_settled. rewrite Hrun. cbn [fst snd Hook.ok].
    split; [reflexivity|]. split; [apply optimistic_remove_after_delete|].
    repeat split.
  - intros s. unfold Worklogs.remove_settled. rewrite Hrun. cbn [fst snd Hook.ok].
    split; [reflexivity|]. split; [apply optimistic_remove_after_delete|].
    repeat split.
  - intros net s s' r Hnet Hr. unfold Projects.remove_settled in Hnet.
    pose proof (remove_settled_cases "Gagal menghapus project"
                  "Berhasil menghapus project" "Gagal menghapus project. Coba lagi."
                  x net s) as Hc.
    rewrite Hnet in Hc. destruct Hc as [[Hf _]|[_ ->]]; [congruence|].
    simpl. split; [apply optimistic_remove_after_delete|now split].
  - intros net s s' r Hnet Hr. unfold Worklogs.remove_settled in Hnet.
    pose proof (remove_settled_cases "Gagal menghapus worklog"
                  "Berhasil menghapus worklog" "Gagal menghapus worklog. Coba lagi."
                  x net s) as Hc.
    rewrite Hnet in Hc. destruct Hc as [[Hf _]|[_ ->]]; [congruence|].
    simpl. split; [apply optimistic_remove_after_delete|now split].
Qed.


(** ** Sorting *)
Section SortFacts.
Context {A : Type}.
Variable after : A -> A -> bool.

Lemma insert_In (x y : A) (l : list A) :
  In y (JSArray.insert after x l) <-> y = x \/ In y l.
Proof.
  induction l as [|z l IH]; simpl; [intuition|].
  destruct (after x z); simpl; [rewrite IH|]; intuition.
Qed.

Lemma sort_In (y : A) (l : list A) : In y (JSArray.sort after l) <-> In y l.
Proof.
  induction l as [|x l IH]; simpl; [reflexivity|].
  rewrite insert_In, IH. intuition.
Qed.

Lemma insert_filter_length (f : A -> bool) (x : A) (l : list A) :
  length (List.filter f (JSArray.insert after x l)) = length (List.filter f (x :: l)).
Proof.
  induction l as [|z l IH]; [reflexivity|].
  simpl in *. destruct (after x z); simpl; [|reflexivity].
  destruct (f z), (f x); simpl in *; lia.
Qed.

Lemma sort_filter_length (f : A -> bool) (l : list A) :
  length (List.filter f (JSArray.sort after l)) = length (List.filter f l).
Proof.
  induction l as [|x l IH]; [reflexivity|].
  simpl JSArray.sort. rewrite insert_filter_length. simpl.
  destruct (f x); simpl; now rewrite IH.
Qed.

Lemma insert_length (x : A) (l : list A) :
  length (JSArray.insert after x l) = S (length l).
Proof.
  induction l as [|z l IH]; simpl; [reflexivity|].
  destruct (after x z); simpl; [now rewrite IH|reflexivity].
Qed.

Lemma sort_length (l : list A) : length (JSArray.sort after l) = length l.
Proof.
  induction l as [|x l IH]; simpl; [reflexivity|].
  now rewrite insert_length, IH.
Qed.

(** With a comparator that orders by a key, the result is ordered by that
    key, largest first. *)
Variable key : A -> Z.

Lemma insert_sorted (x : A) (l : list A) :
  (forall y, In y l -> after x y = (key x <? key y)) ->
  StronglySorted (fun a b => key b <= key a) l ->
  StronglySorted (fun a b => key b <= key a) (JSArray.insert after x l).
Proof.
  induction l as [|z l IH]; intros Hcmp Hs; simpl.
  - repeat constructor.
  - apply StronglySorted_inv in Hs as [Hs Hz].
    rewrite (Hcmp z (or_introl eq_refl)).
    destruct (Z.ltb_spec (key x) (key z)).
    + constructor.
      * apply IH; [intros y Hy; apply Hcmp; now right|exact Hs].
      * rewrite List.Forall_forall. intros y Hy. apply insert_In in Hy as [->|Hy]; [lia|].
        rewrite List.Forall_forall in Hz. now apply Hz.
    + constructor; [now constructor|].
      constructor; [lia|].
      rewrite List.Forall_forall in Hz |- *. intros y Hy. specialize (Hz y Hy). lia.
Qed.

Lemma sort_sorted (l : list A) :
  (forall x y, In x l -> In y l -> after x y = (key x <? key y)) ->
  StronglySorted (fun a b => key b <= key a) (JSArray.sort after l).
Proof.
  induction l as [|x l IH]; intros Hcmp; simpl; [constructor|].
  apply insert_sorted.
  - intros y Hy. apply (proj1 (sort_In y l)) in Hy. apply Hcmp; simpl; auto.
  - apply IH. intros a b Ha Hb. apply Hcmp; simpl; auto.
Qed.

Lemma strongly_sorted_lookup (R : A -> A -> Prop) (l : list A) (i j : nat) (a b : A) :
  StronglySorted R l -> (i < j)%nat -> l !! i = Some a -> l !! j = Some b -> R a b.
Proof.
  intros Hs. revert i j. induction Hs as [|x l Hs IH Hx]; intros i j Hij Hi Hj.
  - discriminate.
  - destruct j as [|j]; [lia|]. simpl in Hj.
    destruct i as [|i]; simpl in Hi.
    + injection Hi as <-. rewrite List.Forall_forall in Hx. apply Hx.
      apply list_elem_of_In, list_elem_of_lookup. eauto.
    + apply (IH i j); [lia|assumption..].
Qed.

End SortFacts.

(** ** The dashboard aggregation *)
Section DashboardAggregation.
Import JS Num Http Hook Spec Dashboard.

Variable getTime : string -> option Z.

(** What [load] stores when the two first requests return. *)
Lemma load_settled_data controller weekAgo me_net projects_net worklog_net
    (s : Dashboard.State) meResp projResp :
  fetchWithAuth me_net = Normal meResp ->
  fetchWithAuth projects_net = Normal projResp ->
  load_settled getTime controller weekAgo me_net projects_net worklog_net s
  = let all := JSArray.sort (createdAt_after getTime)
                 (aggregated (first_page projResp) worklog_net) in
    setLoading false
      (setData
         (Some {| me := match meResp with Some r => me_data r | None => None end;
                  projects := projResp;
                  recentWorklogs := take 5 all;
                  totals :=
                    {| totalProjects :=
                         nullish_or
                           (match projResp with
                            | Some r => match meta r with
                                        | Some m => totalItems m
                                        | None => Undefined
                                        end
                            | None => Undefined
                            end)
                           (Number (Fin (Z.of_nat (length (first_page projResp)))));
                       worklogsThisWeek :=
                         length (List.filter (in_week getTime weekAgo) all) |} |})
         s).
Proof. intros Hme Hpr. unfold load_settled. now rewrite Hme, Hpr. Qed.

(** A rejected, failed or unreadable worklogs answer counts as no worklog. *)
Lemma worklog_list_failure (p : ProjectItem) net e :
  fetchWithAuth net = Throw e -> worklog_list p net = [].
Proof. intros Hf. unfold worklog_list. now rewrite Hf. Qed.

Lemma worklog_list_no_worklogs (p : ProjectItem) : worklog_list p no_worklogs = [].
Proof. reflexivity. Qed.

Lemma aggregated_without_failures (failed : nat -> bool) projects worklog_net :
  (forall i, failed i = true -> exists e, fetchWithAuth (worklog_net i) = Throw e) ->
  aggregated projects (without_failures failed worklog_net)
  = aggregated projects worklog_net.
Proof.
  intros Hfail. unfold aggregated. f_equal. apply imap_ext.
  intros i p _. unfold without_failures.
  destruct (failed i) eqn:Ef; [|reflexivity].
  destruct (Hfail i Ef) as [e He].
  now rewrite worklog_list_no_worklogs, (worklog_list_failure p _ e He).
Qed.

Lemma load_settled_aggregated controller weekAgo me_net projects_net wn1 wn2
    (s : Dashboard.State) :
  (forall projects, aggregated projects wn1 = aggregated projects wn2) ->
  load_settled getTime controller weekAgo me_net projects_net wn1 s
  = load_settled getTime controller weekAgo me_net projects_net wn2 s.
Proof.
  intros Hagg. unfold load_settled.
  destruct (fetchWithAuth me_net) as [meResp|]; [|reflexivity].
  destruct (fetchWithAuth projects_net) as [projResp|]; [|reflexivity].
  specialize (Hagg (first_page projResp)). unfold aggregated, first_page in Hagg.
  now rewrite Hagg.
Qed.

(** C4.  Whatever set [failed] of per-project worklog requests fails
    (rejects, answers with a non-2xx status or with unreadable JSON), [load]
    ends in the state it would reach had those requests returned an empty
    list: the dashboard data is stored, [loading] is cleared and [error] is
    left as it was, which is empty when [load] itself started the request. *)
Theorem dashboard_tolerates_worklog_failures
    (failed : nat -> bool) controller weekAgo me_net projects_net worklog_net
    (s : Dashboard.State) meResp projResp :
  fetchWithAuth me_net = Normal meResp ->
  fetchWithAuth projects_net = Normal projResp ->
  (forall i, failed i = true -> exists e, fetchWithAuth (worklog_net i) = Throw e) ->
  let s' := load_settled getTime controller weekAgo me_net projects_net worklog_net s in
  s' = load_settled getTime controller weekAgo me_net projects_net
         (without_failures failed worklog_net) s /\
  (exists d,
     data s' = Some d /\
     recentWorklogs d
       = take 5 (JSArray.sort (createdAt_after getTime)
                   (aggregated (first_page projResp)
                      (without_failures failed worklog_net))) /\
     worklogsThisWeek (totals d)
       = length (List.filter (in_week getTime weekAgo)
                   (aggregated (first_page projResp)
                      (without_failures failed worklog_net)))) /\
  loading s' = false /\
  error s' = error s /\
  (forall API_HOST document_cookie s0 requests,
     load_call API_HOST document_cookie s0 = (s, Sent controller requests) ->
     error s' = "").
Proof.
  intros Hme Hpr Hfail s'.
  assert (Hagg : forall projects,
             aggregated projects worklog_net
             = aggregated projects (without_failures failed worklog_net)).
  { intros projects. symmetry. now apply aggregated_without_failures. }
  split; [apply load_settled_aggregated, Hagg|].
  subst s'. rewrite (load_settled_data _ _ _ _ _ _ _ _ Hme Hpr). simpl.
  split.
  { eexists. split; [reflexivity|]. simpl.
    rewrite sort_filter_length, <- Hagg. split; reflexivity. }
  split; [reflexivity|]. split; [reflexivity|].
  intros API_HOST document_cookie s0 requests. unfold load_call.
  destruct (getCookie _ _); [|discriminate].
  destruct (_ || _); [discriminate|].
  intros [= <- _ _]. unfold install_controller, abort_current.
  destruct (abortRef _); reflexivity.
Qed.

Lemma createdAt_after_key (a b : WorklogItem) ta tb :
  getTime (createdAt a) = Some ta -> getTime (createdAt b) = Some tb ->
  createdAt_after getTime a b = (ta <? tb).
Proof.
  intros Ha Hb. unfold createdAt_after. rewrite Ha, Hb.
  destruct (Z.ltb_spec 0 (tb - ta)), (Z.ltb_spec ta tb); try reflexivity; lia.
Qed.

Lemma sort_newest_first (l : list WorklogItem) :
  valid_dates getTime l ->
  newest_first getTime (JSArray.sort (createdAt_after getTime) l).
Proof.
  intros Hvalid.
  pose (key := fun w : WorklogItem => default 0 (getTime (createdAt w))).
  assert (Hkey : forall w, In w l -> getTime (createdAt w) = Some (key w)).
  { intros w Hw. specialize (Hvalid w Hw). unfold key.
    destruct (getTime (createdAt w)); [reflexivity|congruence]. }
  assert (Hs : StronglySorted (fun a b => key b <= key a)
                 (JSArray.sort (createdAt_after getTime) l)).
  { apply sort_sorted. intros x y Hx Hy.
    apply createdAt_after_key; now apply Hkey. }
  intros i j a b ta tb Hij Hi Hj Hta Htb.
  pose proof (strongly_sorted_lookup _ _ _ _ _ _ Hs Hij Hi Hj) as Hle.
  simpl in Hle. unfold key in Hle. now rewrite Hta, Htb in Hle.
Qed.

Lemma take_newest_first (n : nat) (l : list WorklogItem) :
  newest_first getTime l -> newest_first getTime (take n l).
Proof.
  intros Hl i j a b ta tb Hij Hi Hj.
  apply lookup_take_Some in Hi as [Hi _]. apply lookup_take_Some in Hj as [Hj _].
  now apply (Hl i j a b ta tb).
Qed.

(** Where an aggregated worklog comes from. *)
Lemma aggregated_origin projects worklog_net (w : WorklogItem) :
  In w (aggregated projects worklog_net) ->
  exists (i : nat) p r it,
    projects !! i = Some p /\
    fetchWithAuth (worklog_net i) = Normal (Some r) /\
    In it (items r) /\
    w = with_projectId (project_id p) it.
Proof.
  unfold aggregated. intros Hw. apply in_concat in Hw as (l & Hl & Hw).
  apply list_elem_of_In, elem_of_lookup_imap in Hl as (i & p & -> & Hp).
  unfold worklog_list in Hw.
  destruct (fetchWithAuth (worklog_net i)) as [[r|]|] eqn:Ef; try contradiction.
  apply in_map_iff in Hw as (it & <- & Hit).
  exists i, p, r, it. repeat split; assumption.
Qed.

(** [setDate(getDate() - 7)] moves the local time back by seven days of
    24 hours, whatever the day of the month is. *)
Lemma week_before_local (LocalTZA : Z -> bool -> Z) (now : Z) :
  JSDate.week_before LocalTZA now
  = JSDate.UTC LocalTZA (JSDate.LocalTime LocalTZA now - 7 * JSDate.msPerDay).
Proof.
  unfold JSDate.week_before, JSDate.setDate, JSDate.getDate, JSDate.MakeDay_in_month,
    JSDate.MakeDate, JSDate.Day, JSDate.TimeWithinDay.
  set (t := JSDate.LocalTime LocalTZA now). f_equal.
  pose proof (Z.div_mod t JSDate.msPerDay ltac:(discriminate)) as Hdm. lia.
Qed.

(** Answers of at most [n] worklogs each add up to at most [n] worklogs
    for each project. *)
Lemma aggregated_length (n : nat) (projects : list ProjectItem)
    (worklog_net : nat -> Settled (Response WorklogsResponse)) :
  (forall (i : nat) (r : WorklogsResponse),
     fetchWithAuth (worklog_net i) = Normal (Some r) ->
     (length (items r) <= n)%nat) ->
  (length (aggregated projects worklog_net) <= n * length projects)%nat.
Proof.
  unfold aggregated. revert worklog_net.
  induction projects as [|p projects IH]; intros worklog_net Hn; [simpl; lia|].
  cbn [imap concat]. rewrite length_app. cbn [length].
  specialize (IH (fun i => worklog_net (S i)) (fun i => Hn (S i))).
  change (imap ((fun i p => worklog_list p (worklog_net i)) ∘ S) projects)
    with (imap (fun i p => worklog_list p (worklog_net (S i))) projects).
  assert (Hhead : (length (worklog_list p (worklog_net 0%nat)) <= n)%nat).
  { unfold worklog_list.
    destruct (fetchWithAuth (worklog_net 0%nat)) as [[r|]|] eqn:Ef;
      [|cbn; lia|cbn; lia].
    rewrite length_map. exact (Hn 0%nat r Ef). }
  lia.
Qed.

(** C9, as amended.  When the user and the project requests return, the
    stored [recentWorklogs] has at most five items; each of them is a
    worklog returned by the request made for one of the projects of the
    first-page answer, carrying that project's id as [projectId]; the list
    is latest first whenever every aggregated [createdAt] is a valid date;
    and [worklogsThisWeek] is the number of aggregated worklogs whose
    [logDate] is a valid date not before [weekAgo], the date [new Date()]
    gives at the clock reading [now] after [setDate(getDate() - 7)]: the
    local time seven days of 24 hours before [now], which is
    [now - 604800000] when the zone offset is the same at both ends.  The
    projects and the worklogs of each project are requested with
    [limit=5] and taken as answered: answers of at most five projects and
    at most five worklogs each make at most twenty-five aggregated
    worklogs. *)
Theorem dashboard_recent_worklogs (LocalTZA : Z -> bool -> Z) controller now
    me_net projects_net worklog_net (s : Dashboard.State) meResp projResp :
  fetchWithAuth me_net = Normal meResp ->
  fetchWithAuth projects_net = Normal projResp ->
  exists d,
    data (load_settled_at getTime LocalTZA controller now
            me_net projects_net worklog_net s) = Some d /\
    (length (recentWorklogs d) <= 5)%nat /\
    (forall w, In w (recentWorklogs d) ->
       exists (i : nat) p r it,
         first_page projResp !! i = Some p /\
         fetchWithAuth (worklog_net i) = Normal (Some r) /\
         In it (items r) /\
         w = with_projectId (project_id p) it /\
         projectId w = Some (project_id p)) /\
    (valid_dates getTime (aggregated (first_page projResp) worklog_net) ->
       newest_first getTime (recentWorklogs d)) /\
    (* the count of the week *)
    worklogsThisWeek (totals d)
      = length (List.filter (in_week getTime (JSDate.week_before LocalTZA now))
                  (aggregated (first_page projResp) worklog_net)) /\
    (forall w,
       in_week getTime (JSDate.week_before LocalTZA now) w = true <->
       exists t, getTime (logDate w) = Some t /\ JSDate.week_before LocalTZA now <= t) /\
    (let local := now + LocalTZA now true - 7 * 86400000 in
     JSDate.week_before LocalTZA now = local - LocalTZA local false) /\
    (LocalTZA (now + LocalTZA now true - 7 * 86400000) false = LocalTZA now true ->
     JSDate.week_before LocalTZA now = now - 604800000) /\
    (* what is asked for, and what is taken *)
    (forall API_HOST document_cookie s0,
       let requests :=
         load_requests API_HOST document_cookie me_net projects_net s0 in
       requests = [] \/
       List.map url requests
       = List.app
           [template API_HOST ++ "/auth/me"; template API_HOST ++ "/projects?limit=5"]
           (List.map (fun p => template API_HOST ++ "/projects/" ++ project_id p
                                 ++ "/worklogs?limit=5")
                     (first_page projResp))) /\
    ((length (first_page projResp) <= 5)%nat ->
     (forall (i : nat) r, fetchWithAuth (worklog_net i) = Normal (Some r) ->
        (length (items r) <= 5)%nat) ->
     (length (aggregated (first_page projResp) worklog_net) <= 25)%nat).
Proof.
  intros Hme Hpr. unfold load_settled_at.
  rewrite (load_settled_data _ _ _ _ _ _ _ _ Hme Hpr). simpl.
  eexists. split; [reflexivity|]. simpl.
  split; [rewrite length_take; lia|].
  split.
  { intros w Hw. apply list_elem_of_In, subseteq_take, list_elem_of_In in Hw.
    apply sort_In, aggregated_origin in Hw as (i & p & r & it & Hp & Hf & Hit & ->).
    exists i, p, r, it. repeat split; assumption. }
  split; [intros Hvalid; now apply take_newest_first, sort_newest_first|].
  split; [apply sort_filter_length|].
  split.
  { intros w. unfold in_week. destruct (getTime (logDate w)) as [t|].
    - rewrite Z.leb_le. split; [intros Hle; now exists t|now intros (t' & [= <-] & Hle)].
    - split; [discriminate|now intros (t' & [=] & _)]. }
  split.
  { cbv zeta. rewrite week_before_local. reflexivity. }
  split.
  { intros Hsame. rewrite week_before_local.
    unfold JSDate.UTC, JSDate.LocalTime, JSDate.msPerDay. rewrite Hsame. lia. }
  split.
  - intros API_HOST document_cookie s0. cbv zeta. unfold load_requests, load_call.
    destruct (getCookie _ _); [|now left].
    destruct (_ || _); [now left|]. right.
    unfold load_first_settled. rewrite Hme, Hpr.
    rewrite map_app. cbn [default from_option id]. unfold worklog_requests.
    now rewrite map_map.
  - intros Hprojects Hworklogs.
    pose proof (aggregated_length 5 (first_page projResp) worklog_net Hworklogs).
    lia.
Qed.

End DashboardAggregation.

(** C9 as stated fails.  With a [createdAt] that is not a date the
    comparator returns [NaN] for every pair that involves it, and the three
    worklogs of the sample stay in the order received, the oldest before
    the newest.  And nothing cuts the answers to five: when the server
    answers with six projects and six worklogs for the sixth, the recent
    worklogs are those of the sixth project and all six are counted. *)
Lemma dashboard_recent_worklogs_not_as_stated :
  (exists d,
     Hook.data (Dashboard.load_settled_at JSDate.getTime Samples.LocalTZA 0 Samples.now
                  Samples.me_ok Samples.one_project Samples.worklogs_bad_date
                  Hook.mount) = Some d /\
     List.map worklog_id (Dashboard.recentWorklogs d) = ["w1"; "w2"; "w3"] /\
     ~ Spec.newest_first JSDate.getTime (Dashboard.recentWorklogs d)) /\
  (exists d projResp,
     Http.fetchWithAuth Samples.six_projects = Http.Normal projResp /\
     length (Spec.first_page projResp) = 6%nat /\
     Hook.data (Dashboard.load_settled_at JSDate.getTime Samples.LocalTZA 0 Samples.now
                  Samples.me_ok Samples.six_projects Samples.worklogs_of_sixth
                  Hook.mount) = Some d /\
     List.map projectId (Dashboard.recentWorklogs d)
     = [Some "p6"; Some "p6"; Some "p6"; Some "p6"; Some "p6"] /\
     length (Spec.aggregated (Spec.first_page projResp) Samples.worklogs_of_sixth)
     = 6%nat /\
     Dashboard.worklogsThisWeek (Dashboard.totals d) = 6%nat).
Proof.
  split.
  - eexists. split; [reflexivity|]. split; [reflexivity|].
    intros Hsorted.
    specialize (Hsorted 0%nat 2%nat _ _ 1714550400000 1714636800000
                  ltac:(lia) eq_refl eq_refl eq_refl eq_refl).
    lia.
  - eexists _, _. split; [reflexivity|]. split; [reflexivity|].
    split; [reflexivity|]. split; [reflexivity|]. split; reflexivity.
Qed.

(** ** Overlapping requests *)
Section Supersede.
Import JS Http Hook.

(** In [useProjects] and [useWorklogs] the continuation of a request that
    is no longer the current one changes nothing. *)
Lemma projects_superseded_settle (c : nat) net (s : Projects.State) :
  abortRef s <> Some c -> Projects.load_settled c net s = s.
Proof.
  intros Hc. unfold Projects.load_settled, is_current. cbv beta zeta.
  rewrite !bool_decide_eq_false_2 by exact Hc.
  destruct (fetchWithAuth net); [reflexivity|]. now rewrite orb_true_r.
Qed.

Lemma worklogs_superseded_settle (c : nat) net (s : Worklogs.State) :
  abortRef s <> Some c -> Worklogs.load_settled c net s = s.
Proof.
  intros Hc. unfold Worklogs.load_settled, is_current. cbv beta zeta.
  rewrite !bool_decide_eq_false_2 by exact Hc.
  destruct (fetchWithAuth net); [reflexivity|]. now rewrite orb_true_r.
Qed.

(** Starting a request aborts the current controller and installs a new
    one, under which the request is sent. *)
Lemma projects_load_call_supersedes API_HOST document_cookie query
    (s s' : Projects.State) c requests :
  Projects.load_call API_HOST document_cookie query s = (s', Sent c requests) ->
  c = controllers s /\
  abortRef s' = Some c /\
  controllers s' = S c /\
  (forall c0, abortRef s = Some c0 -> is_aborted c0 s' = true) /\
  Forall (fun r => signal r = Some c) requests.
Proof.
  unfold Projects.load_call.
  destruct (getCookie _ _); [|discriminate].
  destruct (_ || _); [discriminate|].
  intros [= <- <- <-]. unfold install_controller, abort_current, is_aborted. simpl.
  destruct (abortRef s) as [c1|] eqn:Ea; simpl; repeat split; auto.
  - intros c0 [= <-]. apply bool_decide_eq_true_2. set_solver.
  - discriminate.
Qed.

Lemma worklogs_load_call_supersedes API_HOST document_cookie project query
    (s s' : Worklogs.State) c requests :
  Worklogs.load_call API_HOST document_cookie project query s
    = (s', Sent c requests) ->
  c = controllers s /\
  abortRef s' = Some c /\
  controllers s' = S c /\
  (forall c0, abortRef s = Some c0 -> is_aborted c0 s' = true) /\
  Forall (fun r => signal r = Some c) requests.
Proof.
  unfold Worklogs.load_call.
  destruct (falsy project); [discriminate|].
  destruct (getCookie _ _); [|discriminate].
  destruct (_ || _); [discriminate|].
  intros [= <- <- <-]. unfold install_controller, abort_current, is_aborted. simpl.
  destruct (abortRef s) as [c1|] eqn:Ea; simpl; repeat split; auto.
  - intros c0 [= <-]. apply bool_decide_eq_true_2. set_solver.
  - discriminate.
Qed.

Lemma dashboard_load_call_supersedes API_HOST document_cookie
    (s s' : Dashboard.State) c requests :
  Dashboard.load_call API_HOST document_cookie s = (s', Sent c requests) ->
  c = controllers s /\
  abortRef s' = Some c /\
  controllers s' = S c /\
  (forall c0, abortRef s = Some c0 -> is_aborted c0 s' = true) /\
  Forall (fun r => signal r = Some c) requests.
Proof.
  unfold Dashboard.load_call.
  destruct (getCookie _ _); [|discriminate].
  destruct (_ || _); [discriminate|].
  intros [= <- <- <-]. unfold install_controller, abort_current, is_aborted. simpl.
  destruct (abortRef s) as [c1|] eqn:Ea; simpl; repeat split; auto.
  - intros c0 [= <-]. apply bool_decide_eq_true_2. set_solver.
  - discriminate.
Qed.

(** So, in [useProjects], once a second [load] has started, the first
    request can complete in any way without being seen. *)
Lemma projects_overlap_ignored API_HOST document_cookie q1 q2
    (s0 s1 s2 : Projects.State) c1 c2 r1 r2 net :
  Projects.load_call API_HOST document_cookie q1 s0 = (s1, Sent c1 r1) ->
  Projects.load_call API_HOST document_cookie q2 s1 = (s2, Sent c2 r2) ->
  is_aborted c1 s2 = true /\
  Projects.load_settled c1 net s2 = s2.
Proof.
  intros H1 H2.
  apply projects_load_call_supersedes in H1 as (-> & Ha1 & Hn1 & _ & _).
  apply projects_load_call_supersedes in H2 as (-> & Ha2 & _ & Hab & _).
  split; [now apply Hab|].
  apply projects_superseded_settle. rewrite Ha2, Hn1. intros [= Hx]. lia.
Qed.

Lemma worklogs_overlap_ignored API_HOST document_cookie project q1 q2
    (s0 s1 s2 : Worklogs.State) c1 c2 r1 r2 net :
  Worklogs.load_call API_HOST document_cookie project q1 s0 = (s1, Sent c1 r1) ->
  Worklogs.load_call API_HOST document_cookie project q2 s1 = (s2, Sent c2 r2) ->
  is_aborted c1 s2 = true /\
  Worklogs.load_settled c1 net s2 = s2.
Proof.
  intros H1 H2.
  apply worklogs_load_call_supersedes in H1 as (-> & Ha1 & Hn1 & _ & _).
  apply worklogs_load_call_supersedes in H2 as (-> & Ha2 & _ & Hab & _).
  split; [now apply Hab|].
  apply worklogs_superseded_settle. rewrite Ha2, Hn1. intros [= Hx]. lia.
Qed.

(** The continuation of the dashboard's [load] never looks at [abortRef]:
    however its requests end, it clears [loading], and when one of the two
    first requests fails it stores the load-failure message. *)
Lemma dashboard_settle_unguarded getTime c weekAgo me_net projects_net worklog_net
    (s : Dashboard.State) :
  loading (Dashboard.load_settled getTime c weekAgo me_net projects_net worklog_net s)
  = false.
Proof.
  unfold Dashboard.load_settled.
  destruct (fetchWithAuth me_net); [|reflexivity].
  destruct (fetchWithAuth projects_net); reflexivity.
Qed.

Lemma dashboard_overlap_observed API_HOST document_cookie getTime weekAgo worklog_net
    (s1 s2 : Dashboard.State) c2 r2 reason1 reason2 :
  Dashboard.load_call API_HOST document_cookie s1 = (s2, Sent c2 r2) ->
  observable s2 = (true, "", data s1) /\
  forall c1,
    observable (Dashboard.load_settled getTime c1 weekAgo (Rejected reason1)
                  (Rejected reason2) worklog_net s2)
    = (false, "Gagal memuat dashboard. Coba lagi.", None).
Proof.
  unfold Dashboard.load_call.
  destruct (getCookie _ _); [|discriminate].
  destruct (_ || _); [discriminate|].
  intros [= <- _ _]. split; [|reflexivity].
  unfold install_controller, abort_current, observable.
  destruct (abortRef _); reflexivity.
Qed.

(** The registration hook is unguarded as well: a request that was aborted
    by a newer [registerAccount] stores its failure message and clears
    [isLoading]. *)
Lemma register_settle_unguarded reason (s : Mutation.State) :
  let out := Register.registerAccount_settled (Rejected reason) s in
  Mutation.isLoading (fst out) = false /\
  Mutation.error (fst out) = "Gagal melakukan registrasi. Periksa koneksi Anda.".
Proof. split; reflexivity. Qed.

End Supersede.

(** C2 at the dashboard hook.  [load] is called twice in a row on a freshly
    mounted hook.  The second call aborts controller 0 and installs
    controller 1, leaving [loading = true], [error = ""].  When the aborted
    requests of the first call then reject, its continuation stores the
    load-failure message and clears [loading] although request 1 is still in
    flight; and when request 1 later succeeds the stale message stays next to
    the data.  On the same schedule [useProjects] ignores the aborted
    request. *)
Theorem dashboard_superseded_load_is_observed :
  let first := Dashboard.load_call Samples.API_HOST Samples.cookie Hook.mount in
  let second := Dashboard.load_call Samples.API_HOST Samples.cookie (fst first) in
  let s2 := fst second in
  let s3 := Dashboard.load_settled JSDate.getTime 0 Samples.weekAgo
              Samples.aborted_fetch Samples.aborted_fetch
              (fun _ => Samples.aborted_fetch) s2 in
  let s4 := Dashboard.load_settled JSDate.getTime 1 Samples.weekAgo
              Samples.me_ok Samples.two_projects Samples.worklogs_p1_only s3 in
  let p_first := Projects.load_call Samples.API_HOST Samples.cookie Projects.initial Hook.mount in
  let p_second := Projects.load_call Samples.API_HOST Samples.cookie Projects.initial (fst p_first) in
  (exists r1 r2, snd first = Hook.Sent 0 r1 /\ snd second = Hook.Sent 1 r2) /\
  Hook.abortRef s2 = Some 1%nat /\
  Hook.is_aborted 0 s2 = true /\
  Hook.observable s2 = (true, "", None) /\
  Hook.observable s3 = (false, "Gagal memuat dashboard. Coba lagi.", None) /\
  Hook.loading s4 = false /\
  Hook.error s4 = "Gagal memuat dashboard. Coba lagi." /\
  Hook.data s4 <> None /\
  Projects.load_settled 0 Samples.aborted_fetch (fst p_second) = fst p_second.
Proof.
  cbv zeta.
  split; [do 2 eexists; split; reflexivity|].
  split; [reflexivity|].
  split; [vm_compute; reflexivity|].
  split; [reflexivity|].
  split; [reflexivity|].
  split; [reflexivity|].
  split; [reflexivity|].
  split; [discriminate|].
  apply projects_superseded_settle. discriminate.
Qed.

(** ** Error messages *)
Section ErrorMessages.
Import JS Http Hook.










End ErrorMessages.

(** ** Archive gating of the pages *)
Section ArchiveGating.
Import JS Pages.

(** The header of the project page: for an archived project the Add
    Worklog button is disabled and Edit and Archive are not rendered. *)
Lemma ProjectDetail_archived_header (h : ProjectDetailHook) deleting project :
  pd_loading h = false -> pd_notFound h = false ->
  pd_project h = Some project -> Dto.status project = ProjectStatus.ARCHIVED ->
  exists rest,
    ProjectDetail h deleting
    = Page true ({| action := AddWorklog;
                    href := "/projects/" ++ project_id project ++ "/worklogs/new";
                    disabled := true |} :: rest) /\
    ~ rendered EditProject (ProjectDetail h deleting) /\
    ~ rendered ArchiveProject (ProjectDetail h deleting).
Proof.
  intros Hl Hn Hp Hs. unfold ProjectDetail. rewrite Hl, Hn, Hp, Hs.
  change (String.eqb ProjectStatus.ARCHIVED ProjectStatus.ARCHIVED) with true.
  cbv beta zeta. simpl negb. simpl andb. cbv iota.
  eexists. split; [reflexivity|].
  split; intros (c & Hc & Ha); simpl in Hc;
    destruct Hc as [<-|[<-|Hc]]; try discriminate;
    destruct (_ =? _)%nat; simpl in Hc.
  - destruct Hc as [<-|[]]. discriminate.
  - apply in_map_iff in Hc as (w & <- & _). discriminate.
  - destruct Hc as [<-|[]]. discriminate.
  - apply in_map_iff in Hc as (w & <- & _). discriminate.
Qed.

(** For an active project the header offers Add Worklog, and Edit and
    Archive exactly to those who can manage. *)
Lemma ProjectDetail_active (h : ProjectDetailHook) project :
  pd_loading h = false -> pd_notFound h = false ->
  pd_project h = Some project -> Dto.status project = ProjectStatus.ACTIVE ->
  available AddWorklog (ProjectDetail h false) /\
  (pd_canManage h = true ->
     available EditProject (ProjectDetail h false) /\
     available ArchiveProject (ProjectDetail h false)) /\
  (pd_canManage h = false ->
     ~ rendered EditProject (ProjectDetail h false) /\
     ~ rendered ArchiveProject (ProjectDetail h false)).
Proof.
  intros Hl Hn Hp Hs. unfold ProjectDetail. rewrite Hl, Hn, Hp, Hs.
  change (String.eqb ProjectStatus.ACTIVE ProjectStatus.ARCHIVED) with false.
  cbv beta zeta. simpl negb. simpl andb.
  split.
  { eexists. split; [left; reflexivity|]. split; reflexivity. }
  split; intros ->; cbv iota.
  - split.
    + exists {| action := EditProject;
                href := "/projects/" ++ project_id project ++ "/edit";
                disabled := false |}.
      split; [simpl; auto|split; reflexivity].
    + exists {| action := ArchiveProject; href := ""; disabled := false |}.
      split; [simpl; auto|split; reflexivity].
  - split; intros (c & Hc & Ha); simpl in Hc;
      destruct Hc as [<-|[<-|Hc]]; try discriminate;
      destruct (_ =? _)%nat; simpl in Hc.
    + destruct Hc as [<-|[]]. discriminate.
    + apply in_map_iff in Hc as (w & <- & _). discriminate.
    + destruct Hc as [<-|[]]. discriminate.
    + apply in_map_iff in Hc as (w & <- & _). discriminate.
Qed.

(** The worklogs list: every Add Worklog button, in the header and in the
    empty state, is disabled exactly when the project is archived. *)
Lemma WorklogsList_add_buttons getTime projectId project
    (h : WorklogsHook) busyId p c :
  project = Some p ->
  In c (controls_of (WorklogsList getTime projectId project h busyId)) ->
  action c = AddWorklog ->
  disabled c = String.eqb (Dto.status p) ProjectStatus.ARCHIVED.
Proof.
  intros -> Hc Ha. unfold WorklogsList in Hc. simpl in Hc.
  destruct Hc as [<-|Hc]; [reflexivity|].
  destruct (wl_loading h); [destruct Hc|].
  destruct (negb _); [destruct Hc as [<-|[]]; discriminate|].
  destruct (_ =? _)%nat; [destruct Hc as [<-|[]]; reflexivity|].
  apply in_concat in Hc as (l & Hl & Hc).
  apply in_map_iff in Hl as (w & <- & _).
  destruct Hc as [<-|[<-|[<-|[]]]]; discriminate.
Qed.

(** The worklog page renders Edit and Delete exactly when the project is
    not archived. *)
Lemma WorklogDetail_actions projectId worklogId project (h : WorklogDetailHook)
    deleting data :
  wd_loading h = false -> wd_notFound h = false -> wd_data h = Some data ->
  let archived :=
    match project with
    | Some p => String.eqb (Dto.status p) ProjectStatus.ARCHIVED
    | None => false
    end in
  let v := WorklogDetail projectId worklogId project h deleting in
  (archived = true -> controls_of v = []) /\
  (archived = false ->
     rendered (EditWorklog worklogId) v /\ rendered (DeleteWorklog worklogId) v /\
     available (EditWorklog worklogId) v).
Proof.
  intros Hl Hn Hd archived v. subst v. unfold WorklogDetail.
  rewrite Hl, Hn, Hd. fold archived. split; intros ->; simpl.
  - reflexivity.
  - split; [|split].
    + eexists. split; [left; reflexivity|reflexivity].
    + eexists. split; [right; left; reflexivity|reflexivity].
    + eexists. split; [left; reflexivity|split; reflexivity].
Qed.

(** The empty state of the project page's preview card renders its
    Add Worklog link enabled whatever the status of the project. *)
Lemma ProjectDetail_empty_state_add (h : ProjectDetailHook) deleting project :
  pd_loading h = false -> pd_notFound h = false ->
  pd_project h = Some project -> pd_worklogs h = [] ->
  available AddWorklog (ProjectDetail h deleting).
Proof.
  intros Hl Hn Hp Hw. unfold ProjectDetail. rewrite Hl, Hn, Hp, Hw.
  exists {| action := AddWorklog;
            href := ("/projects/" ++ project_id project) ++ "/worklogs/new";
            disabled := false |}.
  split; [|split; reflexivity].
  simpl controls_of. right. apply in_or_app. right. right. now left.
Qed.

(** The rows of the worklogs list offer Edit and Delete whatever the status
    of the project. *)
Lemma WorklogsList_row_actions getTime projectId project (h : WorklogsHook) w rest :
  wl_loading h = false -> wl_error h = "" ->
  JSArray.sort (logDate_after getTime)
    (default [] (match wl_data h with Some d => Dto.data d | None => None end))
    = w :: rest ->
  let v := WorklogsList getTime projectId project h "" in
  rendered (EditWorklog (worklog_id w)) v /\
  rendered (DeleteWorklog (worklog_id w)) v.
Proof.
  intros Hl He Hitems v. subst v. unfold WorklogsList, rendered.
  rewrite Hl, He, Hitems. simpl controls_of.
  split; eexists; (split; [right|]).
  - right. left. reflexivity.
  - reflexivity.
  - right. right. left. reflexivity.
  - reflexivity.
Qed.

End ArchiveGating.

(** C7 at the project page.  For an archived project whose worklogs preview
    is empty the page shows the archive notice, disables the header's Add
    Worklog button and hides Edit and Archive, but the empty state of the
    "Worklogs terbaru" card renders a second Add Worklog link that is not
    disabled: adding a worklog stays available.  The empty state of the
    worklogs list disables the same button, and the worklog page hides its
    Edit and Delete. *)
Theorem ProjectDetail_archived_add_worklog_available :
  let v := Pages.ProjectDetail PageSamples.archived_empty false in
  (exists controls, v = Pages.Page true controls) /\
  In {| Pages.action := Pages.AddWorklog; Pages.href := "/projects/p9/worklogs/new";
        Pages.disabled := true |} (Pages.controls_of v) /\
  ~ Pages.rendered Pages.EditProject v /\
  ~ Pages.rendered Pages.ArchiveProject v /\
  Pages.available Pages.AddWorklog v /\
  ~ Pages.available Pages.AddWorklog
      (Pages.WorklogsList JSDate.getTime "p9" (Pages.pd_project PageSamples.archived_empty)
         {| Pages.wl_data := None; Pages.wl_loading := false; Pages.wl_error := "" |} "") /\
  Pages.controls_of
    (Pages.WorklogDetail "p9" "w1" (Pages.pd_project PageSamples.archived_empty)
       PageSamples.worklog_page false) = [].
Proof.
  cbv zeta.
  split; [eexists; reflexivity|].
  split; [left; reflexivity|].
  split.
  { intros (c & Hc & Ha). simpl in Hc.
    destruct Hc as [<-|[<-|[<-|[]]]]; discriminate. }
  split.
  { intros (c & Hc & Ha). simpl in Hc.
    destruct Hc as [<-|[<-|[<-|[]]]]; discriminate. }
  split.
  { exists {| Pages.action := Pages.AddWorklog; Pages.href := "/projects/p9/worklogs/new";
              Pages.disabled := false |}.
    split; [simpl; auto|split; reflexivity]. }
  split; [|reflexivity].
  intros (c & Hc & Ha & Hd). simpl in Hc.
  destruct Hc as [<-|[<-|[]]]; discriminate.
Qed.

(** ** Bearer authorization *)
Section Authorization.
Import JS Http Hook Spec.

Lemma append_empty (s : string) : s ++ "" = s.
Proof.
  induction s as [|c s IH]; [reflexivity|].
  change (String c (s ++ "") = String c s). now rewrite IH.
Qed.

Lemma append_snoc (s t : string) (c : ascii) :
  (s ++ String c "") ++ t = s ++ String c t.
Proof.
  induction s as [|d s IH]; [reflexivity|].
  change (String d ((s ++ String c "") ++ t) = String d (s ++ String c t)).
  now rewrite IH.
Qed.

(** Where the separator does not occur, [split] returns the string whole. *)
Lemma split_go_no_match (sep s cur : string) :
  includes s sep = false -> split_go sep s O cur = [cur ++ s].
Proof.
  revert cur. induction s as [|c s IH]; intros cur Hi.
  - now rewrite append_empty.
  - simpl in Hi. apply orb_false_elim in Hi as [Hp Hi].
    cbn [split_go]. now rewrite Hp, (IH _ Hi), append_snoc.
Qed.


(** An encoded value holds no semicolon, so that a cookie written as
    [access_token=<encodeURIComponent(v)>] is read back as [v]. *)
Lemma encoded_no_semicolon (v sep : string) :
  includes (encodeURIComponent v) (String ";" sep) = false.
Proof.
  induction v as [|c v IH]; [reflexivity|].
  destruct c as [[] [] [] [] [] [] [] []]; simpl; exact IH.
Qed.

Lemma encoded_not_empty (v : string) : v <> "" -> encodeURIComponent v <> "".
Proof.
  destruct v as [|c v]; [congruence|]. intros _. simpl.
  destruct (uri_unreserved c); discriminate.
Qed.

Lemma getCookie_written (v : string) :
  v <> "" ->
  getCookie (Some ("access_token=" ++ encodeURIComponent v)) COOKIE.ACCESS_TOKEN
  = Normal (Some v).
Proof.
  intros Hv. unfold getCookie, split. simpl.
  change ("; " ++ COOKIE.ACCESS_TOKEN ++ "=") with "; access_token=".
  change ("" ++ encodeURIComponent v) with (encodeURIComponent v).
  rewrite (split_go_no_match _ _ EmptyString (encoded_no_semicolon v _)).
  change ("" ++ encodeURIComponent v) with (encodeURIComponent v).
  pose proof (encoded_not_empty v Hv) as Hne.
  apply String.eqb_neq in Hne. rewrite Hne.
  rewrite (split_go_no_match _ _ EmptyString (encoded_no_semicolon v _)).
  change ("" ++ encodeURIComponent v) with (encodeURIComponent v).
  simpl. rewrite Hne. now rewrite decode_encode.
Qed.

Lemma getCookie_no_document (name : string) : getCookie None name = Normal None.
Proof. reflexivity. Qed.

Variable API_HOST : option string.
Variable document_cookie : option string.


Lemma bearer_fetchWithAuth url token c :
  bearer token (fetchWithAuth_request url token c).
Proof. reflexivity. Qed.

Lemma bearer_delete url token : bearer token (delete_request url token).
Proof. reflexivity. Qed.

Lemma bearer_json method url token fields c :
  bearer token (Forms.json_request method url token fields c).
Proof. reflexivity. Qed.
















(** *** Without a session nothing is sent *)

Variable token : option string.
Hypothesis cookie_read : getCookie document_cookie COOKIE.ACCESS_TOKEN = Normal token.

Section NoSession.
Hypothesis no_session : falsy API_HOST || falsy token = true.









End NoSession.


End Authorization.



(** * The theorems at concrete inputs *)

Lemma middleware_route_guard_witness :
  (* outside the guarded prefixes *)
  (Middleware.guarded "/about" = false /\
   Middleware.middleware Samples.toUpperCase None (Samples.request "/about" "" ∅) = Middleware.next) /\
  (* no token *)
  (Middleware.guarded "/projects/7" = true /\
   JS.falsy ((∅ : gmap string string) !! Middleware.ACCESS_TOKEN_COOKIE) = true /\
   Middleware.middleware Samples.toUpperCase None (Samples.request "/projects/7" "?tab=logs" ∅)
   = Middleware.redirect
       {| Middleware.url_input := "/login";
          Middleware.url_base := "https://devlog.test";
          Middleware.searchParams := [("d", "%2Fprojects%2F7%3Ftab%3Dlogs")] |}) /\
  (* a user and an administrator on a dashboard path *)
  (Middleware.inDashboardGroup "/dashboard" = true /\
   JS.falsy (Samples.session "user" !! Middleware.ACCESS_TOKEN_COOKIE) = false /\
   Middleware.middleware Samples.toUpperCase None (Samples.request "/dashboard" "" (Samples.session "user"))
   = Middleware.next /\
   Middleware.middleware Samples.toUpperCase None (Samples.request "/dashboard" "" (Samples.session "admin"))
   = Middleware.plain_redirect "/admin"
       (Samples.request "/dashboard" "" (Samples.session "admin"))) /\
  (* an administrator and a user on an admin path *)
  (JS.startsWith "/admin/users" "/admin" = true /\
   Middleware.middleware Samples.toUpperCase None (Samples.request "/admin/users" "" (Samples.session "ADMIN"))
   = Middleware.next /\
   Middleware.middleware Samples.toUpperCase None (Samples.request "/admin/users" "" (Samples.session "USER"))
   = Middleware.plain_redirect "/dashboard"
       (Samples.request "/admin/users" "" (Samples.session "USER"))) /\
  (* a role cookie that only the Unicode case mapping makes ADMIN *)
  (Samples.toUpperCase "admın" = "ADMIN" /\
   Middleware.middleware Samples.toUpperCase None
     (Samples.request "/admin" "" (Samples.session "admın"))
   = Middleware.next).
Proof.
  split; [|split; [|split; [|split]]].
  - split; [reflexivity|].
    destruct (middleware_route_guard Samples.toUpperCase None (Samples.request "/about" "" ∅)) as (Hpass & _).
    exact (Hpass eq_refl).
  - split; [reflexivity|]. split; [reflexivity|].
    destruct (middleware_route_guard Samples.toUpperCase None (Samples.request "/projects/7" "?tab=logs" ∅))
      as (_ & Hlogin & _).
    exact (Hlogin eq_refl eq_refl).
  - split; [reflexivity|]. split; [vm_compute; reflexivity|].
    split.
    + destruct (middleware_route_guard Samples.toUpperCase None
                  (Samples.request "/dashboard" "" (Samples.session "user")))
        as (_ & _ & Hdash & _).
      destruct (Hdash eq_refl ltac:(vm_compute; reflexivity)) as (Hnext & _).
      apply Hnext. vm_compute. reflexivity.
    + destruct (middleware_route_guard Samples.toUpperCase None
                  (Samples.request "/dashboard" "" (Samples.session "admin")))
        as (_ & _ & Hdash & _).
      destruct (Hdash eq_refl ltac:(vm_compute; reflexivity)) as (_ & Hadmin & _).
      apply Hadmin. vm_compute. reflexivity.
  - split; [reflexivity|]. split.
    + destruct (middleware_route_guard Samples.toUpperCase None
                  (Samples.request "/admin/users" "" (Samples.session "ADMIN")))
        as (_ & _ & _ & Hadm).
      destruct (Hadm eq_refl ltac:(vm_compute; reflexivity)) as (Hnext & _).
      apply Hnext. vm_compute. reflexivity.
    + destruct (middleware_route_guard Samples.toUpperCase None
                  (Samples.request "/admin/users" "" (Samples.session "USER")))
        as (_ & _ & _ & Hadm).
      destruct (Hadm eq_refl ltac:(vm_compute; reflexivity)) as (_ & Huser & _).
      apply Huser. vm_compute. reflexivity.
  - split; [reflexivity|].
    destruct (middleware_route_guard Samples.toUpperCase None
                (Samples.request "/admin" "" (Samples.session "admın")))
      as (_ & _ & _ & Hadm).
    destruct (Hadm eq_refl ltac:(vm_compute; reflexivity)) as (Hnext & _).
    apply Hnext. vm_compute. reflexivity.
Defined.

Lemma list_query_omits_defaults_witness :
  let endpoint := "https://api.devlog.test/projects" in
  let pp := Projects.load_params Samples.projects_query in
  let wp := Worklogs.load_params Samples.worklogs_query in
  Projects.load_url endpoint Samples.projects_query
    = "https://api.devlog.test/projects?search=api+gateway&status=ARCHIVED&page=3&limit=25" /\
  (JS.params_get "search" pp = Some "api gateway" /\
   exists s, Projects.search Samples.projects_query = Some s
             /\ "api gateway" = JS.trim s /\ "api gateway" <> "") /\
  (JS.params_get "page" pp = Some "3" /\
   exists p, Projects.page Samples.projects_query = Some p /\ 1 < p
             /\ "3" = JS.string_of_Z p) /\
  (JS.params_get "limit" wp = Some "50" /\
   exists l, Worklogs.limit Samples.worklogs_query = Some l /\ l <> 10
             /\ "50" = JS.string_of_Z l) /\
  (JS.params_get "activityType" wp = Some "review" /\
   exists a, Worklogs.activityType Samples.worklogs_query = Some a
             /\ "review" = JS.trim a /\ "review" <> "") /\
  Projects.load_url endpoint Projects.initial = endpoint.
Proof.
  intros endpoint pp wp.
  destruct (list_query_omits_defaults endpoint Samples.projects_query
              Samples.worklogs_query)
    as (Hurl & _ & Hsearch & _ & Hpage & _ & _ & _ & _ & Hact & _ & Hlimit & _ & Hdef & _).
  split; [rewrite Hurl; reflexivity|].
  split; [split; [reflexivity|exact (Hsearch "api gateway" eq_refl)]|].
  split; [split; [reflexivity|exact (Hpage "3" eq_refl)]|].
  split; [split; [reflexivity|exact (Hlimit "50" eq_refl)]|].
  split; [split; [reflexivity|exact (Hact "review" eq_refl)]|].
  exact Hdef.
Defined.

Lemma remove_success_updates_list_witness :
  let out := Projects.remove_settled "p2" Samples.delete_ok Samples.projects_loaded in
  let wout := Worklogs.remove_settled "w1" Samples.delete_ok Samples.worklogs_loaded in
  (Hook.ok (snd out) = true /\
   Spec.after_delete "p2" (Hook.data Samples.projects_loaded) (Hook.data (fst out)) /\
   Hook.loading (fst out) = Hook.loading Samples.projects_loaded /\
   Hook.error (fst out) = Hook.error Samples.projects_loaded /\
   Hook.data (fst out)
   = Some (Samples.list_body [Samples.project "p1" "ACTIVE"; Samples.project "p3" "ARCHIVED"]
             (Some (Samples.meta_of 1 10 10 1)))) /\
  (Hook.ok (snd wout) = true /\
   Spec.after_delete "w1" (Hook.data Samples.worklogs_loaded) (Hook.data (fst wout)) /\
   Hook.loading (fst wout) = Hook.loading Samples.worklogs_loaded /\
   Hook.error (fst wout) = Hook.error Samples.worklogs_loaded /\
   Hook.data (fst wout)
   = Some (Samples.list_body
             [Samples.worklog "w2" "2024-05-02" "2024-05-02T08:00:00Z"]
             (Some (Samples.meta_of 1 10 1 1)))).
Proof.
  intros out wout.
  pose (body := {| Dto.del_success := Some true;
                   Dto.del_message := Some "Project deleted" |}).
  pose (res := {| Http.status := 200;
                  Http.content_type := Some "application/json; charset=utf-8";
                  Http.json := Some body |}).
  assert (Hsuccess : forall b, Some body = Some b -> Dto.del_success b <> Some false).
  { intros b [= <-]. discriminate. }
  split.
  - destruct (remove_success_updates_list "p2" res (Some body) eq_refl eq_refl Hsuccess)
      as (Hprojects & _).
    destruct (Hprojects Samples.projects_loaded)
      as (Hok & Hafter & Hloading & Herror & _).
    split; [exact Hok|]. split; [exact Hafter|]. split; [exact Hloading|].
    split; [exact Herror|reflexivity].
  - destruct (remove_success_updates_list "w1" res (Some body) eq_refl eq_refl Hsuccess)
      as (_ & Hworklogs & _).
    destruct (Hworklogs Samples.worklogs_loaded)
      as (Hok & Hafter & Hloading & Herror & _).
    split; [exact Hok|]. split; [exact Hafter|]. split; [exact Hloading|].
    split; [exact Herror|reflexivity].
Defined.



Lemma dashboard_tolerates_worklog_failures_witness :
  let s := fst (Dashboard.load_call Samples.API_HOST Samples.cookie Hook.mount) in
  let s' := Dashboard.load_settled JSDate.getTime 0 Samples.weekAgo Samples.me_ok
              Samples.two_projects Samples.worklogs_p1_only s in
  (forall i, Samples.second_failed i = true ->
     exists e, Http.fetchWithAuth (Samples.worklogs_p1_only i) = Http.Throw e) /\
  s' = Dashboard.load_settled JSDate.getTime 0 Samples.weekAgo Samples.me_ok
         Samples.two_projects
         (Spec.without_failures Samples.second_failed Samples.worklogs_p1_only) s /\
  (exists d, Hook.data s' = Some d /\
             List.map worklog_id (Dashboard.recentWorklogs d) = ["w2"; "w1"] /\
             Dashboard.worklogsThisWeek (Dashboard.totals d) = 1%nat) /\
  Hook.loading s' = false /\
  Hook.error s' = "".
Proof.
  intros s s'.
  assert (Hfailed : forall i, Samples.second_failed i = true ->
            exists e, Http.fetchWithAuth (Samples.worklogs_p1_only i) = Http.Throw e).
  { intros [|[|i]] Hi; try discriminate Hi. eexists. reflexivity. }
  destruct (dashboard_tolerates_worklog_failures JSDate.getTime Samples.second_failed
              0%nat Samples.weekAgo Samples.me_ok Samples.two_projects
              Samples.worklogs_p1_only s _ _ eq_refl eq_refl Hfailed)
    as (Hsame & (d & Hd & Hrecent & Hweek) & Hloading & _ & Herror).
  split; [exact Hfailed|].
  split; [exact Hsame|].
  split.
  { exists d. split; [exact Hd|]. rewrite Hrecent, Hweek. split; reflexivity. }
  split; [exact Hloading|].
  exact (Herror Samples.API_HOST Samples.cookie Hook.mount _ eq_refl).
Defined.

Lemma dashboard_recent_worklogs_witness :
  let projResp := Http.json match Samples.two_projects with
                            | Http.Fulfilled res => res
                            | Http.Rejected _ => Samples.server_error
                            end in
  Spec.valid_dates JSDate.getTime
    (Spec.aggregated (Spec.first_page projResp) Samples.worklogs_p1_only) /\
  exists d,
    Hook.data (Dashboard.load_settled_at JSDate.getTime Samples.LocalTZA 0 Samples.now
                 Samples.me_ok Samples.two_projects Samples.worklogs_p1_only
                 Hook.mount) = Some d /\
    (length (Dashboard.recentWorklogs d) <= 5)%nat /\
    Spec.newest_first JSDate.getTime (Dashboard.recentWorklogs d) /\
    (forall w, In w (Dashboard.recentWorklogs d) -> projectId w = Some "p1") /\
    Dashboard.worklogsThisWeek (Dashboard.totals d) = 1%nat /\
    JSDate.week_before Samples.LocalTZA Samples.now = Samples.weekAgo /\
    List.map Http.url
      (Dashboard.load_requests Samples.API_HOST Samples.cookie Samples.me_ok
         Samples.two_projects Hook.mount)
    = ["https://api.devlog.test/auth/me"; "https://api.devlog.test/projects?limit=5";
       "https://api.devlog.test/projects/p1/worklogs?limit=5";
       "https://api.devlog.test/projects/p2/worklogs?limit=5"].
Proof.
  intros projResp.
  assert (Hvalid : Spec.valid_dates JSDate.getTime
                     (Spec.aggregated (Spec.first_page projResp) Samples.worklogs_p1_only)).
  { intros w Hw. vm_compute in Hw. destruct Hw as [<-|[<-|[]]]; discriminate. }
  split; [exact Hvalid|].
  destruct (dashboard_recent_worklogs JSDate.getTime Samples.LocalTZA 0%nat Samples.now
              Samples.me_ok
              Samples.two_projects Samples.worklogs_p1_only Hook.mount _ projResp
              eq_refl eq_refl)
    as (d & Hd & Hlen & Horigin & Hsorted & Hweek & _ & _ & Hsame & _).
  exists d. split; [exact Hd|]. split; [exact Hlen|].
  split; [exact (Hsorted Hvalid)|].
  split.
  - intros w Hw. destruct (Horigin w Hw) as (i & p & r & it & Hp & Hf & _ & _ & Hpid).
    rewrite Hpid. destruct i as [|[|i]]; simpl in Hp.
    + now injection Hp as <-.
    + discriminate Hf.
    + discriminate Hp.
  - split; [rewrite Hweek; reflexivity|]. split; [|reflexivity].
    rewrite (Hsame eq_refl). reflexivity.
Defined.


(** * Further properties of the sources *)

(** ** Strings and [split] *)
Section MoreStrings.
Import JS Http Auth.

Lemma string_app_assoc (a b c : string) : (a ++ b) ++ c = a ++ b ++ c.
Proof.
  induction a as [|x a IH]; [reflexivity|].
  change (String x ((a ++ b) ++ c) = String x (a ++ b ++ c)). now rewrite IH.
Qed.

Lemma string_app_cons (x : ascii) (a b : string) : String x a ++ b = String x (a ++ b).
Proof. reflexivity. Qed.

Lemma string_app_nil_l (a : string) : "" ++ a = a.
Proof. reflexivity. Qed.

Lemma startsWith_app (p r : string) : startsWith (p ++ r) p = true.
Proof.
  induction p as [|a p IH]; [reflexivity|].
  rewrite string_app_cons. cbn [startsWith]. now rewrite Ascii.eqb_refl, IH.
Qed.

Lemma no_char_cons (c a : ascii) (s : string) :
  no_char c (String a s) = negb (Ascii.eqb c a) && no_char c s.
Proof. unfold no_char. simpl. now rewrite negb_orb. Qed.

Lemma no_char_app (c : ascii) (a b : string) :
  no_char c (a ++ b) = no_char c a && no_char c b.
Proof.
  induction a as [|x a IH]; [reflexivity|].
  rewrite string_app_cons, !no_char_cons, IH. now rewrite andb_assoc.
Qed.

Lemma no_char_encoded (v : string) : no_char ";" (encodeURIComponent v) = true.
Proof.
  induction v as [|c v IH]; [reflexivity|].
  simpl encodeURIComponent. rewrite no_char_app, IH, andb_true_r.
  destruct c as [[] [] [] [] [] [] [] []]; reflexivity.
Qed.

(** Characters other than the separator's first one are collected. *)
Lemma split_go_plain (sep p r cur : string) :
  no_char ";" p = true ->
  split_go (String ";" sep) (p ++ r) O cur = split_go (String ";" sep) r O (cur ++ p).
Proof.
  revert cur. induction p as [|a p IH]; intros cur Hp.
  - now rewrite append_empty.
  - rewrite no_char_cons in Hp. apply andb_true_iff in Hp as [Ha Hp].
    rewrite string_app_cons. cbn [split_go startsWith].
    rewrite Ascii.eqb_sym. apply negb_true_iff in Ha. rewrite Ha. cbn [andb].
    now rewrite (IH _ Hp), append_snoc.
Qed.

Lemma split_go_skip (sep p r cur : string) :
  split_go sep (p ++ r) (String.length p) cur = split_go sep r O cur.
Proof. induction p as [|a p IH]; [reflexivity|]. exact IH. Qed.

Lemma startsWith_name (n name x : string) :
  no_char "=" n = true -> no_char "=" name = true ->
  startsWith (n ++ String "=" x) (name ++ "=") = true -> n = name.
Proof.
  revert name. induction n as [|a n IH]; intros [|b name] Hn Hname Hs.
  - reflexivity.
  - rewrite no_char_cons in Hname. apply andb_true_iff in Hname as [Hb _].
    rewrite !string_app_cons in Hs. cbn [startsWith] in Hs.
    apply andb_true_iff in Hs as [Hs _]. now rewrite Hs in Hb.
  - rewrite no_char_cons in Hn. apply andb_true_iff in Hn as [Ha _].
    rewrite !string_app_cons in Hs. cbn [startsWith] in Hs.
    apply andb_true_iff in Hs as [Hs _].
    rewrite Ascii.eqb_sym in Hs. now rewrite Hs in Ha.
  - rewrite no_char_cons in Hn, Hname.
    apply andb_true_iff in Hn as [_ Hn]. apply andb_true_iff in Hname as [_ Hname].
    rewrite !string_app_cons in Hs. cbn [startsWith] in Hs.
    apply andb_true_iff in Hs as [Hab Hs].
    apply Ascii.eqb_eq in Hab. subst b. f_equal. now apply IH.
Qed.

End MoreStrings.

(** ** The session cookies: [setCookie] and [getCookie] *)
Section Cookies.
Import JS Http Auth.

Lemma cookie_separator (name : string) :
  "; " ++ name ++ "=" = String ";" (String " " (name ++ "=")).
Proof. reflexivity. Qed.

Lemma listed_cons (n v : string) (jar : Jar) :
  listed ((n, v) :: jar) = String ";" (String " " (n ++ String "=" (v ++ listed jar))).
Proof. reflexivity. Qed.

(** A cookie of another name is passed over. *)
Lemma split_go_other (name n v r cur : string) :
  n <> name ->
  no_char "=" name = true ->
  plain_cookie (n, v) = true ->
  split_go ("; " ++ name ++ "=") (String ";" (String " " (n ++ String "=" (v ++ r)))) O cur
  = split_go ("; " ++ name ++ "=") r O (cur ++ "; " ++ n ++ "=" ++ v).
Proof.
  intros Hne Hname Hp. unfold plain_cookie in Hp. cbn [fst snd] in Hp.
  apply andb_true_iff in Hp as [Hp Hv]. apply andb_true_iff in Hp as [Hn1 Hn2].
  rewrite cookie_separator. cbn [split_go startsWith].
  destruct (startsWith (n ++ String "=" (v ++ r)) (name ++ "=")) eqn:Hs.
  { apply startsWith_name in Hs; [contradiction|assumption|assumption]. }
  cbn [Ascii.eqb Bool.eqb andb].
  replace (n ++ String "=" (v ++ r)) with ((n ++ String "=" v) ++ r)
    by now rewrite string_app_assoc.
  rewrite (split_go_plain _ (n ++ String "=" v) r).
  - f_equal. now rewrite !append_snoc.
  - now rewrite no_char_app, no_char_cons, Hn1, Hv.
Qed.

(** The cookie of the name sought ends the piece and starts the next. *)
Lemma split_go_match (name rest cur : string) :
  split_go ("; " ++ name ++ "=") (String ";" (String " " (name ++ String "=" rest))) O cur
  = cur :: split_go ("; " ++ name ++ "=") rest O "".
Proof.
  rewrite cookie_separator. cbn [split_go startsWith].
  replace (name ++ String "=" rest) with ((name ++ "=") ++ rest)
    by now rewrite string_app_assoc.
  rewrite startsWith_app. cbn [Ascii.eqb Bool.eqb andb]. f_equal.
  change (String " " ((name ++ "=") ++ rest)) with (String " " (name ++ "=") ++ rest).
  apply split_go_skip.
Qed.

Lemma split_listed_missing (name : string) (jar : Jar) :
  forall cur : string,
    no_char "=" name = true ->
    forallb plain_cookie jar = true ->
    jar_get name jar = None ->
    split_go ("; " ++ name ++ "=") (listed jar) O cur = [cur ++ listed jar].
Proof.
  induction jar as [|[n v] jar IH]; intros cur Hname Hp Hg.
  - simpl. now rewrite append_empty.
  - cbn [forallb] in Hp. apply andb_true_iff in Hp as [Hnv Hp].
    cbn [jar_get] in Hg. destruct (String.eqb_spec n name) as [|Hne]; [discriminate|].
    rewrite listed_cons, (split_go_other name n v _ cur Hne Hname Hnv).
    rewrite (IH _ Hname Hp Hg). f_equal.
    now rewrite !string_app_assoc.
Qed.

Lemma jar_get_not_in (name : string) (jar : Jar) :
  ~ In name (List.map fst jar) -> jar_get name jar = None.
Proof.
  induction jar as [|[n v] jar IH]; [reflexivity|]. cbn [List.map fst In jar_get].
  intros Hn. destruct (String.eqb_spec n name) as [->|_]; [tauto|]. apply IH. tauto.
Qed.

Lemma split_listed_stored (name V : string) (jar : Jar) :
  forall cur : string,
    no_char "=" name = true ->
    well_formed jar ->
    jar_get name jar = Some V ->
    exists pre rest,
      split_go ("; " ++ name ++ "=") (listed jar) O cur = [cur ++ pre; V ++ listed rest].
Proof.
  induction jar as [|[n v] jar IH]; intros cur Hname [Hnd Hp] Hg; [discriminate|].
  cbn [forallb] in Hp. apply andb_true_iff in Hp as [Hnv Hp].
  cbn [List.map fst] in Hnd. apply NoDup_cons in Hnd as [Hnot Hnd].
  cbn [jar_get] in Hg. destruct (String.eqb_spec n name) as [->|Hne].
  - injection Hg as <-. exists "", jar.
    rewrite listed_cons, split_go_match. rewrite append_empty. f_equal.
    unfold plain_cookie in Hnv. cbn [fst snd] in Hnv.
    apply andb_true_iff in Hnv as [_ Hv].
    rewrite cookie_separator, (split_go_plain _ v _ "" Hv), <- cookie_separator.
    rewrite (split_listed_missing name jar _ Hname Hp); [reflexivity|].
    apply jar_get_not_in. intros Hin. apply Hnot. now apply list_elem_of_In.
  - destruct (IH (cur ++ "; " ++ n ++ "=" ++ v) Hname (conj Hnd Hp) Hg)
      as (pre & rest & Heq).
    exists ("; " ++ n ++ "=" ++ v ++ pre), rest.
    rewrite listed_cons, (split_go_other name n v _ cur Hne Hname Hnv), Heq.
    f_equal. now rewrite !string_app_assoc.
Qed.

(** The value runs up to the next [;]. *)
Lemma head_split_value (V : string) (rest : Jar) :
  no_char ";" V = true -> head (split (V ++ listed rest) ";") = Some V.
Proof.
  intros HV. unfold split. rewrite (split_go_plain "" V _ "" HV).
  destruct rest as [|[n v] rest]; reflexivity.
Qed.

Lemma listed_document_cookie (jar : Jar) :
  jar <> [] -> "; " ++ document_cookie jar = listed jar.
Proof.
  induction jar as [|[n v] jar IH]; [congruence|]. intros _.
  destruct jar as [|nv jar].
  - unfold document_cookie. simpl. now rewrite append_empty.
  - specialize (IH ltac:(discriminate)).
    change (listed ((n, v) :: nv :: jar))
      with ("; " ++ n ++ "=" ++ v ++ listed (nv :: jar)).
    rewrite <- IH. unfold document_cookie. cbn [List.map String.concat fst snd].
    now rewrite !string_app_assoc.
Qed.

Lemma jar_get_plain (name V : string) (jar : Jar) :
  forallb plain_cookie jar = true -> jar_get name jar = Some V -> no_char ";" V = true.
Proof.
  induction jar as [|[n v] jar IH]; [discriminate|]. cbn [forallb jar_get].
  intros Hp Hg. apply andb_true_iff in Hp as [Hnv Hp].
  destruct (String.eqb n name); [|now apply IH].
  injection Hg as <-. unfold plain_cookie in Hnv.
  now apply andb_true_iff in Hnv as [_ Hv].
Qed.

(** What [getCookie] returns for a cookie the store holds with a value
    that is not empty ... *)
Lemma getCookie_stored (name V : string) (jar : Jar) :
  no_char "=" name = true ->
  well_formed jar ->
  jar_get name jar = Some V -> V <> "" ->
  getCookie (Some (document_cookie jar)) name
  = match decodeURIComponent V with
    | Normal t => Normal (Some t)
    | Throw e => Throw e
    end.
Proof.
  intros Hname Hwf Hg HV. unfold getCookie.
  assert (Hne : jar <> []) by (intros ->; discriminate).
  rewrite (listed_document_cookie jar Hne). unfold split at 1.
  destruct (split_listed_stored name V jar "" Hname Hwf Hg) as (pre & rest & ->).
  assert (Hv : String.eqb (V ++ listed rest) "" = false).
  { apply String.eqb_neq. destruct V; [congruence|discriminate]. }
  rewrite Hv, (head_split_value V rest (jar_get_plain name V jar (proj2 Hwf) Hg)).
  now rewrite or_else_some_self.
Qed.

(** ... and for a name it does not hold. *)
Lemma getCookie_missing (name : string) (jar : Jar) :
  no_char "=" name = true ->
  well_formed jar ->
  jar_get name jar = None ->
  getCookie (Some (document_cookie jar)) name = Normal None.
Proof.
  intros Hname [_ Hp] Hg. unfold getCookie, split.
  destruct jar as [|nv jar].
  - destruct name; reflexivity.
  - rewrite (listed_document_cookie (nv :: jar)) by discriminate.
    now rewrite (split_listed_missing name _ "" Hname Hp Hg).
Qed.

End Cookies.

(** ** [setCookie] and [useLogin] *)
Section Login.
Import JS Http Auth Hook.Mutation.

Lemma before_app (c : ascii) (p r : string) :
  no_char c p = true -> before c (p ++ String c r) = p.
Proof.
  induction p as [|a p IH]; intros Hp.
  - rewrite string_app_nil_l. cbn. now rewrite Ascii.eqb_refl.
  - rewrite no_char_cons in Hp. apply andb_true_iff in Hp as [Ha Hp].
    rewrite string_app_cons. cbn [before].
    rewrite Ascii.eqb_sym. apply negb_true_iff in Ha. rewrite Ha.
    now rewrite (IH Hp).
Qed.

Lemma after_app (c : ascii) (p r : string) :
  no_char c p = true -> after c (p ++ String c r) = r.
Proof.
  induction p as [|a p IH]; intros Hp.
  - rewrite string_app_nil_l. cbn. now rewrite Ascii.eqb_refl.
  - rewrite no_char_cons in Hp. apply andb_true_iff in Hp as [Ha Hp].
    rewrite string_app_cons. cbn [after].
    rewrite Ascii.eqb_sym. apply negb_true_iff in Ha. rewrite Ha.
    now apply IH.
Qed.

Lemma before_none (c : ascii) (p : string) : no_char c p = true -> before c p = p.
Proof.
  induction p as [|a p IH]; intros Hp; [reflexivity|].
  rewrite no_char_cons in Hp. apply andb_true_iff in Hp as [Ha Hp].
  cbn [before]. rewrite Ascii.eqb_sym. apply negb_true_iff in Ha. rewrite Ha.
  now rewrite (IH Hp).
Qed.

Lemma cookie_text_pair toUTCString now isHttps (name : string)
    (value : option string) (days : Z) :
  no_char ";" name = true ->
  before ";" (cookie_text toUTCString now isHttps name value days)
  = name ++ String "=" (encodeURIComponent (or_else value "")).
Proof.
  intros Hs. unfold cookie_text. cbv zeta.
  set (E := encodeURIComponent (or_else value "")).
  set (utc := toUTCString (now + days * 24 * 60 * 60 * 1000)).
  set (tail := "; path=/; samesite=lax" ++ (if isHttps then "; secure" else "")).
  replace (name ++ "=" ++ E ++ ("; expires=" ++ utc) ++ tail)
    with ((name ++ String "=" E) ++ String ";" ((" expires=" ++ utc) ++ tail))
    by (rewrite string_app_assoc; reflexivity).
  apply before_app.
  rewrite no_char_app, no_char_cons, Hs. subst E. now rewrite no_char_encoded.
Qed.

Lemma not_expired (now days : Z) :
  0 < days -> (now + days * 24 * 60 * 60 * 1000 <=? now) = false.
Proof. intros Hd. apply Z.leb_gt. lia. Qed.

(** What [setCookie] does to the store. *)
Lemma setCookie_jar toUTCString now isHttps (name : string)
    (value : option string) (days : Z) (jar : Jar) :
  no_char ";" name = true -> no_char "=" name = true ->
  setCookie toUTCString now isHttps name value days (Some jar)
  = Some (if now + days * 24 * 60 * 60 * 1000 <=? now then remove name jar
          else put name (encodeURIComponent (or_else value "")) jar).
Proof.
  intros Hs He. cbn [setCookie]. cbv zeta. unfold assign. cbv zeta.
  rewrite (cookie_text_pair _ _ _ _ _ _ Hs).
  now rewrite (before_app "=" name _ He), (after_app "=" name _ He).
Qed.

Lemma put_get_same (n v : string) (jar : Jar) : jar_get n (put n v jar) = Some v.
Proof.
  induction jar as [|[n' v'] jar IH]; cbn [put jar_get].
  - now rewrite String.eqb_refl.
  - destruct (String.eqb_spec n' n) as [->|Hne]; cbn [jar_get].
    + now rewrite String.eqb_refl.
    + apply String.eqb_neq in Hne. now rewrite Hne.
Qed.

Lemma put_get_other (n n' v : string) (jar : Jar) :
  n' <> n -> jar_get n' (put n v jar) = jar_get n' jar.
Proof.
  intros Hne. induction jar as [|[m w] jar IH]; cbn [put jar_get].
  - assert (H : String.eqb n n' = false) by (apply String.eqb_neq; congruence).
    now rewrite H.
  - destruct (String.eqb_spec m n) as [->|Hmn]; cbn [jar_get].
    + assert (H : String.eqb n n' = false) by (apply String.eqb_neq; congruence).
      now rewrite H.
    + now rewrite IH.
Qed.

Lemma put_names (n v x : string) (jar : Jar) :
  In x (List.map fst (put n v jar)) <-> x = n \/ In x (List.map fst jar).
Proof.
  induction jar as [|[m w] jar IH]; cbn [put List.map fst In].
  - intuition auto.
  - destruct (String.eqb_spec m n) as [->|Hmn]; cbn [List.map fst In].
    + intuition auto.
    + rewrite IH. intuition auto.
Qed.

Lemma put_well_formed (n v : string) (jar : Jar) :
  plain_cookie (n, v) = true -> well_formed jar -> well_formed (put n v jar).
Proof.
  intros Hnv [Hnd Hp]. split.
  - induction jar as [|[m w] jar IH]; cbn [put List.map fst].
    + apply NoDup_singleton.
    + cbn [List.map fst] in Hnd. apply NoDup_cons in Hnd as [Hnot Hnd].
      cbn [forallb] in Hp. apply andb_true_iff in Hp as [_ Hp].
      destruct (String.eqb_spec m n) as [->|Hmn]; cbn [List.map fst].
      * now apply NoDup_cons.
      * apply NoDup_cons. split; [|now apply IH].
        intros Hin. apply list_elem_of_In, put_names in Hin as [->|Hin];
          [congruence|]. apply Hnot. now apply list_elem_of_In.
  - clear Hnd. induction jar as [|[m w] jar IH]; cbn [put forallb].
    + now rewrite Hnv.
    + cbn [forallb] in Hp. apply andb_true_iff in Hp as [Hmw Hp].
      destruct (String.eqb_spec m n) as [->|Hmn]; cbn [forallb].
      * now rewrite Hnv, Hp.
      * now rewrite Hmw, (IH Hp).
Qed.

Lemma remove_get_other (n n' : string) (jar : Jar) :
  n' <> n -> jar_get n' (remove n jar) = jar_get n' jar.
Proof.
  intros Hne. induction jar as [|[m w] jar IH]; [reflexivity|].
  cbn [remove List.filter fst jar_get].
  destruct (String.eqb_spec m n) as [->|Hmn]; cbn [negb jar_get].
  - assert (H : String.eqb n n' = false) by (apply String.eqb_neq; congruence).
    rewrite H. exact IH.
  - fold (remove n jar). now rewrite IH.
Qed.

Lemma remove_well_formed (n : string) (jar : Jar) :
  well_formed jar -> well_formed (remove n jar).
Proof.
  intros [Hnd Hp]. split.
  - induction jar as [|[m w] jar IH]; [exact Hnd|].
    cbn [List.map fst] in Hnd. apply NoDup_cons in Hnd as [Hnot Hnd].
    cbn [forallb] in Hp. apply andb_true_iff in Hp as [_ Hp].
    cbn [remove List.filter fst]. fold (remove n jar).
    destruct (negb (String.eqb m n)); [|now apply IH].
    cbn [List.map fst]. apply NoDup_cons. split; [|now apply IH].
    intros Hin. apply Hnot. apply list_elem_of_In in Hin. apply list_elem_of_In.
    apply in_map_iff in Hin as (nv & Hfst & Hin). apply in_map_iff.
    exists nv. split; [exact Hfst|]. unfold remove in Hin.
    now apply filter_In in Hin as [Hin _].
  - clear Hnd. induction jar as [|[m w] jar IH]; [reflexivity|].
    cbn [forallb] in Hp. apply andb_true_iff in Hp as [Hmw Hp].
    cbn [remove List.filter fst]. fold (remove n jar).
    destruct (negb (String.eqb m n)); [|now apply IH].
    cbn [forallb]. now rewrite Hmw, (IH Hp).
Qed.

Lemma plain_encoded (name : string) (value : option string) :
  no_char ";" name = true -> no_char "=" name = true ->
  plain_cookie (name, encodeURIComponent (or_else value "")) = true.
Proof.
  intros Hs He. unfold plain_cookie. cbn [fst snd].
  now rewrite Hs, He, no_char_encoded.
Qed.

Lemma encoded_empty (v : string) : encodeURIComponent v = "" -> v = "".
Proof.
  destruct v as [|c v]; [reflexivity|]. simpl.
  destruct (uri_unreserved c); discriminate.
Qed.

End Login.

Section LoginTheorems.
Import JS Http Auth Hook.Mutation.


(** A cookie written by [setCookie] with an expiry ahead is read back by
    [getCookie]: the value comes back as it was given, whatever bytes it
    holds and whatever other cookies the store has. *)
Theorem setCookie_getCookie_round_trip (toUTCString : Z -> string) (now : Z)
    (isHttps : bool) (name value : string) (days : Z) (jar : Jar) :
  0 < days ->
  well_formed jar ->
  no_char ";" name = true -> no_char "=" name = true ->
  value <> "" ->
  getCookie
    (cookie_string
       (setCookie toUTCString now isHttps name (Some value) days (Some jar)))
    name
  = Normal (Some value).
Proof.
  intros Hd Hwf Hs He Hv.
  rewrite setCookie_jar, not_expired by assumption. cbn [cookie_string].
  rewrite (getCookie_stored name (encodeURIComponent (or_else (Some value) ""))).
  - now rewrite or_else_some_self, decode_encode.
  - exact He.
  - apply put_well_formed; [|exact Hwf].
    exact (plain_encoded name (Some value) Hs He).
  - apply put_get_same.
  - rewrite or_else_some_self. intros H. now apply encoded_empty in H.
Qed.

Lemma setCookie_getCookie_round_trip_witness :
  getCookie
    (cookie_string
       (setCookie Samples.toUTCString 0 false
          "access_token" (Some "a b;c=d") 7 (Some Samples.jar)))
    "access_token"
  = Normal (Some "a b;c=d").
Proof.
  apply setCookie_getCookie_round_trip.
  - lia.
  - split; [apply NoDup_singleton|reflexivity].
  - reflexivity.
  - reflexivity.
  - discriminate.
Defined.

(** Writing one cookie does not change what [getCookie] returns for
    another name, as long as that other cookie is not stored with an empty
    value. *)
Theorem setCookie_keeps_other_cookies (toUTCString : Z -> string) (now : Z)
    (isHttps : bool) (name other : string) (value : option string) (days : Z)
    (jar : Jar) :
  well_formed jar ->
  no_char ";" name = true -> no_char "=" name = true ->
  no_char "=" other = true ->
  other <> name ->
  jar_get other jar <> Some "" ->
  getCookie
    (cookie_string (setCookie toUTCString now isHttps name value days (Some jar)))
    other
  = getCookie (Some (document_cookie jar)) other.
Proof.
  intros Hwf Hs He Ho Hne Hempty.
  rewrite setCookie_jar by assumption. cbn [cookie_string].
  set (jar' := if _ <=? _ then _ else _).
  assert (Hwf' : well_formed jar').
  { subst jar'. destruct (_ <=? _); [now apply remove_well_formed|].
    exact (put_well_formed name _ jar (plain_encoded name value Hs He) Hwf). }
  assert (Hget : jar_get other jar' = jar_get other jar).
  { subst jar'. destruct (_ <=? _); [now apply remove_get_other|].
    now apply put_get_other. }
  clearbody jar'.
  destruct (jar_get other jar) as [V|] eqn:Hg.
  - assert (HV : V <> "") by congruence.
    rewrite (getCookie_stored other V _ Ho Hwf' Hget HV).
    now rewrite (getCookie_stored other V _ Ho Hwf Hg HV).
  - rewrite (getCookie_missing other _ Ho Hwf' Hget).
    now rewrite (getCookie_missing other _ Ho Hwf Hg).
Qed.

Lemma setCookie_keeps_other_cookies_witness :
  getCookie
    (cookie_string
       (setCookie Samples.toUTCString 0 true
          "role" (Some "ADMIN") 7 (Some [("access_token", "t%20k"); ("role", "USER")])))
    "access_token"
  = getCookie (Some (document_cookie [("access_token", "t%20k"); ("role", "USER")]))
      "access_token".
Proof.
  apply setCookie_keeps_other_cookies.
  - split; [|reflexivity].
    apply NoDup_cons. split; [|apply NoDup_singleton].
    intros H. apply list_elem_of_In in H. destruct H as [H|[]]. discriminate H.
  - reflexivity.
  - reflexivity.
  - reflexivity.
  - discriminate.
  - discriminate.
Defined.

(** A name the store does not hold reads as [null]; without an
    [access_token] cookie [load] therefore sends nothing and reports the
    invalid session, with [loading] false and no data. *)
Theorem getCookie_of_missing_name (name : string) (jar : Jar) :
  well_formed jar ->
  no_char "=" name = true ->
  jar_get name jar = None ->
  getCookie (Some (document_cookie jar)) name = Normal None /\
  (name = COOKIE.ACCESS_TOKEN ->
   forall API_HOST query (s : Projects.State),
     snd (Projects.load_call API_HOST (Some (document_cookie jar)) query s)
     = Hook.NotSent /\
     Hook.observable (fst (Projects.load_call API_HOST (Some (document_cookie jar)) query s))
     = (false, Hook.SESSION_INVALID, None)).
Proof.
  intros Hwf He Hg.
  pose proof (getCookie_missing name jar He Hwf Hg) as Hread.
  split; [exact Hread|].
  intros -> API_HOST query s. unfold Projects.load_call. rewrite Hread.
  cbn [falsy]. rewrite orb_true_r. now split.
Qed.

Lemma getCookie_of_missing_name_witness :
  getCookie (Some (document_cookie [("xaccess_token", "1"); ("role", "USER")]))
    "access_token"
  = Normal None /\
  ("access_token" = COOKIE.ACCESS_TOKEN ->
   forall API_HOST query (s : Projects.State),
     snd (Projects.load_call API_HOST
            (Some (document_cookie [("xaccess_token", "1"); ("role", "USER")])) query s)
     = Hook.NotSent /\
     Hook.observable
       (fst (Projects.load_call API_HOST
               (Some (document_cookie [("xaccess_token", "1"); ("role", "USER")]))
               query s))
     = (false, Hook.SESSION_INVALID, None)).
Proof.
  apply getCookie_of_missing_name.
  - split; [|reflexivity].
    apply NoDup_cons. split; [|apply NoDup_singleton].
    intros H. apply list_elem_of_In in H. destruct H as [H|[]]. discriminate H.
  - reflexivity.
  - reflexivity.
Defined.

End LoginTheorems.

Section LoginSession.
Import JS Http Auth Hook.Mutation.

Lemma three_cookies_token (jar : Jar) (t : string) (r ro : option string) :
  well_formed jar ->
  let jar' :=
    put COOKIE.ROLE (encodeURIComponent (or_else ro ""))
      (put COOKIE.REFRESH_TOKEN (encodeURIComponent (or_else r ""))
         (put COOKIE.ACCESS_TOKEN (encodeURIComponent t) jar)) in
  well_formed jar' /\
  jar_get COOKIE.ACCESS_TOKEN jar' = Some (encodeURIComponent t).
Proof.
  intros Hwf. cbv zeta. split.
  - apply put_well_formed; [now apply plain_encoded|].
    apply put_well_formed; [now apply plain_encoded|].
    apply put_well_formed; [|exact Hwf].
    unfold plain_cookie. cbn [fst snd]. now rewrite no_char_encoded.
  - rewrite put_get_other by discriminate.
    rewrite put_get_other by discriminate.
    apply put_get_same.
Qed.

(** After a login the server answered with a token, the list hook sends
    its request with that token: [login] stores it with [setCookie],
    [load] reads it with [getCookie]. *)
Theorem login_then_load_authorized (toUTCString : Z -> string) (now : Z)
    (isHttps : bool) (API_HOST : option string) (res : Response LoginBody)
    (data : LoginBody) (t : string) (jar : Jar) (s : State)
    (query : Projects.ProjectsQuery) (st : Projects.State) :
  well_formed jar ->
  falsy API_HOST = false ->
  Http.ok res = true ->
  read_body res = Normal (Some data) ->
  access_token data = Some t -> t <> "" ->
  let '(s', document, result) :=
    login_settled toUTCString now isHttps (Fulfilled res) (Some jar) s in
  result = Ok (Some data) /\
  isLoading s' = false /\ error s' = error s /\
  getCookie (cookie_string document) COOKIE.ACCESS_TOKEN = Normal (Some t) /\
  exists c,
    snd (Projects.load_call API_HOST (cookie_string document) query st)
    = Hook.Sent c
        [fetchWithAuth_request
           (Projects.load_url (Projects.endpoint API_HOST) query) t c].
Proof.
  intros Hwf Hhost Hok Hbody Htoken Ht.
  unfold login_settled. rewrite Hbody, Hok. cbn [negb].
  rewrite !setCookie_jar by reflexivity. rewrite !not_expired by reflexivity.
  rewrite Htoken, or_else_some_self.
  destruct (three_cookies_token jar t (refresh_token data) (role data) Hwf)
    as [Hwf' Hget].
  assert (HE : encodeURIComponent t <> "")
    by (intros H; now apply encoded_empty in H).
  assert (Hread :
    getCookie (Some (document_cookie
      (put COOKIE.ROLE (encodeURIComponent (or_else (role data) ""))
         (put COOKIE.REFRESH_TOKEN (encodeURIComponent (or_else (refresh_token data) ""))
            (put COOKIE.ACCESS_TOKEN (encodeURIComponent t) jar)))))
      COOKIE.ACCESS_TOKEN = Normal (Some t)).
  { rewrite (getCookie_stored COOKIE.ACCESS_TOKEN _ _ eq_refl Hwf' Hget HE).
    now rewrite decode_encode. }
  split; [reflexivity|]. split; [reflexivity|]. split; [reflexivity|].
  cbn [cookie_string]. split; [exact Hread|].
  unfold Projects.load_call. rewrite Hread, Hhost.
  replace (falsy (Some t)) with false
    by (symmetry; cbn [falsy]; now apply String.eqb_neq).
  cbn [orb snd]. rewrite or_else_some_self. eexists. reflexivity.
Qed.

Lemma login_then_load_authorized_witness :
  let res :=
    {| status := 200; content_type := Some "application/json";
       json := Some {| lg_message := Some "ok"; access_token := Some "tok/1";
                       refresh_token := Some "ref"; role := Some "USER" |} |} in
  let '(s', document, result) :=
    login_settled Samples.toUTCString 0 false
      (Fulfilled res) (Some Samples.jar) mount in
  result = Ok (json res) /\
  isLoading s' = false /\ error s' = error mount /\
  getCookie (cookie_string document) COOKIE.ACCESS_TOKEN = Normal (Some "tok/1") /\
  exists c,
    snd (Projects.load_call (Some "https://api") (cookie_string document)
           Projects.initial Hook.mount)
    = Hook.Sent c
        [fetchWithAuth_request
           (Projects.load_url (Projects.endpoint (Some "https://api")) Projects.initial)
           "tok/1" c].
Proof.
  cbv zeta.
  apply (login_then_load_authorized Samples.toUTCString 0 false
           (Some "https://api")
           {| status := 200; content_type := Some "application/json";
              json := Some {| lg_message := Some "ok"; access_token := Some "tok/1";
                              refresh_token := Some "ref"; role := Some "USER" |} |}
           {| lg_message := Some "ok"; access_token := Some "tok/1";
              refresh_token := Some "ref"; role := Some "USER" |}
           "tok/1" Samples.jar mount Projects.initial Hook.mount).
  - split; [apply NoDup_singleton|reflexivity].
  - reflexivity.
  - reflexivity.
  - reflexivity.
  - reflexivity.
  - discriminate.
Defined.



End LoginSession.

(** ** The detail hooks after their requests settle *)
Section DetailLoads.
Import JS Http Detail.

Lemma not_ok_404 {B} (res : Response B) : status res = 404 -> Http.ok res = false.
Proof. unfold Http.ok. intros ->. reflexivity. Qed.

Lemma detail_is_current {D} (c : nat) (s : State D) :
  abortRef s = Some c -> is_current c s = true.
Proof. intros H. unfold is_current. now apply bool_decide_eq_true_2. Qed.

Lemma detail_not_current {D} (c : nat) (s : State D) :
  abortRef s <> Some c -> is_current c s = false.
Proof. intros H. unfold is_current. now apply bool_decide_eq_false_2. Qed.

Lemma detail_stale_finally {D} (c : nat) (s : State D) :
  abortRef s <> Some c -> load_finally c s = s.
Proof. intros H. unfold load_finally. now rewrite detail_not_current. Qed.

Lemma detail_stale_catch {D} (failed : string) (empty : D) (c : nat) (s : State D) :
  abortRef s <> Some c -> load_catch failed empty c s = s.
Proof.
  intros H. unfold load_catch. rewrite (detail_not_current c s H).
  rewrite orb_true_r. now apply detail_stale_finally.
Qed.

(** A 404 answer to the project request that is still the current one
    makes the project page show its not-found card, with the link back to
    the list; no preview is requested and no error is set. *)
Theorem project_detail_not_found (API_HOST : option string) (projectId token : string)
    (c : nat) (res : Response Project.ProjectDetailResponse)
    (body : option Project.ProjectDetailResponse)
    (s : State Project.ProjectDetailData) (canManage deleting : bool) :
  abortRef s = Some c ->
  status res = 404 ->
  read_body res = Normal body ->
  let out := Project.load_project_settled API_HOST projectId token c (Fulfilled res) s in
  snd out = Project.Finished /\
  notFound (fst out) = true /\
  data (fst out) = Project.no_data /\
  loading (fst out) = false /\
  error (fst out) = error s /\
  Pages.ProjectDetail (Pages.useProjectDetail (fst out) canManage) deleting
  = Pages.NotFoundCard
      [{| Pages.action := Pages.Back; Pages.href := "/projects";
          Pages.disabled := false |}].
Proof.
  intros Hcur Hst Hbody. cbv zeta. unfold Project.load_project_settled.
  rewrite Hbody, (not_ok_404 res Hst), Hst. cbn [negb Z.eqb Pos.eqb].
  rewrite (detail_is_current c s Hcur). unfold load_finally.
  replace (is_current c (setData Project.no_data (setNotFound true s))) with true
    by (symmetry; now apply detail_is_current).
  repeat split.
Qed.

Lemma project_detail_not_found_witness :
  let s : State Project.ProjectDetailData :=
    Samples.project_detail_loading in
  let res : Response Project.ProjectDetailResponse :=
    {| status := 404; content_type := Some "text/plain"; json := None |} in
  let out := Project.load_project_settled (Some "https://api") "p1" "tok" 0
               (Fulfilled res) s in
  snd out = Project.Finished /\
  notFound (fst out) = true /\
  data (fst out) = Project.no_data /\
  loading (fst out) = false /\
  error (fst out) = "" /\
  Pages.ProjectDetail (Pages.useProjectDetail (fst out) true) false
  = Pages.NotFoundCard
      [{| Pages.action := Pages.Back; Pages.href := "/projects";
          Pages.disabled := false |}].
Proof.
  cbv zeta.
  apply (project_detail_not_found (Some "https://api") "p1" "tok" 0
           {| status := 404; content_type := Some "text/plain"; json := None |} None
           Samples.project_detail_loading true false);
    reflexivity.
Defined.

(** However the worklogs preview ends, the load that is still current
    finishes with the project it read, without an error and with
    [loading] false; a preview that fails or is not a success answer
    leaves the list of worklogs empty. *)
Theorem project_detail_preview_tolerated (c : nat) (project : option ProjectItem)
    (net : Settled (Response WorklogsResponse))
    (s : State Project.ProjectDetailData) :
  abortRef s = Some c ->
  let s' := Project.load_preview_settled c project net s in
  Project.project (data s') = project /\
  error s' = error s /\
  notFound s' = notFound s /\
  loading s' = false /\
  ((forall res, net = Fulfilled res -> Http.ok res = false) ->
   Project.worklogs (data s') = [] /\ Project.worklogsMeta (data s') = None).
Proof.
  intros Hcur. cbv zeta. unfold Project.load_preview_settled.
  rewrite (detail_is_current c s Hcur). unfold load_finally.
  match goal with
  | |- context [is_current c (setData ?d s)] =>
      replace (is_current c (setData d s)) with true
        by (symmetry; now apply detail_is_current)
  end.
  cbn [data error notFound loading setLoading setData
       Project.project Project.worklogs Project.worklogsMeta].
  repeat split.
  - destruct net as [res|reason]; [|reflexivity].
    unfold Project.preview_body. now rewrite (H res eq_refl).
  - destruct net as [res|reason]; [|reflexivity].
    unfold Project.preview_body. now rewrite (H res eq_refl).
Qed.

Lemma project_detail_preview_tolerated_witness :
  let s : State Project.ProjectDetailData :=
    Samples.project_detail_loading in
  let s' := Project.load_preview_settled 0 (Some (Samples.project "p1" "ACTIVE"))
              (Rejected "TypeError: Failed to fetch") s in
  Project.project (data s') = Some (Samples.project "p1" "ACTIVE") /\
  error s' = "" /\
  notFound s' = false /\
  loading s' = false /\
  ((forall res : Response WorklogsResponse,
      Rejected "TypeError: Failed to fetch" = Fulfilled res -> Http.ok res = false) ->
   Project.worklogs (data s') = [] /\ Project.worklogsMeta (data s') = None).
Proof.
  cbv zeta.
  apply (project_detail_preview_tolerated 0 (Some (Samples.project "p1" "ACTIVE"))
           (Rejected "TypeError: Failed to fetch")
           Samples.project_detail_loading).
  reflexivity.
Defined.

(** A request of a detail hook that is no longer the current one changes
    nothing when it settles: neither the project request nor the preview
    request of [useProjectDetail], nor the request of [useWorklogDetail]. *)
Theorem project_detail_stale_ignored (API_HOST : option string)
    (projectId token : string) (c : nat)
    (net : Settled (Response Project.ProjectDetailResponse))
    (project : option ProjectItem) (preview : Settled (Response WorklogsResponse))
    (s : State Project.ProjectDetailData)
    (worklog_net : Settled (Response Worklog.WorklogDetailResponse))
    (w : State (option WorklogItem)) :
  (abortRef s <> Some c ->
   fst (Project.load_project_settled API_HOST projectId token c net s) = s /\
   Project.load_preview_settled c project preview s = s) /\
  (abortRef w <> Some c -> Worklog.load_settled c worklog_net w = w).
Proof.
  split.
  - intros Hst. split.
    + unfold Project.load_project_settled.
      destruct net as [res|reason]; [|now apply detail_stale_catch].
      destruct (read_body res) as [body|e]; [|now apply detail_stale_catch].
      destruct (negb (Http.ok res)); [|reflexivity].
      destruct (status res =? 404); cbn [fst]; [|now apply detail_stale_catch].
      rewrite (detail_not_current c s Hst). now apply detail_stale_finally.
    + unfold Project.load_preview_settled.
      rewrite (detail_not_current c s Hst). now apply detail_stale_finally.
  - intros Hst. unfold Worklog.load_settled.
    destruct worklog_net as [res|reason]; [|now apply detail_stale_catch].
    destruct (read_body res) as [body|e]; [|now apply detail_stale_catch].
    destruct (negb (Http.ok res)).
    + destruct (status res =? 404); [|now apply detail_stale_catch].
      rewrite (detail_not_current c w Hst). now apply detail_stale_finally.
    + rewrite (detail_not_current c w Hst). now apply detail_stale_finally.
Qed.

Lemma project_detail_stale_ignored_witness :
  let s := Samples.project_detail_reloading in
  let w : State (option WorklogItem) :=
    {| loading := true; error := ""; notFound := false; data := None;
       abortRef := Some 1%nat; aborted := {[0%nat]}; controllers := 2%nat |} in
  (fst (Project.load_project_settled (Some "https://api") "p1" "tok" 0
          (Rejected "AbortError") s) = s /\
   Project.load_preview_settled 0 None (Rejected "AbortError") s = s) /\
  Worklog.load_settled 0 (Rejected "AbortError") w = w.
Proof.
  cbv zeta.
  destruct (project_detail_stale_ignored (Some "https://api") "p1" "tok" 0
              (Rejected "AbortError") None (Rejected "AbortError")
              Samples.project_detail_reloading (Rejected "AbortError")
              {| loading := true; error := ""; notFound := false; data := None;
                 abortRef := Some 1%nat; aborted := {[0%nat]}; controllers := 2%nat |})
    as [Hp Hw].
  split; [apply Hp; discriminate|apply Hw; discriminate].
Defined.

End DetailLoads.

Section WorklogDetailLoads.
Import JS Http Detail.

(** A 404 answer to the worklog request that is still the current one
    makes the worklog page show its not-found card; the error cell is
    left alone. *)
Theorem worklog_detail_not_found (c : nat)
    (res : Response Worklog.WorklogDetailResponse)
    (body : option Worklog.WorklogDetailResponse)
    (s : State (option WorklogItem))
    (projectId worklogId : string) (project : option ProjectItem) (deleting : bool) :
  abortRef s = Some c ->
  status res = 404 ->
  read_body res = Normal body ->
  let s' := Worklog.load_settled c (Fulfilled res) s in
  notFound s' = true /\ data s' = None /\ loading s' = false /\ error s' = error s /\
  Pages.WorklogDetail projectId worklogId project (Pages.useWorklogDetail s') deleting
  = Pages.NotFoundCard
      [{| Pages.action := Pages.Back;
          Pages.href := "/projects/" ++ projectId ++ "/worklogs";
          Pages.disabled := false |}].
Proof.
  intros Hcur Hst Hbody. cbv zeta. unfold Worklog.load_settled.
  rewrite Hbody, (not_ok_404 res Hst), Hst. cbn [negb Z.eqb Pos.eqb].
  rewrite (detail_is_current c s Hcur). unfold load_finally.
  replace (is_current c (setData None (setNotFound true s))) with true
    by (symmetry; now apply detail_is_current).
  repeat split.
Qed.

Lemma worklog_detail_not_found_witness :
  let res : Response Worklog.WorklogDetailResponse :=
    {| status := 404; content_type := Some "application/json";
       json := Some {| Worklog.wdr_success := Some false;
                       Worklog.wdr_message := Some "Worklog not found";
                       Worklog.wdr_data := None |} |} in
  let s' := Worklog.load_settled 0 (Fulfilled res) Samples.worklog_detail_loading in
  notFound s' = true /\ data s' = None /\ loading s' = false /\
  error s' = error Samples.worklog_detail_loading /\
  Pages.WorklogDetail "p1" "w1" None (Pages.useWorklogDetail s') false
  = Pages.NotFoundCard
      [{| Pages.action := Pages.Back;
          Pages.href := "/projects/" ++ "p1" ++ "/worklogs";
          Pages.disabled := false |}].
Proof.
  cbv zeta.
  apply (worklog_detail_not_found 0
           {| status := 404; content_type := Some "application/json";
              json := Some {| Worklog.wdr_success := Some false;
                              Worklog.wdr_message := Some "Worklog not found";
                              Worklog.wdr_data := None |} |}
           (Some {| Worklog.wdr_success := Some false;
                    Worklog.wdr_message := Some "Worklog not found";
                    Worklog.wdr_data := None |})
           Samples.worklog_detail_loading "p1" "w1" None false);
    reflexivity.
Defined.

(** Any other failure of the current worklog request (the request is
    rejected, the body cannot be read, or the status is an error other
    than 404) ends in the fixed message, whatever the server sent, and the
    page shows it on its error card with the retry button. *)
Theorem worklog_detail_failure (c : nat)
    (net : Settled (Response Worklog.WorklogDetailResponse))
    (s : State (option WorklogItem))
    (projectId worklogId : string) (project : option ProjectItem) (deleting : bool) :
  abortRef s = Some c ->
  c ∉ aborted s ->
  (forall res, net = Fulfilled res ->
     (exists e, read_body res = Throw e) \/
     (Http.ok res = false /\ status res <> 404)) ->
  let s' := Worklog.load_settled c net s in
  error s' = "Gagal memuat worklog. Coba lagi." /\
  data s' = None /\ loading s' = false /\ notFound s' = notFound s /\
  (notFound s = false ->
   Pages.WorklogDetail projectId worklogId project (Pages.useWorklogDetail s') deleting
   = Pages.ErrorCard "Gagal memuat worklog. Coba lagi."
       [{| Pages.action := Pages.Retry; Pages.href := ""; Pages.disabled := false |}]).
Proof.
  intros Hcur Hab Hfail. cbv zeta.
  assert (Hcatch :
    load_catch "Gagal memuat worklog. Coba lagi." None c s
    = setLoading false (setData None (setError "Gagal memuat worklog. Coba lagi." s))).
  { unfold load_catch, load_finally, is_aborted.
    rewrite (detail_is_current c s Hcur), bool_decide_eq_false_2 by exact Hab.
    cbn [orb negb].
    replace (is_current c (setData None (setError "Gagal memuat worklog. Coba lagi." s)))
      with true by (symmetry; now apply detail_is_current).
    reflexivity. }
  assert (Hs :
    Worklog.load_settled c net s
    = setLoading false (setData None (setError "Gagal memuat worklog. Coba lagi." s))).
  { unfold Worklog.load_settled. destruct net as [res|reason]; [|exact Hcatch].
    destruct (Hfail res eq_refl) as [[e He]|[Hok Hst]].
    - now rewrite He.
    - destruct (read_body res) as [body|e]; [|exact Hcatch].
      rewrite Hok. cbn [negb]. apply Z.eqb_neq in Hst. now rewrite Hst. }
  rewrite Hs. repeat split.
  intros Hnf. unfold Pages.WorklogDetail, Pages.useWorklogDetail.
  cbn [Pages.wd_loading Pages.wd_notFound Pages.wd_data Pages.wd_error
       loading notFound data error setLoading setData setError].
  now rewrite Hnf.
Qed.

Lemma worklog_detail_failure_witness :
  let net : Settled (Response Worklog.WorklogDetailResponse) :=
    Fulfilled {| status := 500; content_type := Some "application/json";
                 json := Some {| Worklog.wdr_success := Some false;
                                 Worklog.wdr_message := Some "Database is down";
                                 Worklog.wdr_data := None |} |} in
  let s' := Worklog.load_settled 0 net Samples.worklog_detail_loading in
  error s' = "Gagal memuat worklog. Coba lagi." /\
  data s' = None /\ loading s' = false /\
  notFound s' = notFound Samples.worklog_detail_loading /\
  (notFound Samples.worklog_detail_loading = false ->
   Pages.WorklogDetail "p1" "w1" None (Pages.useWorklogDetail s') false
   = Pages.ErrorCard "Gagal memuat worklog. Coba lagi."
       [{| Pages.action := Pages.Retry; Pages.href := ""; Pages.disabled := false |}]).
Proof.
  cbv zeta.
  apply (worklog_detail_failure 0
           (Fulfilled {| status := 500; content_type := Some "application/json";
                         json := Some {| Worklog.wdr_success := Some false;
                                         Worklog.wdr_message := Some "Database is down";
                                         Worklog.wdr_data := None |} |})
           Samples.worklog_detail_loading "p1" "w1" None false).
  - reflexivity.
  - cbn. set_solver.
  - intros res [= <-]. right. split; [reflexivity|discriminate].
Defined.

End WorklogDetailLoads.

(** ** More on the route guard *)
Section MoreRouteGuard.
Import JS Http Middleware.

(** The login redirect keeps the destination: the value of its [d]
    parameter decodes to the path and query string that were asked for. *)
Theorem middleware_destination_round_trip (toUpperCase : string -> string) (env : option string)
    (req : NextRequest) :
  guarded (path_of req) = true ->
  falsy (access_token req) = true ->
  exists u d,
    middleware toUpperCase env req = redirect u /\
    url_input u = loginPath_of env /\
    params_get "d" (searchParams u) = Some d /\
    decodeURIComponent d = Normal (pathname (nextUrl req) ++ search (nextUrl req)).
Proof.
  intros Hg Ht. rewrite (middleware_no_token toUpperCase env req Hg Ht). unfold login_redirect.
  eexists _, _. split; [reflexivity|]. split; [reflexivity|].
  split; [reflexivity|]. apply decode_encode.
Qed.

Lemma middleware_destination_round_trip_witness :
  exists u d,
    middleware Samples.toUpperCase None (Samples.request "/projects/p 1" "?tab=logs&x=%41" ∅) = redirect u /\
    url_input u = loginPath_of None /\
    params_get "d" (searchParams u) = Some d /\
    decodeURIComponent d = Normal ("/projects/p 1" ++ "?tab=logs&x=%41").
Proof.
  apply (middleware_destination_round_trip Samples.toUpperCase None
           (Samples.request "/projects/p 1" "?tab=logs&x=%41" ∅));
    reflexivity.
Defined.

Lemma follow_simple (u : URL) (req : NextRequest) :
  simple_path (url_input u) = true ->
  exists req',
    follow u req = Some req' /\
    path_of req' = url_input u /\
    cookies req' = cookies req.
Proof.
  intros Hs. unfold follow, resolved_path. rewrite Hs.
  eexists. split; [reflexivity|]. split; reflexivity.
Qed.

Lemma follow_unguarded (toUpperCase : string -> string) (env : option string)
    (req : NextRequest) (to : string) (params : list (string * string)) :
  simple_path to = true ->
  guarded to = false ->
  exists req',
    follow {| url_input := to; url_base := origin (nextUrl req);
              searchParams := params |} req = Some req' /\
    middleware toUpperCase env req' = next.
Proof.
  intros Hs Hg.
  destruct (follow_simple {| url_input := to; url_base := origin (nextUrl req);
                             searchParams := params |} req Hs)
    as (req' & Hf & Hp & _).
  exists req'. split; [exact Hf|].
  apply middleware_unguarded. now rewrite Hp.
Qed.

(** Redirects do not chain: when the login path is a plain absolute path
    ([/] and segments of letters, digits, [-] and [_], which the URL parser
    resolves to itself on the origin of the request) and is not itself a
    guarded path, the browser can follow a redirect of the middleware, and
    the request it then sends passes. *)
Theorem middleware_redirect_settles (toUpperCase : string -> string)
    (env : option string) (req : NextRequest) (u : URL) :
  simple_path (loginPath_of env) = true ->
  guarded (loginPath_of env) = false ->
  middleware toUpperCase env req = redirect u ->
  exists req',
    follow u req = Some req' /\
    resolved_path u = Some (path_of req') /\
    middleware toUpperCase env req' = next.
Proof.
  intros Hsimple Hlogin Hm.
  assert (Hdone : forall to params,
             simple_path to = true -> guarded to = false ->
             exists req',
               follow {| url_input := to; url_base := origin (nextUrl req);
                         searchParams := params |} req = Some req' /\
               resolved_path {| url_input := to; url_base := origin (nextUrl req);
                                searchParams := params |} = Some (path_of req') /\
               middleware toUpperCase env req' = next).
  { intros to params Hs Hg.
    destruct (follow_unguarded toUpperCase env req to params Hs Hg) as (req' & Hf & Hn).
    exists req'. split; [exact Hf|]. split; [|exact Hn].
    unfold follow, resolved_path in *. cbn [url_input] in *. rewrite Hs in *.
    now injection Hf as <-. }
  assert (Hrole : forall to,
             simple_path to = true ->
             exists req',
               follow (new_URL to (origin (nextUrl req))) req = Some req' /\
               resolved_path (new_URL to (origin (nextUrl req))) = Some (path_of req') /\
               path_of req' = to /\
               access_token req' = access_token req /\
               role_of toUpperCase req' = role_of toUpperCase req).
  { intros to Hs. unfold follow, resolved_path, new_URL. cbn [url_input]. rewrite Hs.
    eexists. split; [reflexivity|]. repeat split. }
  destruct (guarded (path_of req)) eqn:Hg.
  2: { rewrite (middleware_unguarded toUpperCase env req Hg) in Hm. discriminate. }
  destruct (falsy (access_token req)) eqn:Ht.
  { rewrite (middleware_no_token toUpperCase env req Hg Ht) in Hm. injection Hm as <-.
    now apply Hdone. }
  rewrite guarded_split in Hg. apply orb_true_iff in Hg as [Hd|Ha].
  - rewrite (middleware_dashboard toUpperCase env req Hd Ht) in Hm.
    destruct (String.eqb (role_of toUpperCase req) Role.USER) eqn:Hu; [discriminate|].
    destruct (String.eqb (role_of toUpperCase req) Role.ADMIN) eqn:Hadm.
    + injection Hm as <-.
      destruct (Hrole "/admin" eq_refl) as (req' & Hf & Hr & Hp & Htok & Hro).
      exists req'. split; [exact Hf|]. split; [exact Hr|].
      rewrite middleware_admin; [|now rewrite Hp|now rewrite Htok].
      now rewrite Hro, Hadm.
    + injection Hm as <-. now apply Hdone.
  - rewrite (middleware_admin toUpperCase env req Ha Ht) in Hm.
    destruct (String.eqb (role_of toUpperCase req) Role.ADMIN) eqn:Hadm; [discriminate|].
    destruct (String.eqb (role_of toUpperCase req) Role.USER) eqn:Hu.
    + injection Hm as <-.
      destruct (Hrole "/dashboard" eq_refl) as (req' & Hf & Hr & Hp & Htok & Hro).
      exists req'. split; [exact Hf|]. split; [exact Hr|].
      rewrite middleware_dashboard; [|now rewrite Hp|now rewrite Htok].
      now rewrite Hro, Hu.
    + injection Hm as <-. now apply Hdone.
Qed.

Lemma middleware_redirect_settles_witness :
  (exists req',
     follow (new_URL "/admin" "https://devlog.test")
       (Samples.request "/projects/p1" "" (Samples.session "admin")) = Some req' /\
     resolved_path (new_URL "/admin" "https://devlog.test") = Some (path_of req') /\
     middleware Samples.toUpperCase None req' = next) /\
  (exists req',
     follow (new_URL "/auth/sign-in" "https://devlog.test")
       (Samples.request "/admin/users" "" (Samples.session "guest")) = Some req' /\
     resolved_path (new_URL "/auth/sign-in" "https://devlog.test")
     = Some (path_of req') /\
     middleware Samples.toUpperCase (Some "/auth/sign-in") req' = next).
Proof.
  split.
  - apply (middleware_redirect_settles Samples.toUpperCase None
             (Samples.request "/projects/p1" "" (Samples.session "admin"))
             (new_URL "/admin" "https://devlog.test"));
      reflexivity.
  - apply (middleware_redirect_settles Samples.toUpperCase (Some "/auth/sign-in")
             (Samples.request "/admin/users" "" (Samples.session "guest"))
             (new_URL "/auth/sign-in" "https://devlog.test"));
      reflexivity.
Defined.

Lemma startsWith_refl (s : string) : startsWith s s = true.
Proof.
  induction s as [|c s IH]; [reflexivity|]. cbn [startsWith].
  now rewrite Ascii.eqb_refl, IH.
Qed.

Lemma startsWith_app_l (s p q : string) :
  startsWith s (p ++ q) = true -> startsWith s p = true.
Proof.
  revert s. induction p as [|a p IH]; intros s H; [reflexivity|].
  rewrite string_app_cons in H. destruct s as [|b s]; [discriminate|].
  cbn [startsWith] in *. apply andb_true_iff in H as [Hab H].
  now rewrite Hab, (IH s H).
Qed.

Lemma matches_startsWith (pattern path : string) :
  matches pattern path = true -> startsWith path (literal pattern) = true.
Proof.
  unfold matches. intros H. apply orb_true_iff in H as [H|H].
  - apply String.eqb_eq in H. subst path. apply startsWith_refl.
  - now apply startsWith_app_l in H.
Qed.

(** Whatever path [config.matcher] selects falls under the prefixes the
    function guards, so that a matched request without a token is always
    sent to the login page. *)
Theorem matched_paths_are_guarded (toUpperCase : string -> string) (env : option string)
    (req : NextRequest) :
  matched (path_of req) = true ->
  guarded (path_of req) = true /\
  (falsy (access_token req) = true -> middleware toUpperCase env req = login_redirect env req).
Proof.
  intros Hm.
  assert (Hg : guarded (path_of req) = true).
  { unfold matched, matcher in Hm. cbn [existsb] in Hm.
    unfold guarded, guardedPrefixes. cbn [existsb].
    repeat (apply orb_true_iff in Hm as [Hm|Hm];
            [apply matches_startsWith in Hm;
             match type of Hm with
             | startsWith _ ?l = _ =>
                 let v := eval vm_compute in l in change l with v in Hm
             end;
             rewrite Hm; now rewrite ?orb_true_r|]).
    discriminate. }
  split; [exact Hg|]. intros Ht. now apply middleware_no_token.
Qed.

Lemma matched_paths_are_guarded_witness :
  guarded (path_of (Samples.request "/settings/profile" "" ∅)) = true /\
  (falsy (access_token (Samples.request "/settings/profile" "" ∅)) = true ->
   middleware Samples.toUpperCase None (Samples.request "/settings/profile" "" ∅)
   = login_redirect None (Samples.request "/settings/profile" "" ∅)).
Proof.
  apply (matched_paths_are_guarded Samples.toUpperCase None (Samples.request "/settings/profile" "" ∅)).
  reflexivity.
Defined.

End MoreRouteGuard.

(** ** The query of the list hooks *)
Section MoreQueryStrings.
Import JS Projects.

(** What [load] puts under each name. *)

(** What [load] of [useProjects] puts under each name. *)
Lemma projects_params_get (query : ProjectsQuery) :
  params_get "search" (load_params query)
  = match search query with
    | Some s => if negb (String.eqb s "") && (0 <? String.length (trim s))%nat
                then Some (trim s) else None
    | None => None
    end /\
  params_get "status" (load_params query)
  = match status query with
    | Some st => if negb (String.eqb (filter_text st) "ALL")
                 then Some (filter_text st) else None
    | None => None
    end /\
  params_get "page" (load_params query)
  = match page query with
    | Some p => if negb (p =? 0) && (1 <? p) then Some (string_of_Z p) else None
    | None => None
    end /\
  params_get "limit" (load_params query)
  = match limit query with
    | Some l => if negb (l =? 0) && negb (l =? 10) then Some (string_of_Z l) else None
    | None => None
    end.
Proof.
  unfold load_params.
  destruct (search query) as [s|];
    [destruct (negb (String.eqb s "") && (0 <? String.length (trim s))%nat)|];
  (destruct (status query) as [[]|]);
  (destruct (page query) as [p|]; [destruct (negb (p =? 0) && (1 <? p))|]);
  (destruct (limit query) as [l|]; [destruct (negb (l =? 0) && negb (l =? 10))|]);
  repeat split.
Qed.

Lemma trim_not_empty (s : string) :
  trim s <> "" -> negb (String.eqb s "") && (0 <? String.length (trim s))%nat = true.
Proof.
  intros Ht. apply andb_true_iff. split.
  - apply negb_true_iff, String.eqb_neq. intros ->. now apply Ht.
  - apply Nat.ltb_lt. destruct (trim s); [congruence|simpl; lia].
Qed.

(** Every setting of the projects query that differs from its default
    reaches the request: a search text that is not blank (trimmed), a
    status other than ALL, a page above 1 and a limit other than 10. *)
Theorem projects_query_carries_settings (query : ProjectsQuery) :
  (forall s, search query = Some s -> trim s <> "" ->
     params_get "search" (load_params query) = Some (trim s)) /\
  (forall st, status query = Some st -> st <> ALL ->
     params_get "status" (load_params query) = Some (filter_text st)) /\
  (forall p, page query = Some p -> 1 < p ->
     params_get "page" (load_params query) = Some (string_of_Z p)) /\
  (forall l, limit query = Some l -> l <> 0 -> l <> 10 ->
     params_get "limit" (load_params query) = Some (string_of_Z l)).
Proof.
  destruct (projects_params_get query) as (Hs & Hst & Hp & Hl).
  split; [|split; [|split]].
  - intros s Hq Ht. rewrite Hs, Hq. now rewrite (trim_not_empty s Ht).
  - intros st Hq Hne. rewrite Hst, Hq. destruct st; [congruence|reflexivity|reflexivity].
  - intros p Hq Hlt. rewrite Hp, Hq.
    replace (negb (p =? 0) && (1 <? p)) with true; [reflexivity|].
    symmetry. apply andb_true_iff. split.
    + apply negb_true_iff, Z.eqb_neq. lia.
    + now apply Z.ltb_lt.
  - intros l Hq H0 H10. rewrite Hl, Hq.
    replace (negb (l =? 0) && negb (l =? 10)) with true; [reflexivity|].
    symmetry. apply andb_true_iff. split; apply negb_true_iff, Z.eqb_neq; assumption.
Qed.

Lemma projects_query_carries_settings_witness :
  params_get "search" (load_params Samples.projects_query) = Some "api gateway" /\
  params_get "status" (load_params Samples.projects_query) = Some "ARCHIVED" /\
  params_get "page" (load_params Samples.projects_query) = Some "3" /\
  params_get "limit" (load_params Samples.projects_query) = Some "25".
Proof.
  destruct (projects_query_carries_settings Samples.projects_query)
    as (Hs & Hst & Hp & Hl).
  split; [|split; [|split]].
  - apply (Hs "  api gateway　 "); [reflexivity|discriminate].
  - apply (Hst ARCHIVED); [reflexivity|discriminate].
  - apply (Hp 3); [reflexivity|lia].
  - apply (Hl 25); [reflexivity|lia|lia].
Defined.

(** A change of the search text or of the status filter sends the list
    back to its first page, whatever page was shown, and leaves the other
    settings of the request as they were. *)
Theorem projects_filter_change_first_page (query : ProjectsQuery)
    (text : string) (v : ProjectStatusFilter) :
  let searched := load_params (ProjectsList.search_effect text query) in
  let filtered := load_params (ProjectsList.onStatusChange v query) in
  params_get "page" searched = None /\
  params_get "search" searched = (if String.eqb (trim text) "" then None
                                  else Some (trim text)) /\
  params_get "status" searched = params_get "status" (load_params query) /\
  params_get "limit" searched = params_get "limit" (load_params query) /\
  params_get "page" filtered = None /\
  params_get "status" filtered = (match v with ALL => None | _ => Some (filter_text v) end) /\
  params_get "search" filtered = params_get "search" (load_params query) /\
  params_get "limit" filtered = params_get "limit" (load_params query).
Proof.
  cbv zeta.
  destruct (projects_params_get query) as (Hs & Hst & Hp & Hl).
  destruct (projects_params_get (ProjectsList.search_effect text query))
    as (Hs1 & Hst1 & Hp1 & Hl1).
  destruct (projects_params_get (ProjectsList.onStatusChange v query))
    as (Hs2 & Hst2 & Hp2 & Hl2).
  rewrite Hs1, Hst1, Hp1, Hl1, Hs2, Hst2, Hp2, Hl2, Hs, Hst, Hl.
  cbn [ProjectsList.search_effect ProjectsList.onStatusChange setParams
       search status page limit set_search set_status set_page set_limit
       default from_option id].
  repeat split.
  - destruct (String.eqb_spec (trim text) "") as [He|Hne].
    + destruct (String.eqb text ""); [reflexivity|]. now rewrite He.
    + now rewrite (trim_not_empty text Hne).
  - now destruct v.
Qed.

End MoreQueryStrings.

Section MoreWorklogQueries.
Import JS Worklogs.

(** What [load] of [useWorklogs] puts under each name. *)
Lemma worklogs_params_get (query : WorklogsQuery) :
  params_get "fromDate" (load_params query)
  = (if falsy (fromDate query) then None else Some (or_else (fromDate query) "")) /\
  params_get "toDate" (load_params query)
  = (if falsy (toDate query) then None else Some (or_else (toDate query) "")) /\
  params_get "activityType" (load_params query)
  = match activityType query with
    | Some a => if negb (String.eqb a "") && (0 <? String.length (trim a))%nat
                then Some (trim a) else None
    | None => None
    end /\
  params_get "page" (load_params query)
  = match page query with
    | Some p => if negb (p =? 0) && (1 <? p) then Some (string_of_Z p) else None
    | None => None
    end /\
  params_get "limit" (load_params query)
  = match limit query with
    | Some l => if negb (l =? 0) && negb (l =? 10) then Some (string_of_Z l) else None
    | None => None
    end.
Proof.
  unfold load_params.
  destruct (falsy (fromDate query)), (falsy (toDate query));
  (destruct (activityType query) as [a|];
    [destruct (negb (String.eqb a "") && (0 <? String.length (trim a))%nat)|]);
  (destruct (page query) as [p|]; [destruct (negb (p =? 0) && (1 <? p))|]);
  (destruct (limit query) as [l|]; [destruct (negb (l =? 0) && negb (l =? 10))|]);
  repeat split.
Qed.

Lemma falsy_or_undefined (x : string) : falsy (or_undefined x) = String.eqb x "".
Proof.
  unfold or_undefined. destruct (String.eqb x "") eqn:E; [reflexivity|exact E].
Qed.

Lemma or_else_or_undefined (x : string) : or_else (or_undefined x) "" = x.
Proof.
  unfold or_undefined. destruct (String.eqb_spec x "") as [->|Hne]; [reflexivity|].
  apply or_else_some_self.
Qed.

(** When the filters of the worklogs list change, the next request asks
    for the first page with the filters that are not blank; resetting the
    filters leaves nothing but the page size in the query string. *)
Theorem worklogs_filter_change_first_page (query : WorklogsQuery)
    (dFrom dTo dAct : string) :
  let filtered := load_params (Pages.filters_effect dFrom dTo dAct query) in
  let cleared := load_params (Pages.onResetFilters query) in
  params_get "page" filtered = None /\
  params_get "fromDate" filtered = or_undefined dFrom /\
  params_get "toDate" filtered = or_undefined dTo /\
  params_get "activityType" filtered = or_undefined (trim dAct) /\
  params_get "limit" filtered = params_get "limit" (load_params query) /\
  (forall k, k <> "limit" -> params_get k cleared = None) /\
  params_get "limit" cleared = params_get "limit" (load_params query).
Proof.
  cbv zeta.
  destruct (worklogs_params_get query) as (_ & _ & _ & _ & Hl).
  destruct (worklogs_params_get (Pages.filters_effect dFrom dTo dAct query))
    as (Hf1 & Ht1 & Ha1 & Hp1 & Hl1).
  destruct (worklogs_params_get (Pages.onResetFilters query))
    as (Hf2 & Ht2 & Ha2 & Hp2 & Hl2).
  rewrite Hf1, Ht1, Ha1, Hp1, Hl1, Hl2, Hl. clear Hf1 Ht1 Ha1 Hp1 Hl1 Hl2 Hl.
  cbn [Pages.filters_effect Pages.onResetFilters setParams
       fromDate toDate activityType page limit
       set_fromDate set_toDate set_activityType set_page set_limit
       default from_option id] in *.
  rewrite !falsy_or_undefined, !or_else_or_undefined.
  split; [reflexivity|]. split; [|split; [|split; [|split; [reflexivity|split]]]].
  - unfold or_undefined. now destruct (String.eqb dFrom "").
  - unfold or_undefined. now destruct (String.eqb dTo "").
  - unfold or_undefined at 1. destruct (String.eqb_spec dAct "") as [->|Hne].
    + reflexivity.
    + unfold or_undefined. destruct (String.eqb_spec (trim dAct) "") as [He|Ht].
      * apply String.eqb_neq in Hne. rewrite Hne, He. reflexivity.
      * now rewrite (trim_not_empty dAct Ht).
  - intros k Hk.
    destruct (params_get k (load_params (Pages.onResetFilters query))) as [v|] eqn:Hg;
      [|reflexivity].
    pose proof (worklogs_param_names _ _ _ Hg) as Hin.
    cbn [In] in Hin.
    destruct Hin as [<-|[<-|[<-|[<-|[<-|[]]]]]];
      [rewrite Hf2 in Hg|rewrite Ht2 in Hg|rewrite Ha2 in Hg|rewrite Hp2 in Hg|];
      [discriminate Hg..|congruence].
  - reflexivity.
Qed.

Lemma worklogs_filter_change_first_page_witness :
  let filtered :=
    load_params (Pages.filters_effect "2024-05-01" "" " review " Samples.worklogs_query) in
  let cleared := load_params (Pages.onResetFilters Samples.worklogs_query) in
  params_get "page" filtered = None /\
  params_get "fromDate" filtered = or_undefined "2024-05-01" /\
  params_get "toDate" filtered = or_undefined "" /\
  params_get "activityType" filtered = or_undefined (trim " review ") /\
  params_get "limit" filtered = params_get "limit" (load_params Samples.worklogs_query) /\
  params_get "page" cleared = None /\
  params_get "limit" cleared = params_get "limit" (load_params Samples.worklogs_query).
Proof.
  cbv zeta.
  destruct (worklogs_filter_change_first_page Samples.worklogs_query
              "2024-05-01" "" " review ") as (H1 & H2 & H3 & H4 & H5 & H6 & H7).
  refine (conj H1 (conj H2 (conj H3 (conj H4 (conj H5 (conj (H6 "page" _) H7)))))).
  discriminate.
Defined.

End MoreWorklogQueries.

(** ** The requests of [useProjects] over the life of the hook *)
Section Traces.
Import JS Http Hook.
Variable API_HOST : option string.

(** The controllers created so far, the current one and the aborted
    ones are the same in both states. *)
Lemma load_settled_bookkeeping (c : nat) net (s : Projects.State) :
  abortRef (Projects.load_settled c net s) = abortRef s /\
  aborted (Projects.load_settled c net s) = aborted s /\
  controllers (Projects.load_settled c net s) = controllers s.
Proof.
  unfold Projects.load_settled. cbv zeta.
  destruct (fetchWithAuth net) as [resp|e].
  - destruct (is_current c s) eqn:Hc.
    + replace (is_current c (setData resp s)) with true by (symmetry; exact Hc).
      now repeat split.
    + rewrite Hc. now repeat split.
  - destruct (is_aborted c s || negb (is_current c s)).
    + destruct (is_current c s); now repeat split.
    + match goal with
      | |- context [is_current c ?t] => destruct (is_current c t)
      end; now repeat split.
Qed.

Lemma remove_settled_bookkeeping (x : string) net (s : Projects.State) :
  abortRef (fst (Projects.remove_settled x net s)) = abortRef s /\
  aborted (fst (Projects.remove_settled x net s)) = aborted s /\
  controllers (fst (Projects.remove_settled x net s)) = controllers s.
Proof.
  unfold Projects.remove_settled, remove_settled.
  destruct net as [res|reason]; [|now repeat split].
  destruct (read_body res) as [body|e]; [|now repeat split].
  match goal with
  | |- context [if ?b then _ else _] => destruct b
  end; now repeat split.
Qed.

Lemma remove_call_bookkeeping document_cookie (x : string) (s : Projects.State) :
  abortRef (fst (Projects.remove_call API_HOST document_cookie x s)) = abortRef s /\
  aborted (fst (Projects.remove_call API_HOST document_cookie x s)) = aborted s /\
  controllers (fst (Projects.remove_call API_HOST document_cookie x s)) = controllers s.
Proof.
  unfold Projects.remove_call.
  destruct (getCookie document_cookie COOKIE.ACCESS_TOKEN) as [token|e];
    [|now repeat split].
  destruct (falsy API_HOST || falsy token); now repeat split.
Qed.

Lemma install_abort_fields {D} (s : State D) :
  abortRef (install_controller (abort_current s)) = Some (controllers s) /\
  controllers (install_controller (abort_current s)) = S (controllers s) /\
  aborted (install_controller (abort_current s))
  = match abortRef s with Some cur => {[cur]} ∪ aborted s | None => aborted s end.
Proof. unfold install_controller, abort_current. destruct (abortRef s); repeat split. Qed.

(** At any moment of the life of [useProjects], every controller it has
    created is either the current one or aborted: a new [load] aborts the
    request before it, so at most one request can still deliver. *)
Theorem projects_single_live_request (s : Projects.State) :
  Projects.reachable API_HOST s ->
  (forall c, abortRef s = Some c -> (c < controllers s)%nat) /\
  (forall c, (c < controllers s)%nat -> abortRef s <> Some c -> c ∈ aborted s) /\
  (length (live s) <= 1)%nat.
Proof.
  intros Hr.
  assert (Hinv :
    (forall c, abortRef s = Some c -> (c < controllers s)%nat) /\
    (forall c, (c < controllers s)%nat -> abortRef s <> Some c -> c ∈ aborted s)).
  { induction Hr as [|s s' Hr [IH1 IH2] Hstep].
    - split; [discriminate|]. cbn. intros c Hc. lia.
    - destruct Hstep as [document_cookie query s|c0 net s|document_cookie x s|x net s|s].
      + unfold Projects.load_call.
        destruct (getCookie document_cookie COOKIE.ACCESS_TOKEN) as [token|e];
          [|now split].
        destruct (falsy API_HOST || falsy token); [now split|].
        cbn [fst].
        destruct (install_abort_fields (setError "" (setLoading true s)))
          as (Ha & Hc & Hb).
        rewrite Ha, Hc, Hb. cbn [abortRef aborted controllers setError setLoading].
        clear Ha Hc Hb. split.
        * intros c [= <-]. lia.
        * intros c Hc Hne.
          assert (Hlt : (c < controllers s)%nat).
          { destruct (decide (c = controllers s)); [congruence|lia]. }
          destruct (abortRef s) as [cur|] eqn:Hcur.
          -- destruct (decide (c = cur)) as [->|Hd]; [set_solver|].
             assert (c ∈ aborted s); [|set_solver].
             apply IH2; [exact Hlt|congruence].
          -- apply IH2; [exact Hlt|discriminate].
      + destruct (load_settled_bookkeeping c0 net s) as (-> & -> & ->). now split.
      + destruct (remove_call_bookkeeping document_cookie x s) as (-> & -> & ->).
        now split.
      + destruct (remove_settled_bookkeeping x net s) as (-> & -> & ->). now split.
      + unfold abort_current. destruct (abortRef s) as [cur|] eqn:Hcur.
        2: { split; [intros c Hc; apply IH1; congruence|].
             intros c Hc Hne. apply IH2; [exact Hc|congruence]. }
        cbn [abortRef aborted controllers]. split.
        * intros c Hc. apply IH1. congruence.
        * intros c Hc Hne. assert (c ∈ aborted s); [|set_solver].
          apply IH2; [exact Hc|congruence]. }
  destruct Hinv as [H1 H2]. split; [exact H1|]. split; [exact H2|].
  unfold live.
  assert (Hall : forall c, In c (List.filter (fun c => negb (is_aborted c s))
                                    (seq 0 (controllers s))) -> abortRef s = Some c).
  { intros c Hin. apply filter_In in Hin as [Hin Hna].
    apply in_seq in Hin. destruct (decide (abortRef s = Some c)) as [|Hne]; [assumption|].
    assert (Hab : c ∈ aborted s) by (apply H2; [lia|exact Hne]).
    unfold is_aborted in Hna. rewrite bool_decide_eq_true_2 in Hna by exact Hab.
    discriminate. }
  assert (Hnd : List.NoDup (List.filter (fun c => negb (is_aborted c s))
                              (seq 0 (controllers s))))
    by (apply List.NoDup_filter, seq_NoDup).
  destruct (List.filter _ _) as [|a [|b l]]; cbn; [lia|lia|].
  exfalso. assert (Ha : abortRef s = Some a) by (apply Hall; now left).
  assert (Hb : abortRef s = Some b) by (apply Hall; right; now left).
  inversion Hnd as [|? ? Hnot _]. subst. apply Hnot. left. congruence.
Qed.

End Traces.

Section TracesWitness.
Import JS Http Hook.

Lemma projects_single_live_request_witness :
  let s :=
    fst (Projects.load_call Samples.API_HOST Samples.cookie Samples.projects_query
           (fst (Projects.load_call Samples.API_HOST Samples.cookie Projects.initial mount))) in
  (forall c, abortRef s = Some c -> (c < controllers s)%nat) /\
  (forall c, (c < controllers s)%nat -> abortRef s <> Some c -> c ∈ aborted s) /\
  (length (live s) <= 1)%nat.
Proof.
  cbv zeta. apply (projects_single_live_request Samples.API_HOST).
  eapply Projects.reachable_step;
    [eapply Projects.reachable_step; [apply Projects.reachable_mount|]|];
    apply Projects.step_load.
Defined.

End TracesWitness.

(** ** The five worklogs of the dashboard *)
Section MoreSortFacts.
Context {A : Type}.
Variable after : A -> A -> bool.

Lemma insert_Permutation (x : A) (l : list A) :
  Permutation (JSArray.insert after x l) (x :: l).
Proof.
  induction l as [|z l IH]; simpl; [reflexivity|].
  destruct (after x z); [|reflexivity].
  rewrite IH. apply perm_swap.
Qed.

Lemma sort_Permutation (l : list A) : Permutation (JSArray.sort after l) l.
Proof.
  induction l as [|x l IH]; simpl; [reflexivity|].
  rewrite insert_Permutation. now constructor.
Qed.

End MoreSortFacts.

Section DashboardNewest.
Import JS Num Http Hook Spec Dashboard.
Variable getTime : string -> option Z.

(** The dashboard shows the five newest of the aggregated worklogs, all of
    them when there are fewer: the stored list and the worklogs left out
    make up the aggregated ones, and, when every [createdAt] is a valid
    date, no worklog left out is newer than one that is shown. *)
Theorem dashboard_recent_are_newest controller weekAgo me_net projects_net worklog_net
    (s : Dashboard.State) meResp projResp :
  fetchWithAuth me_net = Normal meResp ->
  fetchWithAuth projects_net = Normal projResp ->
  exists d rest,
    data (load_settled getTime controller weekAgo me_net projects_net worklog_net s)
      = Some d /\
    length (recentWorklogs d)
      = Nat.min 5 (length (aggregated (first_page projResp) worklog_net)) /\
    Permutation (aggregated (first_page projResp) worklog_net)
                (recentWorklogs d ++ rest) /\
    (valid_dates getTime (aggregated (first_page projResp) worklog_net) ->
     forall a b ta tb,
       In a (recentWorklogs d) -> In b rest ->
       getTime (createdAt a) = Some ta -> getTime (createdAt b) = Some tb ->
       tb <= ta).
Proof.
  intros Hme Hpr. rewrite (load_settled_data _ _ _ _ _ _ _ _ _ Hme Hpr). cbv zeta.
  set (all := JSArray.sort (createdAt_after getTime)
                (aggregated (first_page projResp) worklog_net)).
  eexists _, (drop 5 all). split; [reflexivity|]. cbn [recentWorklogs].
  split; [|split].
  - rewrite length_take. unfold all. now rewrite sort_length.
  - rewrite take_drop. unfold all. symmetry. apply sort_Permutation.
  - intros Hvalid a b ta tb Ha Hb Hta Htb.
    apply list_elem_of_In, list_elem_of_lookup in Ha as [i Hi].
    apply list_elem_of_In, list_elem_of_lookup in Hb as [j Hj].
    apply lookup_take_Some in Hi as [Hi Hlt].
    rewrite lookup_drop in Hj.
    apply (sort_newest_first getTime _ Hvalid i (5 + j)%nat a b ta tb);
      [lia|assumption..].
Qed.

End DashboardNewest.

Section DashboardNewestWitness.
Import JS Num Http Hook Spec Dashboard.

Lemma dashboard_recent_are_newest_witness :
  exists d rest,
    data (load_settled JSDate.getTime 0 Samples.weekAgo Samples.me_ok
            Samples.one_project Samples.worklogs_p1_only mount)
      = Some d /\
    length (recentWorklogs d)
      = Nat.min 5 (length (aggregated
                             (first_page (Some (Samples.list_body
                                [Samples.project "p1" "ACTIVE"]
                                (Some (Samples.meta_of 1 5 1 1)))))
                             Samples.worklogs_p1_only)) /\
    Permutation (aggregated
                   (first_page (Some (Samples.list_body
                      [Samples.project "p1" "ACTIVE"]
                      (Some (Samples.meta_of 1 5 1 1)))))
                   Samples.worklogs_p1_only)
                (recentWorklogs d ++ rest) /\
    (valid_dates JSDate.getTime
       (aggregated
          (first_page (Some (Samples.list_body
             [Samples.project "p1" "ACTIVE"]
             (Some (Samples.meta_of 1 5 1 1)))))
          Samples.worklogs_p1_only) ->
     forall a b ta tb,
       In a (recentWorklogs d) -> In b rest ->
       JSDate.getTime (createdAt a) = Some ta ->
       JSDate.getTime (createdAt b) = Some tb ->
       tb <= ta).
Proof.
  apply (dashboard_recent_are_newest JSDate.getTime 0 Samples.weekAgo Samples.me_ok
           Samples.one_project Samples.worklogs_p1_only mount
           (Some {| me_success := Some true; me_message := None;
                    me_data := Some Samples.user |})
           (Some (Samples.list_body [Samples.project "p1" "ACTIVE"]
                    (Some (Samples.meta_of 1 5 1 1)))));
    reflexivity.
Defined.

End DashboardNewestWitness.

(** ** Deletes that settle in either order *)
Section DeleteOrder.
Import JS Num Http Hook.

Lemma filter_swap {A} (f g : A -> bool) (l : list A) :
  List.filter f (List.filter g l) = List.filter g (List.filter f l).
Proof.
  induction l as [|x l IH]; [reflexivity|]. cbn [List.filter].
  destruct (f x) eqn:Hf, (g x) eqn:Hg; cbn [List.filter];
    rewrite ?Hf, ?Hg, IH; reflexivity.
Qed.

Lemma optimistic_remove_swap {I} `{HasId I} (x y : string)
    (prev : option (ListResponse I)) :
  optimistic_remove x (optimistic_remove y prev)
  = optimistic_remove y (optimistic_remove x prev).
Proof.
  destruct prev as [r|]; [|reflexivity].
  unfold optimistic_remove. cbn [Dto.data Dto.meta Dto.success Dto.message default
                                 from_option id].
  do 3 f_equal. apply filter_swap.
Qed.

Lemma remove_settled_choice {I} `{HasId I} failed succeeded thrown (x : string)
    (net : Settled (Response DeleteBody)) :
  (forall s : State (ListResponse I),
     fst (remove_settled failed succeeded thrown x net s) = s) \/
  (forall s : State (ListResponse I),
     fst (remove_settled failed succeeded thrown x net s)
     = setData (optimistic_remove x (data s)) s).
Proof.
  unfold remove_settled.
  destruct net as [res|reason]; [|now left].
  destruct (read_body res) as [body|e]; [|now left].
  match goal with
  | |- context [if ?b then _ else _] => destruct b
  end; [now left|now right].
Qed.

(** Two deletes of the projects list leave the same state whichever of
    them settles first, whether they succeed or fail. *)
Theorem projects_removes_commute (x y : string)
    (netx nety : Settled (Response DeleteBody)) (s : Projects.State) :
  fst (Projects.remove_settled x netx (fst (Projects.remove_settled y nety s)))
  = fst (Projects.remove_settled y nety (fst (Projects.remove_settled x netx s))).
Proof.
  unfold Projects.remove_settled.
  destruct (remove_settled_choice (I := ProjectItem) "Gagal menghapus project"
              "Berhasil menghapus project" "Gagal menghapus project. Coba lagi." x netx)
    as [Hx|Hx];
  destruct (remove_settled_choice (I := ProjectItem) "Gagal menghapus project"
              "Berhasil menghapus project" "Gagal menghapus project. Coba lagi." y nety)
    as [Hy|Hy];
  rewrite !Hx, !Hy; try reflexivity.
  unfold setData. cbn [data loading error abortRef aborted controllers].
  now rewrite optimistic_remove_swap.
Qed.

End DeleteOrder.

(** ** Trimming and lower-casing *)
Section Normalisation.
Import JS.

Lemma skip_space_shorter (s r : string) :
  skip_space s = Some r -> (String.length r < String.length s)%nat.
Proof.
  unfold skip_space. destruct s as [|c1 s1]; [discriminate|].
  destruct (is_space c1); [intros [= <-]; simpl; lia|].
  destruct s1 as [|c2 s2]; [discriminate|].
  destruct (is_space2 c1 c2); [intros [= <-]; simpl; lia|].
  destruct s2 as [|c3 s3]; [discriminate|].
  destruct (is_space3 c1 c2 c3); [intros [= <-]; simpl; lia|discriminate].
Qed.

Lemma skip_space_app (s r t : string) :
  skip_space s = Some r -> skip_space (s ++ t) = Some (r ++ t).
Proof.
  unfold skip_space. destruct s as [|c1 s1]; [discriminate|].
  rewrite string_app_cons.
  destruct (is_space c1); [now intros [= <-]|].
  destruct s1 as [|c2 s2]; [discriminate|].
  rewrite string_app_cons.
  destruct (is_space2 c1 c2); [now intros [= <-]|].
  destruct s2 as [|c3 s3]; [discriminate|].
  rewrite string_app_cons.
  destruct (is_space3 c1 c2 c3); [now intros [= <-]|discriminate].
Qed.

Lemma trimStart_unfold (s : string) :
  trimStart s = match skip_space s with Some r => trimStart r | None => s end.
Proof.
  destruct s as [|c1 s1]; [reflexivity|]. cbn [trimStart skip_space].
  destruct (is_space c1); [reflexivity|].
  destruct s1 as [|c2 s2]; [reflexivity|].
  destruct (is_space2 c1 c2); [reflexivity|].
  destruct s2 as [|c3 s3]; [reflexivity|].
  destruct (is_space3 c1 c2 c3); reflexivity.
Qed.

Lemma all_space_unfold (s : string) :
  all_space s
  = match s with
    | EmptyString => true
    | String _ _ =>
        match skip_space s with Some r => all_space r | None => false end
    end.
Proof.
  destruct s as [|c1 s1]; [reflexivity|]. cbn [all_space skip_space].
  destruct (is_space c1); [reflexivity|].
  destruct s1 as [|c2 s2]; [reflexivity|].
  destruct (is_space2 c1 c2); [reflexivity|].
  destruct s2 as [|c3 s3]; [reflexivity|].
  destruct (is_space3 c1 c2 c3); reflexivity.
Qed.

(** What [trimStart] returns does not start with white space. *)
Lemma skip_space_trimStart (s : string) : skip_space (trimStart s) = None.
Proof.
  remember (String.length s) as n eqn:Hn. revert s Hn.
  induction n as [n IH] using lt_wf_ind. intros s ->.
  rewrite trimStart_unfold. destruct (skip_space s) as [r|] eqn:Hs; [|exact Hs].
  apply (IH (String.length r)); [now apply skip_space_shorter|reflexivity].
Qed.

Lemma trimStart_fixed (s : string) : skip_space s = None -> trimStart s = s.
Proof. intros Hs. rewrite trimStart_unfold. now rewrite Hs. Qed.

Lemma all_space_app (a b : string) :
  all_space a = true -> all_space b = true -> all_space (a ++ b) = true.
Proof.
  remember (String.length a) as n eqn:Hn. revert a Hn.
  induction n as [n IH] using lt_wf_ind. intros a -> Ha Hb.
  destruct a as [|c a]; [exact Hb|].
  rewrite all_space_unfold in Ha. rewrite all_space_unfold, string_app_cons.
  rewrite <- string_app_cons.
  destruct (skip_space (String c a)) as [r|] eqn:Hs; [|discriminate].
  rewrite (skip_space_app _ r b Hs).
  apply (IH (String.length r)); [now apply skip_space_shorter|reflexivity| |]; assumption.
Qed.

(** [trimEnd] cuts a tail of white space off. *)
Lemma trimEnd_split (s : string) :
  exists t, s = trimEnd s ++ t /\ all_space t = true.
Proof.
  induction s as [|c s (t & Hs & Ht)]; [now exists ""|]. cbn [trimEnd].
  destruct (all_space (String c s)) eqn:Ha.
  - now exists (String c s).
  - exists t. split; [|exact Ht]. rewrite string_app_cons. now rewrite <- Hs.
Qed.

Lemma all_space_trimEnd (c : ascii) (s : string) :
  all_space (String c s) = false -> all_space (String c (trimEnd s)) = false.
Proof.
  intros Ha. destruct (all_space (String c (trimEnd s))) eqn:Hb; [|reflexivity].
  destruct (trimEnd_split s) as (t & Hs & Ht).
  pose proof (all_space_app _ _ Hb Ht) as Hc.
  rewrite string_app_cons, <- Hs in Hc. congruence.
Qed.

Lemma trimEnd_idempotent (s : string) : trimEnd (trimEnd s) = trimEnd s.
Proof.
  induction s as [|c s IH]; [reflexivity|]. cbn [trimEnd].
  destruct (all_space (String c s)) eqn:Ha; [reflexivity|].
  cbn [trimEnd]. now rewrite (all_space_trimEnd c s Ha), IH.
Qed.

(** [trimEnd] uncovers no white space at the start. *)
Lemma skip_space_trimEnd (s : string) :
  skip_space s = None -> skip_space (trimEnd s) = None.
Proof.
  intros Hs. destruct (skip_space (trimEnd s)) as [r|] eqn:Hr; [|reflexivity].
  destruct (trimEnd_split s) as (t & Heq & _).
  apply (skip_space_app _ _ t) in Hr. rewrite <- Heq in Hr. congruence.
Qed.

(** [trim] of a trimmed string changes nothing. *)
Lemma trim_idempotent (s : string) : trim (trim s) = trim s.
Proof.
  unfold trim.
  rewrite (trimStart_fixed (trimEnd (trimStart s)))
    by apply skip_space_trimEnd, skip_space_trimStart.
  apply trimEnd_idempotent.
Qed.

End Normalisation.

(** ** ASCII text *)
Section AsciiText.
Import JS.

Lemma is_ascii_cons (c : ascii) (s : string) :
  is_ascii (String c s) = (N_of_ascii c <? 128)%N && is_ascii s.
Proof. reflexivity. Qed.

Lemma is_space2_ascii (c c2 : ascii) :
  (N_of_ascii c <? 128)%N = true -> is_space2 c c2 = false.
Proof.
  intros Hc. apply N.ltb_lt in Hc. unfold is_space2.
  destruct (N.eqb_spec (N_of_ascii c) 194); [lia|reflexivity].
Qed.

Lemma is_space3_ascii (c c2 c3 : ascii) :
  (N_of_ascii c <? 128)%N = true -> is_space3 c c2 c3 = false.
Proof.
  intros Hc. apply N.ltb_lt in Hc. unfold is_space3. cbv zeta.
  repeat match goal with
         | |- context [(N_of_ascii c =? ?k)%N] =>
             destruct (N.eqb_spec (N_of_ascii c) k); [lia|]
         end.
  reflexivity.
Qed.

(** On ASCII text only the white space of one byte is met. *)
Lemma skip_space_ascii (c : ascii) (s : string) :
  (N_of_ascii c <? 128)%N = true ->
  skip_space (String c s) = if is_space c then Some s else None.
Proof.
  intros Hc. unfold skip_space. destruct (is_space c); [reflexivity|].
  destruct s as [|c2 s]; [reflexivity|]. rewrite (is_space2_ascii c c2 Hc).
  destruct s as [|c3 s]; [reflexivity|]. now rewrite (is_space3_ascii c c2 c3 Hc).
Qed.

Lemma trimStart_ascii (c : ascii) (s : string) :
  (N_of_ascii c <? 128)%N = true ->
  trimStart (String c s) = if is_space c then trimStart s else String c s.
Proof.
  intros Hc. rewrite trimStart_unfold, (skip_space_ascii c s Hc).
  now destruct (is_space c).
Qed.

Lemma all_space_ascii (c : ascii) (s : string) :
  (N_of_ascii c <? 128)%N = true ->
  all_space (String c s) = is_space c && all_space s.
Proof.
  intros Hc. rewrite all_space_unfold, (skip_space_ascii c s Hc).
  now destruct (is_space c).
Qed.

Lemma is_ascii_trimStart (s : string) :
  is_ascii s = true -> is_ascii (trimStart s) = true.
Proof.
  induction s as [|c s IH]; [reflexivity|]. intros Hs.
  pose proof Hs as Hcs. rewrite is_ascii_cons in Hcs.
  apply andb_true_iff in Hcs as [Hc Hr].
  rewrite (trimStart_ascii c s Hc). destruct (is_space c); [now apply IH|exact Hs].
Qed.

Lemma is_ascii_trimEnd (s : string) :
  is_ascii s = true -> is_ascii (trimEnd s) = true.
Proof.
  induction s as [|c s IH]; [reflexivity|]. intros Hs. cbn [trimEnd].
  destruct (all_space (String c s)); [reflexivity|].
  rewrite is_ascii_cons in *. apply andb_true_iff in Hs as [Hc Hr].
  now rewrite Hc, (IH Hr).
Qed.

Lemma is_ascii_trim (s : string) : is_ascii s = true -> is_ascii (trim s) = true.
Proof. intros Hs. now apply is_ascii_trimEnd, is_ascii_trimStart. Qed.

Lemma lower_ascii_space (c : ascii) : is_space (lower_ascii c) = is_space c.
Proof. destruct c as [[] [] [] [] [] [] [] []]; reflexivity. Qed.

Lemma lower_ascii_idempotent (c : ascii) : lower_ascii (lower_ascii c) = lower_ascii c.
Proof. destruct c as [[] [] [] [] [] [] [] []]; reflexivity. Qed.

Lemma lower_ascii_is_ascii (c : ascii) :
  (N_of_ascii (lower_ascii c) <? 128)%N = (N_of_ascii c <? 128)%N.
Proof. destruct c as [[] [] [] [] [] [] [] []]; reflexivity. Qed.

Lemma ascii_toLowerCase_idempotent (s : string) :
  ascii_toLowerCase (ascii_toLowerCase s) = ascii_toLowerCase s.
Proof.
  induction s as [|c s IH]; [reflexivity|]. cbn [ascii_toLowerCase].
  now rewrite lower_ascii_idempotent, IH.
Qed.

Lemma is_ascii_toLowerCase (s : string) :
  is_ascii (ascii_toLowerCase s) = is_ascii s.
Proof.
  induction s as [|c s IH]; [reflexivity|]. cbn [ascii_toLowerCase].
  now rewrite !is_ascii_cons, lower_ascii_is_ascii, IH.
Qed.

Lemma trimStart_toLowerCase (s : string) :
  is_ascii s = true ->
  trimStart (ascii_toLowerCase s) = ascii_toLowerCase (trimStart s).
Proof.
  induction s as [|c s IH]; [reflexivity|]. rewrite is_ascii_cons.
  intros [Hc Hr]%andb_true_iff. cbn [ascii_toLowerCase].
  rewrite !trimStart_ascii by now rewrite ?lower_ascii_is_ascii.
  rewrite lower_ascii_space. destruct (is_space c); [now apply IH|reflexivity].
Qed.

Lemma all_space_toLowerCase (s : string) :
  is_ascii s = true -> all_space (ascii_toLowerCase s) = all_space s.
Proof.
  induction s as [|c s IH]; [reflexivity|]. rewrite is_ascii_cons.
  intros [Hc Hr]%andb_true_iff. cbn [ascii_toLowerCase].
  rewrite !all_space_ascii by now rewrite ?lower_ascii_is_ascii.
  now rewrite lower_ascii_space, (IH Hr).
Qed.

Lemma trimEnd_toLowerCase (s : string) :
  is_ascii s = true ->
  trimEnd (ascii_toLowerCase s) = ascii_toLowerCase (trimEnd s).
Proof.
  induction s as [|c s IH]; [reflexivity|]. intros Hs.
  pose proof (all_space_toLowerCase _ Hs) as Ha.
  rewrite is_ascii_cons in Hs. apply andb_true_iff in Hs as [Hc Hr].
  cbn [ascii_toLowerCase] in *. cbn [trimEnd]. rewrite Ha.
  destruct (all_space (String c s)); [reflexivity|].
  cbn [ascii_toLowerCase]. now rewrite (IH Hr).
Qed.

Lemma trim_toLowerCase (s : string) :
  is_ascii s = true -> trim (ascii_toLowerCase s) = ascii_toLowerCase (trim s).
Proof.
  intros Hs. unfold trim.
  rewrite (trimStart_toLowerCase s Hs).
  apply trimEnd_toLowerCase. now apply is_ascii_trimStart.
Qed.

End AsciiText.

(** ** Registration *)
Section Registration.
Import JS Http Register Hook.Mutation.

(** [registerAccount] sends the address trimmed and then lower-cased, the
    name trimmed and the password as typed.  For an address of ASCII
    characters, on which [toLowerCase] maps [A] to [Z] and nothing else,
    what is sent is in normal form: sent again it is sent unchanged, so
    spellings that differ in the case of ASCII letters or in the white
    space around them register the same address. *)
Theorem register_sends_normalised_email (toLowerCase : string -> string)
    (API_HOST : option string) (payload : RegisterPayload) (s : State) :
  falsy API_HOST = false ->
  exists c request,
    snd (registerAccount_call toLowerCase API_HOST payload s) = Sent c request /\
    params_get "email" (body request) = Some (toLowerCase (trim (email payload))) /\
    params_get "full_name" (body request) = Some (trim (fullName payload)) /\
    params_get "password" (body request) = Some (password payload) /\
    ((forall t, is_ascii t = true -> toLowerCase t = ascii_toLowerCase t) ->
     is_ascii (email payload) = true ->
     toLowerCase (trim (toLowerCase (trim (email payload))))
     = toLowerCase (trim (email payload)) /\
     forall payload',
       email payload' = toLowerCase (trim (email payload)) ->
       exists c' request',
         snd (registerAccount_call toLowerCase API_HOST payload' s)
         = Sent c' request' /\
         params_get "email" (body request') = params_get "email" (body request)).
Proof.
  intros Hh. unfold registerAccount_call. rewrite Hh. cbn [snd].
  eexists _, _. split; [reflexivity|]. cbn [body params_get String.eqb Ascii.eqb Bool.eqb].
  split; [reflexivity|]. split; [reflexivity|]. split; [reflexivity|].
  intros Hascii He.
  assert (Hn : toLowerCase (trim (toLowerCase (trim (email payload))))
               = toLowerCase (trim (email payload))).
  { pose proof (is_ascii_trim _ He) as Ht.
    rewrite (Hascii _ Ht).
    rewrite (trim_toLowerCase _ Ht), trim_idempotent.
    rewrite Hascii by now rewrite is_ascii_toLowerCase.
    apply ascii_toLowerCase_idempotent. }
  split; [exact Hn|].
  intros payload' He'. eexists _, _. split; [reflexivity|].
  cbn [body params_get String.eqb Ascii.eqb Bool.eqb]. now rewrite He', Hn.
Qed.

Lemma register_sends_normalised_email_witness :
  exists c request,
    snd (registerAccount_call Samples.toLowerCase Samples.API_HOST
           Samples.registration mount) = Sent c request /\
    email Samples.registration = " Dev@Devlog.Test " /\
    params_get "email" (body request) = Some "dev@devlog.test" /\
    Samples.toLowerCase (trim "dev@devlog.test") = "dev@devlog.test".
Proof.
  destruct (register_sends_normalised_email Samples.toLowerCase Samples.API_HOST
              Samples.registration mount eq_refl)
    as (c & request & Hsent & Hemail & _ & _ & Hnormal).
  exists c, request. split; [exact Hsent|]. split; [reflexivity|].
  split; [exact Hemail|].
  destruct (Hnormal (fun t _ => eq_refl) eq_refl) as [Hn _]. exact Hn.
Defined.

End Registration.

(** ** Submitting twice *)
Section Submits.
Import JS Http Forms Hook.Mutation.

Lemma submit_sent {B} document_cookie method url fields (s s1 : State) c request :
  submit (B := B) document_cookie method url fields s = (s1, Sent c request) ->
  c = controllers s /\
  s1 = setError "" (setIsLoading true (install_controller (abort_current s))).
Proof.
  unfold submit.
  destruct (getCookie document_cookie COOKIE.ACCESS_TOKEN) as [token|e]; [|discriminate].
  destruct (falsy token); [discriminate|].
  intros [= <- <- _]. split; [|reflexivity].
  unfold abort_current. now destruct (abortRef s).
Qed.

(** When a form is submitted again while its first request is in flight,
    the first request is aborted; once it is rejected, the first call
    answers "Dibatalkan." and leaves the error cell as the second call set
    it, but it switches [isLoading] off although the second request is
    still in flight. *)
Theorem superseded_submit_is_cancelled {B} `{HasMessage B}
    (cookie1 cookie2 : option string) (method1 url1 method2 url2 : string)
    (fields1 fields2 : list (string * string)) (failed thrown reason : string)
    (s s1 s2 : State) (c1 c2 : nat) (request1 request2 : Request) :
  submit (B := B) cookie1 method1 url1 fields1 s = (s1, Sent c1 request1) ->
  submit (B := B) cookie2 method2 url2 fields2 s1 = (s2, Sent c2 request2) ->
  c1 <> c2 /\
  abortRef s2 = Some c2 /\
  isLoading s2 = true /\
  submit_settled failed thrown c1 (Rejected reason) s2
  = (setIsLoading false s2, Err (B := B) CANCELLED) /\
  error (setIsLoading false s2) = "".
Proof.
  intros H1 H2.
  apply submit_sent in H1 as [Hc1 Hs1]. apply submit_sent in H2 as [Hc2 Hs2].
  assert (Hab1 : abortRef s1 = Some c1) by (subst s1 c1; unfold abort_current;
    now destruct (abortRef s)).
  assert (Hn1 : controllers s1 = S c1) by (subst s1 c1; unfold abort_current;
    now destruct (abortRef s)).
  assert (Hin : c1 ∈ aborted s2).
  { subst s2. unfold abort_current. rewrite Hab1. cbn. set_solver. }
  split; [lia|]. split.
  { rewrite Hs2, Hc2. cbn [abortRef setError setIsLoading install_controller].
    f_equal. unfold abort_current. now destruct (abortRef s1). }
  split; [now rewrite Hs2|]. split; [|now rewrite Hs2].
  unfold submit_settled. now rewrite bool_decide_eq_true_2 by exact Hin.
Qed.

End Submits.

Section SubmitsWitness.
Import JS Http Forms Hook.Mutation.

Lemma superseded_submit_is_cancelled_witness :
  let payload :=
    {| logDate := "2024-05-01"; activityType := "Coding";
       summary := "Wrote the parser"; timeSpent := Some 90; blockers := None |} in
  let out1 := createWorklog_call (B := DeleteBody) Samples.API_HOST Samples.cookie
                (Some "p1") payload mount in
  let out2 := createWorklog_call (B := DeleteBody) Samples.API_HOST Samples.cookie
                (Some "p1") payload (fst out1) in
  (0%nat <> 1%nat) /\
  abortRef (fst out2) = Some 1%nat /\
  isLoading (fst out2) = true /\
  createWorklog_settled 0 (Rejected "AbortError") (fst out2)
  = (setIsLoading false (fst out2), Err (B := DeleteBody) CANCELLED) /\
  error (setIsLoading false (fst out2)) = "".
Proof.
  cbv zeta.
  pose (fields :=
    worklog_fields
      {| logDate := "2024-05-01"; activityType := "Coding";
         summary := "Wrote the parser"; timeSpent := Some 90; blockers := None |}).
  pose (url := Worklogs.baseEndpoint Samples.API_HOST (Some "p1")).
  pose (s1 :=
    setError "" (setIsLoading true (install_controller (abort_current mount)))).
  apply (superseded_submit_is_cancelled (B := DeleteBody)
           Samples.cookie Samples.cookie "POST" url "POST" url fields fields
           "Gagal membuat worklog" "Gagal membuat worklog. Coba lagi." "AbortError"
           mount s1
           (setError "" (setIsLoading true (install_controller (abort_current s1))))
           0 1
           (json_request "POST" url "tok-123" fields 0)
           (json_request "POST" url "tok-123" fields 1));
    reflexivity.
Defined.

End SubmitsWitness.

(** ** The form that creates a project *)
Section ProjectForm.
Import JS Http Forms Hook.Mutation.

Lemma optional_text_or_undefined (name x : string) :
  optional_text name (or_undefined (trim x))
  = match or_undefined (trim x) with
    | Some t => [(name, t)]
    | None => []
    end.
Proof.
  unfold or_undefined, optional_text.
  destruct (String.eqb_spec (trim x) "") as [He|Hne]; [reflexivity|].
  rewrite trim_idempotent. destruct (trim x); [congruence|reflexivity].
Qed.

(** What [CreateProjectForm] submits has passed its validation: the
    request carries the trimmed title, of 3 to 150 UTF-16 code units (what
    [length] counts), the status ACTIVE, and the description and the tech
    stack trimmed, each only when it is not blank; the description typed
    has at most 2000 code units.  The submit button is enabled whenever
    the validation passes. *)
Theorem create_project_form_submits_valid {B} (API_HOST document_cookie : option string)
    (f : CreateProjectForm.Fields) (s s' : State) (c : nat) (request : Request) :
  CreateProjectForm.onSubmit (B := B) API_HOST document_cookie f s
  = Some (s', Sent c request) ->
  params_get "title" (body request) = Some (trim (CreateProjectForm.title f)) /\
  (3 <= utf16_length (trim (CreateProjectForm.title f)) <= 150)%nat /\
  (utf16_length (CreateProjectForm.description f) <= 2000)%nat /\
  params_get "description" (body request)
  = or_undefined (trim (CreateProjectForm.description f)) /\
  params_get "techStack" (body request)
  = or_undefined (trim (CreateProjectForm.techStack f)) /\
  params_get "status" (body request) = Some "ACTIVE" /\
  CreateProjectForm.canSubmit f false = true.
Proof.
  unfold CreateProjectForm.onSubmit.
  destruct (CreateProjectForm.validate f) eqn:Hv; [|discriminate]. cbn [negb].
  intros [= Hcall].
  assert (Hlen : (3 <= utf16_length (trim (CreateProjectForm.title f)) <= 150)%nat /\
                 (utf16_length (CreateProjectForm.description f) <= 2000)%nat).
  { unfold CreateProjectForm.validate, CreateProjectForm.errs in Hv.
    cbn [CreateProjectForm.title_error CreateProjectForm.description_error
         CreateProjectForm.techStack_error] in Hv.
    destruct (Nat.ltb_spec (utf16_length (trim (CreateProjectForm.title f))) 3);
      [discriminate|].
    destruct (Nat.ltb_spec 150 (utf16_length (trim (CreateProjectForm.title f))));
      [discriminate|].
    destruct (String.eqb_spec (CreateProjectForm.description f) "") as [->|_];
      [cbn; lia|].
    destruct (Nat.ltb_spec 2000 (utf16_length (CreateProjectForm.description f)));
      [discriminate|lia]. }
  unfold createProject_call in Hcall.
  destruct (falsy API_HOST); [discriminate|].
  unfold submit in Hcall.
  destruct (getCookie document_cookie COOKIE.ACCESS_TOKEN) as [token|e]; [|discriminate].
  destruct (falsy token); [discriminate|].
  injection Hcall as _ _ <-.
  unfold json_request, CreateProjectForm.payload.
  cbn [body title description techStack status].
  rewrite !optional_text_or_undefined, trim_idempotent.
  split; [reflexivity|]. split; [exact (proj1 Hlen)|]. split; [exact (proj2 Hlen)|].
  split; [|split; [|split]].
  - destruct (or_undefined (trim (CreateProjectForm.description f)));
      destruct (or_undefined (trim (CreateProjectForm.techStack f))); reflexivity.
  - destruct (or_undefined (trim (CreateProjectForm.description f)));
      destruct (or_undefined (trim (CreateProjectForm.techStack f))); reflexivity.
  - destruct (or_undefined (trim (CreateProjectForm.description f)));
      destruct (or_undefined (trim (CreateProjectForm.techStack f))); reflexivity.
  - unfold CreateProjectForm.canSubmit. destruct Hlen as [[H3 H150] _].
    apply Nat.leb_le in H3, H150. now rewrite H3, H150.
Qed.

End ProjectForm.

Section ProjectFormWitness.
Import JS Http Forms Hook.Mutation.

Lemma create_project_form_submits_valid_witness :
  let f := {| CreateProjectForm.title := "  Café Devlog  ";
              CreateProjectForm.description := " A work journal ";
              CreateProjectForm.techStack := "   " |} in
  let request :=
    json_request "POST" "https://api.devlog.test/projects" "tok-123"
      [("title", "Café Devlog"); ("description", "A work journal"); ("status", "ACTIVE")]
      0 in
  params_get "title" (body request) = Some (trim (CreateProjectForm.title f)) /\
  (3 <= utf16_length (trim (CreateProjectForm.title f)) <= 150)%nat /\
  (utf16_length (CreateProjectForm.description f) <= 2000)%nat /\
  params_get "description" (body request)
  = or_undefined (trim (CreateProjectForm.description f)) /\
  params_get "techStack" (body request)
  = or_undefined (trim (CreateProjectForm.techStack f)) /\
  params_get "status" (body request) = Some "ACTIVE" /\
  CreateProjectForm.canSubmit f false = true.
Proof.
  cbv zeta.
  apply (create_project_form_submits_valid (B := DeleteBody)
           Samples.API_HOST Samples.cookie
           {| CreateProjectForm.title := "  Café Devlog  ";
              CreateProjectForm.description := " A work journal ";
              CreateProjectForm.techStack := "   " |}
           mount
           (setError "" (setIsLoading true (install_controller (abort_current mount))))
           0).
  reflexivity.
Defined.

End ProjectFormWitness.

(** ** The project page after a failed load *)
Section ProjectDetailFailure.
Import JS Http Detail.

(** A failure of the current project request other than a 404 (the
    request is rejected, the body cannot be read, or the status is another
    error) ends the load without a preview request, with the fixed message
    whatever the server sent, and the page shows that message on its error
    card with the retry button. *)
Theorem project_detail_failure (API_HOST : option string) (projectId token : string)
    (c : nat) (net : Settled (Response Project.ProjectDetailResponse))
    (s : State Project.ProjectDetailData) (canManage deleting : bool) :
  abortRef s = Some c ->
  c ∉ aborted s ->
  (forall res, net = Fulfilled res ->
     (exists e, read_body res = Throw e) \/
     (Http.ok res = false /\ status res <> 404)) ->
  let out := Project.load_project_settled API_HOST projectId token c net s in
  snd out = Project.Finished /\
  error (fst out) = "Gagal memuat project. Coba lagi." /\
  data (fst out) = Project.no_data /\
  loading (fst out) = false /\
  (notFound s = false ->
   Pages.ProjectDetail (Pages.useProjectDetail (fst out) canManage) deleting
   = Pages.ErrorCard "Gagal memuat project. Coba lagi."
       [{| Pages.action := Pages.Retry; Pages.href := ""; Pages.disabled := false |}]).
Proof.
  intros Hcur Hab Hfail. cbv zeta.
  assert (Hcatch :
    load_catch "Gagal memuat project. Coba lagi." Project.no_data c s
    = setLoading false
        (setData Project.no_data (setError "Gagal memuat project. Coba lagi." s))).
  { unfold load_catch, load_finally, is_aborted.
    rewrite (detail_is_current c s Hcur), bool_decide_eq_false_2 by exact Hab.
    cbn [orb negb].
    match goal with
    | |- context [is_current c ?t] =>
        replace (is_current c t) with true by (symmetry; now apply detail_is_current)
    end.
    reflexivity. }
  assert (Hs :
    Project.load_project_settled API_HOST projectId token c net s
    = (setLoading false
         (setData Project.no_data (setError "Gagal memuat project. Coba lagi." s)),
       Project.Finished)).
  { unfold Project.load_project_settled.
    destruct net as [res|reason]; [|now rewrite Hcatch].
    destruct (Hfail res eq_refl) as [[e He]|[Hok Hst]].
    - now rewrite He, Hcatch.
    - destruct (read_body res) as [body|e]; [|now rewrite Hcatch].
      rewrite Hok. cbn [negb]. apply Z.eqb_neq in Hst. now rewrite Hst, Hcatch. }
  rewrite Hs. cbn [fst snd]. repeat split.
  intros Hnf. unfold Pages.ProjectDetail, Pages.useProjectDetail.
  cbn [Pages.pd_loading Pages.pd_notFound Pages.pd_project Pages.pd_error
       loading notFound data error setLoading setData setError
       Project.project Project.no_data].
  now rewrite Hnf.
Qed.

Lemma project_detail_failure_witness :
  let net : Settled (Response Project.ProjectDetailResponse) :=
    Fulfilled {| status := 500; content_type := Some "application/json";
                 json := Some {| Project.pdr_success := Some false;
                                 Project.pdr_message := Some "Database is down";
                                 Project.pdr_data := None |} |} in
  let out := Project.load_project_settled Samples.API_HOST "p1" "tok-123" 0 net
               Samples.project_detail_loading in
  snd out = Project.Finished /\
  error (fst out) = "Gagal memuat project. Coba lagi." /\
  data (fst out) = Project.no_data /\
  loading (fst out) = false /\
  (notFound Samples.project_detail_loading = false ->
   Pages.ProjectDetail (Pages.useProjectDetail (fst out) true) false
   = Pages.ErrorCard "Gagal memuat project. Coba lagi."
       [{| Pages.action := Pages.Retry; Pages.href := ""; Pages.disabled := false |}]).
Proof.
  cbv zeta.
  apply (project_detail_failure Samples.API_HOST "p1" "tok-123" 0
           (Fulfilled {| status := 500; content_type := Some "application/json";
                         json := Some {| Project.pdr_success := Some false;
                                         Project.pdr_message := Some "Database is down";
                                         Project.pdr_data := None |} |})
           Samples.project_detail_loading true false).
  - reflexivity.
  - cbn. set_solver.
  - intros res [= <-]. right. split; [reflexivity|discriminate].
Defined.

End ProjectDetailFailure.

(** ** The role after a login *)
Section LoginRole.
Import JS Http Auth Hook.Mutation.

(** After a login the server answered with a role, [getRole] reads that
    role back from the cookie, so that [canManage] holds exactly for the
    role ADMIN. *)
Theorem login_then_getRole (toUTCString : Z -> string) (now : Z) (isHttps : bool)
    (res : Response LoginBody) (data : LoginBody) (r : string) (jar : Jar) (s : State) :
  well_formed jar ->
  Http.ok res = true ->
  read_body res = Normal (Some data) ->
  role data = Some r -> r <> "" ->
  let document :=
    snd (fst (login_settled toUTCString now isHttps (Fulfilled res) (Some jar) s)) in
  Pages.getRole (cookie_string document) = Normal (Some r) /\
  (Pages.canManage (Some r) = true <-> r = "ADMIN").
Proof.
  intros Hwf Hok Hbody Hrole Hr. cbv zeta.
  unfold login_settled. rewrite Hbody, Hok. cbn [negb fst snd].
  rewrite !setCookie_jar by reflexivity. rewrite !not_expired by reflexivity.
  rewrite Hrole, or_else_some_self. cbn [cookie_string].
  set (jar2 := put COOKIE.REFRESH_TOKEN _ (put COOKIE.ACCESS_TOKEN _ jar)).
  assert (Hwf2 : well_formed jar2).
  { apply put_well_formed; [now apply plain_encoded|].
    apply put_well_formed; [now apply plain_encoded|exact Hwf]. }
  assert (Hwf3 : well_formed (put COOKIE.ROLE (encodeURIComponent r) jar2)).
  { apply put_well_formed; [|exact Hwf2].
    unfold plain_cookie. cbn [fst snd]. now rewrite no_char_encoded. }
  assert (HE : encodeURIComponent r <> "")
    by (intros H; now apply encoded_empty in H).
  split.
  - unfold Pages.getRole.
    rewrite (getCookie_stored COOKIE.ROLE (encodeURIComponent r) _ eq_refl Hwf3
               (put_get_same _ _ _) HE).
    rewrite decode_encode. cbn [falsy].
    apply String.eqb_neq in Hr. now rewrite Hr.
  - unfold Pages.canManage. rewrite bool_decide_eq_true. split; congruence.
Qed.

Lemma login_then_getRole_witness :
  let document :=
    snd (fst (login_settled Samples.toUTCString 0 true (Fulfilled Samples.login_ok)
                (Some Samples.jar) mount)) in
  Pages.getRole (cookie_string document) = Normal (Some "USER") /\
  (Pages.canManage (Some "USER") = true <-> "USER" = "ADMIN").
Proof.
  cbv zeta.
  apply (login_then_getRole Samples.toUTCString 0 true Samples.login_ok
           {| lg_message := Some "ok"; access_token := Some "tok/1";
              refresh_token := Some "ref"; role := Some "USER" |}
           "USER" Samples.jar mount).
  - split; [apply NoDup_singleton|reflexivity].
  - reflexivity.
  - reflexivity.
  - reflexivity.
  - discriminate.
Defined.

End LoginRole.

(** ** The URL of a delete *)
Section DeleteUrls.
Import JS Http Hook.

Lemma string_app_inv_head (p a b : string) : p ++ a = p ++ b -> a = b.
Proof.
  induction p as [|c p IH]; [trivial|].
  rewrite !string_app_cons. intros [= H]. now apply IH.
Qed.

Lemma encodeURIComponent_injective (a b : string) :
  encodeURIComponent a = encodeURIComponent b -> a = b.
Proof.
  intros H. pose proof (decode_encode a) as Ha. rewrite H, decode_encode in Ha.
  congruence.
Qed.

Lemma encoded_is_one_segment (v : string) :
  no_char "/" (encodeURIComponent v) = true /\
  no_char "?" (encodeURIComponent v) = true /\
  no_char "#" (encodeURIComponent v) = true.
Proof.
  induction v as [|c v (IH1 & IH2 & IH3)]; [now repeat split|].
  simpl encodeURIComponent. rewrite !no_char_app, IH1, IH2, IH3, !andb_true_r.
  destruct c as [[] [] [] [] [] [] [] []]; now repeat split.
Qed.

(** The request [remove] sends names one project: the id is the last
    segment of its URL, written so that it holds no [/], [?] or [#], and
    two deletes go to the same URL only for the same id. *)
Theorem projects_remove_url_names_one_project (API_HOST document_cookie : option string)
    (x y : string) (s : Projects.State) (rx ry : Request) :
  snd (Projects.remove_call API_HOST document_cookie x s) = RemoveSent rx ->
  snd (Projects.remove_call API_HOST document_cookie y s) = RemoveSent ry ->
  url rx = Projects.endpoint API_HOST ++ "/" ++ encodeURIComponent x /\
  no_char "/" (encodeURIComponent x) = true /\
  no_char "?" (encodeURIComponent x) = true /\
  no_char "#" (encodeURIComponent x) = true /\
  method rx = "DELETE" /\
  (url rx = url ry -> x = y).
Proof.
  unfold Projects.remove_call.
  destruct (getCookie document_cookie COOKIE.ACCESS_TOKEN) as [token|e]; [|discriminate].
  destruct (falsy API_HOST || falsy token); [discriminate|].
  cbn [snd]. intros [= <-] [= <-]. cbn [url method delete_request].
  destruct (encoded_is_one_segment x) as (H1 & H2 & H3).
  repeat (split; [assumption || reflexivity|]).
  intros Hu. apply string_app_inv_head in Hu.
  apply (string_app_inv_head "/") in Hu.
  now apply encodeURIComponent_injective.
Qed.

Lemma projects_remove_url_names_one_project_witness :
  let rx := delete_request "https://api.devlog.test/projects/a%2Fb%3F" "tok-123" in
  let ry := delete_request "https://api.devlog.test/projects/p2" "tok-123" in
  url rx = Projects.endpoint Samples.API_HOST ++ "/" ++ encodeURIComponent "a/b?" /\
  no_char "/" (encodeURIComponent "a/b?") = true /\
  no_char "?" (encodeURIComponent "a/b?") = true /\
  no_char "#" (encodeURIComponent "a/b?") = true /\
  method rx = "DELETE" /\
  (url rx = url ry -> "a/b?" = "p2").
Proof.
  cbv zeta.
  apply (projects_remove_url_names_one_project Samples.API_HOST Samples.cookie
           "a/b?" "p2" Samples.projects_loaded); reflexivity.
Defined.

End DeleteUrls.

(** ** The rows of the worklogs list *)
Section WorklogRows.
Import JS Http Pages.
Variable getTime : string -> option Z.

Lemma logDate_after_key (a b : WorklogItem) ta tb :
  getTime (or_else (Some (logDate a)) (createdAt a)) = Some ta ->
  getTime (or_else (Some (logDate b)) (createdAt b)) = Some tb ->
  logDate_after getTime a b = (ta <? tb).
Proof.
  intros Ha Hb. unfold logDate_after. rewrite Ha, Hb.
  destruct (Z.ltb_spec 0 (tb - ta)), (Z.ltb_spec ta tb); try reflexivity; lia.
Qed.

Lemma rows_of_items (base : string) (busyId : string) (items : list WorklogItem) :
  omap opens
    (List.concat (List.map (fun w =>
       [{| action := OpenWorklog (worklog_id w);
           href := base ++ "/" ++ worklog_id w; disabled := false |};
        {| action := EditWorklog (worklog_id w);
           href := base ++ "/" ++ worklog_id w ++ "/edit"; disabled := false |};
        {| action := DeleteWorklog (worklog_id w);
           href := ""; disabled := String.eqb busyId (worklog_id w) |}])
       items))
  = List.map worklog_id items.
Proof.
  induction items as [|w items IH]; [reflexivity|].
  cbn [List.map List.concat]. rewrite omap_app, IH. reflexivity.
Qed.

(** Once the worklogs are loaded without error, the list shows every
    worklog of the page exactly once, and, when each has a valid date
    ([logDate], or [createdAt] where [logDate] is empty), the latest
    first. *)
Theorem WorklogsList_rows_latest_first (projectId : string)
    (project : option ProjectItem) (h : WorklogsHook) (busyId : string) :
  wl_loading h = false -> wl_error h = "" ->
  let items :=
    default [] (match wl_data h with Some d => Dto.data d | None => None end) in
  exists shown,
    rows (WorklogsList getTime projectId project h busyId) = List.map worklog_id shown /\
    Permutation shown items /\
    ((forall w, In w items ->
        getTime (or_else (Some (logDate w)) (createdAt w)) <> None) ->
     forall (i j : nat) a b ta tb,
       (i < j)%nat -> shown !! i = Some a -> shown !! j = Some b ->
       getTime (or_else (Some (logDate a)) (createdAt a)) = Some ta ->
       getTime (or_else (Some (logDate b)) (createdAt b)) = Some tb ->
       tb <= ta).
Proof.
  intros Hl He. cbv zeta.
  set (items := default [] (match wl_data h with Some d => Dto.data d | None => None end)).
  exists (JSArray.sort (logDate_after getTime) items).
  split; [|split].
  - unfold WorklogsList, rows. fold items. rewrite Hl, He.
    cbn [String.eqb negb controls_of].
    destruct (length (JSArray.sort (logDate_after getTime) items) =? 0)%nat eqn:Hn.
    + apply Nat.eqb_eq in Hn.
      destruct (JSArray.sort (logDate_after getTime) items); [reflexivity|discriminate].
    + rewrite omap_app. cbn [omap opens action].
      apply rows_of_items.
  - apply sort_Permutation.
  - intros Hvalid i j a b ta tb Hij Hi Hj Hta Htb.
    pose (key := fun w : WorklogItem =>
                   default 0 (getTime (or_else (Some (logDate w)) (createdAt w)))).
    assert (Hkey : forall w, In w items ->
              getTime (or_else (Some (logDate w)) (createdAt w)) = Some (key w)).
    { intros w Hw. specialize (Hvalid w Hw). unfold key.
      destruct (getTime _); [reflexivity|congruence]. }
    assert (Hs : StronglySorted (fun a b => key b <= key a)
                   (JSArray.sort (logDate_after getTime) items)).
    { apply sort_sorted. intros x y Hx Hy. apply logDate_after_key; now apply Hkey. }
    pose proof (strongly_sorted_lookup _ _ _ _ _ _ Hs Hij Hi Hj) as Hle.
    cbn beta in Hle. unfold key in Hle. now rewrite Hta, Htb in Hle.
Qed.

End WorklogRows.

Section WorklogRowsWitness.
Import JS Http Pages.

Lemma WorklogsList_rows_latest_first_witness :
  exists shown,
    rows (WorklogsList JSDate.getTime "p1" None (useWorklogs Samples.worklogs_loaded) "")
    = List.map worklog_id shown /\
    Permutation shown
      (default [] (match wl_data (useWorklogs Samples.worklogs_loaded) with
                   | Some d => Dto.data d
                   | None => None
                   end)) /\
    ((forall w,
        In w (default [] (match wl_data (useWorklogs Samples.worklogs_loaded) with
                          | Some d => Dto.data d
                          | None => None
                          end)) ->
        JSDate.getTime (or_else (Some (logDate w)) (createdAt w)) <> None) ->
     forall (i j : nat) a b ta tb,
       (i < j)%nat -> shown !! i = Some a -> shown !! j = Some b ->
       JSDate.getTime (or_else (Some (logDate a)) (createdAt a)) = Some ta ->
       JSDate.getTime (or_else (Some (logDate b)) (createdAt b)) = Some tb ->
       tb <= ta).
Proof.
  apply (WorklogsList_rows_latest_first JSDate.getTime "p1" None
           (useWorklogs Samples.worklogs_loaded) ""); reflexivity.
Defined.

End WorklogRowsWitness.

(** * What a failed request reports *)
Section ServerMessages.
Import JS Http.






End ServerMessages.


